(** * postgis-geojson: chunked export of a PostGIS table

    A shallow embedding of the two zx scripts of the repository and the
    properties of the row counter, the chunk exporter, the merger and the
    converter:
    - [table-to-geojson.ts], the pipeline that the container runs:
      [tableToGeojsonChunksOgr2ogr], [mergeGeojson], [geojsonToGeobuf]
      (and [tableToGeojsonChunks], whose call is commented out);
    - [table-to-geobuf.ts], its Geobuf variant: [queryPostgres] through
      [xxd] and [tableToGeobufChunks] (its calls are commented out and its
      [mergeGeobuf] is an empty stub, left out here).

    The scripts drive external programs ([psql], [ogr2ogr], [ogrmerge.py],
    [find], [rm], [xxd], [json2geobuf]).  Each invocation is a [cmd]; what
    the program answers (exit code, output, what it left at its
    destination) is chosen by an environment [Env], and the scripts are
    functions in a monad that threads the file system, the console and
    the list of invocations, with the rejections of zx and [process.exit]
    as results.  The [while (true)] loop of the exporters takes a bound on
    its number of turns; the properties say when the bound is enough. *)

From Stdlib Require Import ZArith String Ascii List.
From Stdlib.Strings Require Import Byte.
From stdpp Require Import base tactics option list list_numbers strings pretty gmap fin_maps.

Local Open Scope Z_scope.
Local Open Scope string_scope.
Local Open Scope list_scope.

(** ** JavaScript strings and numbers *)

Module JS.

(** The values of type [number] that the scripts compute with: integer
    valued doubles, and [NaN], which [parseInt] returns on text that does
    not start with a number.  The doubles are kept as the integers they
    hold: [+], [>], [parseInt] and the printing of a number in a template
    are those of the integers, which is what the script does as long as
    counts, chunk sizes and offsets stay below 2^53 in absolute value.
    Beyond, a double rounds; the properties that depend on the value of a
    count, a chunk size or an offset are stated below 2^53. *)
Inductive number :=
| Num (z : Z)
| NaN.

Global Instance number_eq_dec : EqDecision number.
Proof. solve_decision. Defined.

(** [a > b]: false as soon as one side is [NaN]. *)
Definition gt (a b : number) : bool :=
  match a, b with
  | Num x, Num y => bool_decide (y < x)
  | _, _ => false
  end.

(** [a + b] *)
Definition add (a b : number) : number :=
  match a, b with
  | Num x, Num y => Num (x + y)
  | _, _ => NaN
  end.

(** [`${n}`] *)
Definition show (n : number) : string :=
  match n with
  | Num z => pretty z
  | NaN => "NaN"
  end.

(** White space and line terminators of the ASCII range. *)
Definition is_ws (c : ascii) : bool :=
  match c with
  | "009" | "010" | "011" | "012" | "013" | " " => true
  | _ => false
  end%char.

Fixpoint trimStart (s : string) : string :=
  match s with
  | String c s' => if is_ws c then trimStart s' else s
  | EmptyString => EmptyString
  end.

Definition trimEnd (s : string) : string :=
  String.rev (trimStart (String.rev s)).

(** [s.trim()] *)
Definition trim (s : string) : string := trimEnd (trimStart s).

(** [s.split(sep)] for a non-empty separator.  [skip] counts the
    characters of a separator that was just recognised and are still to
    be dropped; [cur] is the current piece, reversed. *)
Fixpoint split_go (sep : string) (skip : nat) (cur s : string) : list string :=
  match s with
  | EmptyString => [String.rev cur]
  | String c s' =>
      match skip with
      | S k => split_go sep k cur s'
      | O =>
          if String.prefix sep s
          then String.rev cur :: split_go sep (String.length sep - 1) EmptyString s'
          else split_go sep 0 (String c cur) s'
      end
  end.

Definition split (sep s : string) : list string := split_go sep 0 EmptyString s.

(** [s.split(sep)[0]] (the array is never empty). *)
Definition split_head (sep s : string) : string := hd EmptyString (split sep s).

(** [xs.join(sep)] *)
Fixpoint join (sep : string) (xs : list string) : string :=
  match xs with
  | [] => EmptyString
  | [x] => x
  | x :: xs' => x +:+ sep +:+ join sep xs'
  end.

(** [xs.includes(x)] *)
Definition includes (xs : list string) (x : string) : bool :=
  existsb (String.eqb x) xs.

Definition digit (radix : Z) (c : ascii) : option Z :=
  let n := Z.of_N (N_of_ascii c) in
  let v :=
    if bool_decide (48 <= n <= 57) then Some (n - 48)
    else if bool_decide (97 <= n <= 122) then Some (n - 87)
    else if bool_decide (65 <= n <= 90) then Some (n - 55)
    else None in
  match v with
  | Some d => if bool_decide (d < radix) then Some d else None
  | None => None
  end.

(** The longest prefix of digits, as a number; [acc] is [None] until a
    first digit was read. *)
Fixpoint digits (radix : Z) (acc : option Z) (s : string) : option Z :=
  match s with
  | String c s' =>
      match digit radix c with
      | Some d => digits radix (Some (default 0 acc * radix + d)) s'
      | None => acc
      end
  | EmptyString => acc
  end.

Definition unsigned (s : string) : option Z :=
  match s with
  | String "0" (String "x" r) | String "0" (String "X" r) => digits 16 None r
  | _ => digits 10 None s
  end.

(** [parseInt(s)] without a radix: leading white space, a sign, an
    optional [0x], then the longest run of digits; [NaN] if there is
    none. *)
Definition parseInt (s : string) : number :=
  let s := trimStart s in
  let '(neg, r) :=
    match s with
    | String "-" r => (true, r)
    | String "+" r => (false, r)
    | _ => (false, s)
    end in
  match unsigned r with
  | Some z => Num (if neg : bool then - z else z)
  | None => NaN
  end.

End JS.

(** ** The SQL statements of the scripts

    The scripts build their statements as template strings.  They are kept
    here as syntax trees, one constructor per construct the templates use;
    [render] prints a tree back to the text of the template, up to line
    breaks, indentation, the closing semicolon and the case of [AS].  The
    names of tables and columns are spliced into the text as they are. *)

Module Sql.

Local Set Warnings "-register-all".

Inductive expr :=
| EStar
| ECol (c : string)
| EStr (s : string)
| ENum (n : JS.number)
| ECall (f : string) (args : list expr)
| ECast (e : expr) (ty : string)
| EMinus (a b : expr).

Inductive select :=
| Select (items : list (expr * option string)) (from : source)
    (where_ : option cond) (order_by : option string)
    (limit_offset : option (JS.number * JS.number))
with source :=
| Table (t : string)
| Sub (q : select) (alias : string)
with cond :=
| InSub (col : string) (q : select)
| EqStr (col lit : string).

Definition items (q : select) := let 'Select i _ _ _ _ := q in i.
Definition from (q : select) := let 'Select _ f _ _ _ := q in f.
Definition where_ (q : select) := let 'Select _ _ w _ _ := q in w.
Definition order_by (q : select) := let 'Select _ _ _ o _ := q in o.
Definition limit_offset (q : select) := let 'Select _ _ _ _ l := q in l.

Fixpoint render_expr (e : expr) : string :=
  match e with
  | EStar => "*"
  | ECol c => c
  | EStr s => "'" +:+ s +:+ "'"
  | ENum n => JS.show n
  | ECall f args => f +:+ "(" +:+ JS.join ", " (List.map render_expr args) +:+ ")"
  | ECast e ty => render_expr e +:+ "::" +:+ ty
  | EMinus a b => render_expr a +:+ " - " +:+ render_expr b
  end.

Definition render_item (i : expr * option string) : string :=
  match i with
  | (e, Some a) => render_expr e +:+ " as " +:+ a
  | (e, None) => render_expr e
  end.

Fixpoint render (q : select) : string :=
  let 'Select its f w o l := q in
  "SELECT " +:+ JS.join ", " (List.map render_item its)
  +:+ " FROM " +:+ render_source f
  +:+ match w with Some c => " WHERE " +:+ render_cond c | None => EmptyString end
  +:+ match o with Some c => " ORDER BY " +:+ c | None => EmptyString end
  +:+ match l with
      | Some (n, k) => " LIMIT " +:+ JS.show n +:+ " OFFSET " +:+ JS.show k
      | None => EmptyString
      end
with render_source (f : source) : string :=
  match f with
  | Table t => t
  | Sub q a => "(" +:+ render q +:+ ") AS " +:+ a
  end
with render_cond (c : cond) : string :=
  match c with
  | InSub col q => col +:+ " IN (" +:+ render q +:+ ")"
  | EqStr col lit => col +:+ " = '" +:+ lit +:+ "'"
  end.

(** Every [SELECT] of a statement, the statement itself first. *)
Fixpoint selects (q : select) : list select :=
  let 'Select _ f w _ _ := q in
  q :: selects_source f ++ match w with Some c => selects_cond c | None => [] end
with selects_source (f : source) : list select :=
  match f with
  | Table _ => []
  | Sub q _ => selects q
  end
with selects_cond (c : cond) : list select :=
  match c with
  | InSub _ q => selects q
  | EqStr _ _ => []
  end.

(** The names of the columns a [SELECT] returns, over a table whose
    columns are [schema]: [*] stands for the columns of the source, an
    aliased expression for its alias, a plain column for itself. *)
Definition item_columns (src : list string) (i : expr * option string) : list string :=
  match i with
  | (_, Some a) => [a]
  | (EStar, None) => src
  | (ECol c, None) => [c]
  | (_, None) => ["?column?"]
  end.

Fixpoint columns (schema : list string) (q : select) : list string :=
  let 'Select its f _ _ _ := q in
  let src := match f with
             | Table _ => schema
             | Sub q' _ => columns schema q'
             end in
  concat (List.map (item_columns src) its).

(** [SELECT count( * ) FROM ${tableName}] *)
Definition count_rows (tableName : string) : select :=
  Select [(ECall "count" [EStar], None)] (Table tableName) None None None.

(** [SELECT column_name FROM information_schema.columns
     WHERE table_name = '${tableName}';] *)
Definition column_names (tableName : string) : select :=
  Select [(ECol "column_name", None)] (Table "information_schema.columns")
    (Some (EqStr "table_name" tableName)) None None.

(** [SELECT ${idColumn} FROM ${tableName} ORDER BY ${idColumn}
     LIMIT ${chunkSize} OFFSET ${offset}] *)
Definition page_ids (tableName idColumn : string) (chunkSize offset : JS.number) : select :=
  Select [(ECol idColumn, None)] (Table tableName) None
    (Some idColumn) (Some (chunkSize, offset)).

(** [SELECT * FROM ${tableName} WHERE ${idColumn} IN ( ... )]: the rows of
    one chunk; also the whole [-sql] argument of [ogr2ogr]. *)
Definition page_rows (tableName idColumn : string) (chunkSize offset : JS.number) : select :=
  Select [(EStar, None)] (Table tableName)
    (Some (InSub idColumn (page_ids tableName idColumn chunkSize offset))) None None.

(** The statement of [tableToGeojsonChunks]. *)
Definition geojson_chunk (tableName geomColumn idColumn : string)
    (chunkSize offset : JS.number) : select :=
  Select
    [(ECall "jsonb_build_object"
        [EStr "type"; EStr "FeatureCollection";
         EStr "features"; ECall "jsonb_agg" [ECol "features.feature"]], None)]
    (Sub
       (Select
          [(ECall "jsonb_build_object"
              [EStr "type"; EStr "Feature";
               EStr "geometry";
               ECast (ECall "ST_AsGeoJSON"
                        [ECall "ST_Transform" [ECol geomColumn; ENum (JS.Num 4326)]])
                     "jsonb";
               EStr "properties";
               EMinus (ECall "to_jsonb" [ECol "properties"]) (EStr geomColumn)],
            Some "feature")]
          (Sub (page_rows tableName idColumn chunkSize offset) "properties")
          None None None)
       "features")
    None None None.

(** The rows handed to [ST_AsGeobuf] by [tableToGeobufChunks]: the
    geometry, the identifier, then [properties]. *)
Definition geobuf_features (tableName idColumn geomColumn : string)
    (properties : list string) (chunkSize offset : JS.number) : select :=
  Select
    ((ECall "ST_Transform" [ECol geomColumn; ENum (JS.Num 4326)], Some geomColumn)
     :: (ECol idColumn, None)
     :: List.map (fun p => (ECol p, None)) properties)
    (Sub (page_rows tableName idColumn chunkSize offset) "sq")
    None None None.

(** The statement of [tableToGeobufChunks]. *)
Definition geobuf_chunk (tableName idColumn geomColumn : string)
    (properties : list string) (chunkSize offset : JS.number) : select :=
  Select
    [(ECall "encode"
        [ECall "ST_AsGeobuf" [ECol "features"; EStr geomColumn]; EStr "hex"], None)]
    (Sub (geobuf_features tableName idColumn geomColumn properties chunkSize offset)
       "features")
    None None None.

End Sql.

(** ** External programs and the file system *)

(** What zx hands back for a finished process; [combined] is the text
    that [`${e}`] prints for a failed one. *)
Record ProcessOutput := {
  exitCode : Z;
  stdout : string;
  combined : string;
}.

Definition toString (e : ProcessOutput) : string := combined e.

(** Where the standard output of [psql] goes: back to the script
    ([-c ${query}]), to a file ([>${filePath} 2>/dev/null]), or through
    [xxd -p -r] to a file ([| xxd -p -r > ${filePath}]). *)
Inductive redirect :=
| Inherit
| ToFile (p : string)
| XxdToFile (p : string).

(** The command lines of the scripts: [psql -t -c query], [rm -rf path],
    [ogr2ogr -t_srs EPSG:4326 -f GeoJSON dst PG:... -sql sql],
    [ogrmerge.py -overwrite_ds -single -f GeoJSON -o dst pattern],
    [find . -name pattern -delete] and [json2geobuf src > dst].  zx quotes
    the interpolated pattern, so that [ogrmerge.py] and [find] expand it
    themselves. *)
Inductive cmd :=
| Psql (query : Sql.select) (out : redirect)
| RmRf (path : string)
| Ogr2ogr (dst : string) (sql : Sql.select)
| Ogrmerge (dst pattern : string)
| FindDelete (pattern : string)
| Json2geobuf (src dst : string).

(** The files below the working directory, by relative path. *)
Abbreviation files := (gmap string (list byte)).

(** The answer of the outside world to one command: the process result;
    for a tool that writes its destination itself, the state of the
    destination when it is done ([None]: no such file); for a tool that
    deletes, which of its targets it got rid of before it failed (on
    success it gets rid of all of them). *)
Record response := {
  proc : ProcessOutput;
  dest : option (list byte);
  swept : string -> bool;
}.

Definition ok (r : response) : bool := bool_decide (exitCode (proc r) = 0).

Definition byte_of_Z (z : Z) : byte := default x00 (Byte.of_N (Z.to_N z)).

(** [xxd -p -r]: hexadecimal digits are read in pairs, one byte per pair;
    every other character (blanks, line ends) is skipped.  [hi] is the
    first digit of a pair that is still open. *)
Fixpoint xxd_go (hi : option Z) (s : string) : list byte :=
  match s with
  | EmptyString => []
  | String c s' =>
      match JS.digit 16 c, hi with
      | None, _ => xxd_go hi s'
      | Some d, None => xxd_go (Some d) s'
      | Some d, Some h => byte_of_Z (h * 16 + d) :: xxd_go None s'
      end
  end.

Definition xxd_p_r (s : string) : list byte := xxd_go None s.

(** [encode(bytea, 'hex')] of PostgreSQL: two lower-case digits per byte. *)
Definition hex_char (n : N) : ascii :=
  ascii_of_N (if (n <? 10)%N then 48 + n else 87 + n).

Fixpoint encode_hex (bs : list byte) : string :=
  match bs with
  | [] => EmptyString
  | b :: bs' =>
      String (hex_char (Byte.to_N b / 16)) (String (hex_char (Byte.to_N b mod 16))
        (encode_hex bs'))
  end.

(** The last component of a path. *)
Fixpoint basename_go (cur s : string) : string :=
  match s with
  | EmptyString => String.rev cur
  | String "/" s' => basename_go EmptyString s'
  | String c s' => basename_go (String c cur) s'
  end.

Definition basename (p : string) : string := basename_go EmptyString p.

(** Shell patterns as [find -name] matches them against a base name: [*]
    is any run of characters, [?] any one character, the rest is literal.
    Bracket expressions and escapes are left out: they do not occur in
    the pattern of the pipeline, and the properties of the merger over
    other file paths are stated for paths without [[] and backslash. *)
Fixpoint glob (pat s : string) : bool :=
  match pat with
  | EmptyString => match s with EmptyString => true | _ => false end
  | String "*" pat' =>
      (fix star (s : string) : bool :=
         glob pat' s || match s with
                        | EmptyString => false
                        | String _ s' => star s'
                        end) s
  | String "?" pat' =>
      match s with
      | EmptyString => false
      | String _ s' => glob pat' s'
      end
  | String c pat' =>
      match s with
      | EmptyString => false
      | String d s' => Ascii.eqb c d && glob pat' s'
      end
  end.

(** The targets of [rm -rf path]: the path and what lies below it. *)
Definition rm_targets (path q : string) : bool :=
  String.eqb q path || String.prefix (path +:+ "/") q.

(** The targets of [find . -name pattern -delete]. *)
Definition find_targets (pattern q : string) : bool :=
  glob pattern (basename q).

(** A deleting tool removes its targets: all of them when it succeeds,
    those the environment names when it fails. *)
Definition sweep (target : string -> bool) (r : response) (fs : files) : files :=
  filter (fun kv => negb (target kv.1 && (ok r || swept r kv.1)) = true) fs.

(** A writing tool leaves its destination as the environment says. *)
Definition put (dst : string) (content : option (list byte)) (fs : files) : files :=
  match content with
  | Some b => <[dst := b]> fs
  | None => delete dst fs
  end.

(** What a command does to the files.  A shell redirection creates its
    target whatever the exit code; the other tools touch their
    destination or their targets only. *)
Definition effect (c : cmd) (r : response) (fs : files) : files :=
  match c with
  | Psql _ Inherit => fs
  | Psql _ (ToFile p) => <[p := list_byte_of_string (stdout (proc r))]> fs
  | Psql _ (XxdToFile p) => <[p := xxd_p_r (stdout (proc r))]> fs
  | RmRf p => sweep (rm_targets p) r fs
  | Ogr2ogr dst _ => put dst (dest r) fs
  | Ogrmerge dst _ => put dst (dest r) fs
  | FindDelete pat => sweep (find_targets pat) r fs
  | Json2geobuf _ dst => <[dst := list_byte_of_string (stdout (proc r))]> fs
  end.

(** The file a command writes, if any. *)
Definition written (c : cmd) : option string :=
  match c with
  | Psql _ (ToFile p) | Psql _ (XxdToFile p) => Some p
  | Ogr2ogr dst _ | Ogrmerge dst _ | Json2geobuf _ dst => Some dst
  | Psql _ Inherit | RmRf _ | FindDelete _ => None
  end.

(** The environment answers the [n]-th command, seeing the files. *)
Definition Env := nat -> files -> cmd -> response.

(** ** The script monad *)

(** Lines on the console: [console.log] and [console.timeEnd] (which
    prints its label and an elapsed time, left out). *)
Inductive line :=
| Log (text : string)
| TimeEnd (label : string).

Record World := {
  fs : files;
  console : list line;
  trace : list (cmd * response);
}.

(** How a piece of script ends: with a value, with a rejected promise
    (zx rejects with the [ProcessOutput] of a process that exited non-zero),
    in [process.exit], or not within the steps allotted to its loop. *)
Inductive result (A : Type) :=
| Ret (a : A)
| Throw (e : ProcessOutput)
| Exit (code : Z)
| OutOfFuel.

Arguments Ret {A} a.
Arguments Throw {A} e.
Arguments Exit {A} code.
Arguments OutOfFuel {A}.

Definition M (A : Type) : Type := World -> result A * World.

Global Instance M_ret : MRet M := fun A a w => (Ret a, w).

Global Instance M_bind : MBind M := fun A B f m w =>
  match m w with
  | (Ret a, w') => f a w'
  | (Throw e, w') => (Throw e, w')
  | (Exit c, w') => (Exit c, w')
  | (OutOfFuel, w') => (OutOfFuel, w')
  end.

(** [try { body } catch (e) { handler }] *)
Definition try_catch {A} (body : M A) (handler : ProcessOutput -> M A) : M A :=
  fun w =>
    match body w with
    | (Throw e, w') => handler e w'
    | other => other
    end.

(** [process.exit(code)] *)
Definition exit {A} (code : Z) : M A := fun w => (Exit code, w).

(** The loop has used up its tests. *)
Definition out_of_fuel {A} : M A := fun w => (OutOfFuel, w).

(** One more line on the console. *)
Definition say (l : line) (w : World) : World :=
  {| fs := fs w; console := console w ++ [l]; trace := trace w |}.

Definition console_log (text : string) : M unit := fun w => (Ret (), say (Log text) w).

(** [console.time] starts a timer and prints nothing. *)
Definition console_time (label : string) : M unit := mret ().

Definition console_timeEnd (label : string) : M unit := fun w =>
  (Ret (), say (TimeEnd label) w).

(** [spinner(title, callback)] runs the callback. *)
Definition spinner {A} (title : string) (callback : M A) : M A := callback.

(** The exit status of the process once the top level of a script ended
    this way. *)
Definition status {A} (r : result A) : option Z :=
  match r with
  | Ret _ => Some 0
  | Throw _ => Some 1
  | Exit c => Some c
  | OutOfFuel => None
  end.

(** The world before the script runs. *)
Definition start (fs0 : files) : World :=
  {| fs := fs0; console := []; trace := [] |}.

(** One command against the environment: its answer, and the world once
    it has run (the files changed, the invocation recorded). *)
Definition answer (env : Env) (c : cmd) (w : World) : response :=
  env (length (trace w)) (fs w) c.

Definition after (env : Env) (c : cmd) (w : World) : World :=
  {| fs := effect c (answer env c w) (fs w);
     console := console w;
     trace := trace w ++ [(c, answer env c w)] |}.

(** [await $`...`]: a non-zero exit code rejects with the process
    result. *)
Definition run (env : Env) (c : cmd) : M ProcessOutput := fun w =>
  (if ok (answer env c w)
   then Ret (proc (answer env c w))
   else Throw (proc (answer env c w)),
   after env c w).

(** The loop of the three exporters,
    [while (true) { if (offset > count) break; body; offset += chunkSize; }],
    with a bound on the number of tests of [offset > count]. *)
Fixpoint export_loop (fuel : nat) (count chunkSize : JS.number)
    (body : JS.number -> M unit) (offset : JS.number) : M unit :=
  match fuel with
  | O => out_of_fuel
  | S fuel' =>
      if JS.gt offset count then mret ()
      else body offset;; export_loop fuel' count chunkSize body (JS.add offset chunkSize)
  end.

Definition newline : string := String "010" EmptyString.

(** ** table-to-geojson.ts *)

Module Geojson.
Section Script.
Variable env : Env.

Definition executed (query : Sql.select) : string :=
  "[queryPostgres] Executed query: " +:+ Sql.render query.

Definition exported (query : Sql.select) (filePath : string) : string :=
  "[queryPostgres] Exported query to file " +:+ filePath +:+ ": " +:+ Sql.render query.

Definition queryPostgres (query : Sql.select) (filePath : string) : M ProcessOutput :=
  if bool_decide (String.length filePath = 0%nat) then
    try_catch
      (console_time (executed query);;
       output ← spinner "[queryPostgres] Executing query..."
                  (run env (Psql query Inherit));
       console_timeEnd (executed query);;
       mret output)
      (fun e =>
         console_timeEnd (executed query);;
         console_log ("[queryPostgres] Error: " +:+ toString e);;
         exit 1)
  else
    try_catch
      (console_time (exported query filePath);;
       output ← spinner ("[queryPostgres] Exporting query to file " +:+ filePath +:+ "...")
                  (run env (Psql query (ToFile filePath)));
       console_timeEnd (exported query filePath);;
       mret output)
      (fun e =>
         console_timeEnd (exported query filePath);;
         console_log ("[queryPostgres] Error: " +:+ toString e);;
         exit 1).

Definition part (baseFilePath : string) (offset : JS.number) : string :=
  baseFilePath +:+ "_" +:+ JS.show offset +:+ ".geojson".

(** One turn of the loop of [tableToGeojsonChunks]. *)
Definition psql_chunk (tableName geomColumn idColumn : string) (chunkSize : JS.number)
    (baseFilePath : string) (offset : JS.number) : M unit :=
  let partFilePath := part baseFilePath offset in
  run env (RmRf partFilePath);;
  queryPostgres (Sql.geojson_chunk tableName geomColumn idColumn chunkSize offset)
    partFilePath;;
  mret ().

Definition tableToGeojsonChunks (fuel : nat) (tableName geomColumn idColumn : string)
    (chunkSize : JS.number) (filePath : string) : M string :=
  let created := "[tableToGeojson] Created " +:+ tableName +:+ " in " +:+ filePath in
  try_catch
    (console_time created;;
     let baseFilePath := JS.split_head ".geojson" filePath in
     countStr ← queryPostgres (Sql.count_rows tableName) EmptyString;
     let count := JS.parseInt (JS.trim (stdout countStr)) in
     export_loop fuel count chunkSize
       (psql_chunk tableName geomColumn idColumn chunkSize baseFilePath) (JS.Num 0);;
     console_timeEnd created;;
     mret filePath)
    (fun e =>
       console_timeEnd created;;
       console_log ("[tableToGeojson] Error: " +:+ toString e);;
       exit 1).

Definition processed (offset : JS.number) : string :=
  "[tableToGeojsonChunksOgr2ogr] Processed " +:+ JS.show offset.

(** One turn of the loop of [tableToGeojsonChunksOgr2ogr].  The
    statement is spliced into the single-quoted [-sql '...']: it reaches
    [ogr2ogr] as the template has it when zx leaves the names of the table
    and of the identifier unquoted (characters of [[a-z0-9/_.\-@:=]], in
    either case), which is what the properties about this statement
    assume. *)
Definition ogr2ogr_chunk (tableName idColumn : string) (chunkSize : JS.number)
    (baseFilePath : string) (offset : JS.number) : M unit :=
  let partFilePath := part baseFilePath offset in
  run env (RmRf partFilePath);;
  console_time (processed offset);;
  console_log ("Processing " +:+ JS.show offset);;
  run env (Ogr2ogr partFilePath (Sql.page_rows tableName idColumn chunkSize offset));;
  console_timeEnd (processed offset).

Definition tableToGeojsonChunksOgr2ogr (fuel : nat) (tableName idColumn : string)
    (chunkSize : JS.number) (filePath : string) : M string :=
  let created :=
    "[tableToGeojsonChunksOgr2ogr] Created " +:+ tableName +:+ " in " +:+ filePath in
  try_catch
    (console_time created;;
     let baseFilePath := JS.split_head ".geojson" filePath in
     countStr ← queryPostgres (Sql.count_rows tableName) EmptyString;
     let count := JS.parseInt (JS.trim (stdout countStr)) in
     export_loop fuel count chunkSize
       (ogr2ogr_chunk tableName idColumn chunkSize baseFilePath) (JS.Num 0);;
     console_timeEnd created;;
     mret filePath)
    (fun e =>
       console_timeEnd created;;
       console_log ("[tableToGeojsonChunksOgr2ogr] Error: " +:+ toString e);;
       exit 1).

Definition mergeGeojson (filePath : string) : M string :=
  let merged := "[mergeGeojson] Merged chunks to " +:+ filePath in
  try_catch
    (console_time merged;;
     let baseFilePath := JS.split_head ".geojson" filePath in
     let chunksPattern := baseFilePath +:+ "_*.geojson" in
     spinner "[mergeGeojson] Merging chunks..."
       (run env (Ogrmerge filePath chunksPattern));;
     spinner "[mergeGeojson] Deleting chunks..."
       (run env (FindDelete chunksPattern));;
     mret filePath)
    (fun e =>
       console_timeEnd merged;;
       console_log ("[mergeGeojson] Error: " +:+ toString e);;
       exit 1).

Definition geojsonToGeobuf (filePath : string) : M string :=
  let baseFilePath := JS.split_head ".geojson" filePath in
  let outputPath := baseFilePath +:+ ".gbf" in
  let converted :=
    "[geojsonToGeobuf] Converted " +:+ filePath +:+ " to " +:+ outputPath in
  try_catch
    (console_time converted;;
     spinner "[geojsonToGeobuf] Converting geojson to geobuf..."
       (run env (Json2geobuf filePath outputPath));;
     mret outputPath)
    (fun e =>
       console_timeEnd converted;;
       console_log ("[geojsonToGeobuf] Error: " +:+ toString e);;
       exit 1).

(** The variables of [process.env] the script reads. *)
Record Config := {
  TABLE_NAME : option string;
  GEOM_COLUMN : option string;
  ID_COLUMN : option string;
  CHUNK_SIZE : option string;
}.

(** [v || d] on a string that may be undefined. *)
Definition or_else (v : option string) (d : string) : string :=
  match v with
  | Some (String c s) => String c s
  | _ => d
  end.

Definition tableName (cfg : Config) : string := or_else (TABLE_NAME cfg) "table".
Definition geomColumn (cfg : Config) : string := or_else (GEOM_COLUMN cfg) "geom".
Definition idColumn (cfg : Config) : string := or_else (ID_COLUMN cfg) "id".
Definition chunkSize (cfg : Config) : JS.number :=
  JS.parseInt (or_else (CHUNK_SIZE cfg) "1000000").
Definition filePath : string := "layer.geojson".

(** The top level of the script. *)
Definition main (fuel : nat) (cfg : Config) : M string :=
  tableToGeojsonChunksOgr2ogr fuel (tableName cfg) (idColumn cfg) (chunkSize cfg) filePath;;
  mergeGeojson filePath;;
  geojsonToGeobuf filePath.

End Script.
End Geojson.

(** ** table-to-geobuf.ts *)

Module Geobuf.
Section Script.
Variable env : Env.

Definition executed (query : Sql.select) : string :=
  "[queryPostgres] Executed query: " +:+ Sql.render query.

Definition exported (query : Sql.select) (filePath : string) : string :=
  "[queryPostgres] Exported query to file " +:+ filePath +:+ ": " +:+ Sql.render query.

Definition queryPostgres (query : Sql.select) (filePath : string) : M ProcessOutput :=
  if bool_decide (String.length filePath = 0%nat) then
    try_catch
      (console_time (executed query);;
       output ← spinner "[queryPostgres] Executing query..."
                  (run env (Psql query Inherit));
       console_timeEnd (executed query);;
       mret output)
      (fun e =>
         console_timeEnd (executed query);;
         console_log ("[queryPostgres] Error: " +:+ toString e);;
         exit 1)
  else
    try_catch
      (console_time (exported query filePath);;
       output ← spinner ("[queryPostgres] Exporting query to file " +:+ filePath +:+ "...")
                  (run env (Psql query (XxdToFile filePath)));
       console_timeEnd (exported query filePath);;
       mret output)
      (fun e =>
         console_timeEnd (exported query filePath);;
         console_log ("[queryPostgres] Error: " +:+ toString e);;
         exit 1).

Definition part (baseFilePath : string) (offset : JS.number) : string :=
  baseFilePath +:+ "_" +:+ JS.show offset +:+ ".gbf".

(** [columns.stdout.trim().split('\n').map(p => p.trim())
      .filter(p => ![idColumn, geomColumn].includes(p))] *)
Definition properties_of (columns : string) (idColumn geomColumn : string) : list string :=
  List.filter (fun property => negb (JS.includes [idColumn; geomColumn] property))
    (List.map JS.trim (JS.split newline (JS.trim columns))).

(** One turn of the loop of [tableToGeobufChunks]. *)
Definition geobuf_chunk (tableName idColumn geomColumn : string) (properties : list string)
    (chunkSize : JS.number) (baseFilePath : string) (offset : JS.number) : M unit :=
  let partFilePath := part baseFilePath offset in
  queryPostgres
    (Sql.geobuf_chunk tableName idColumn geomColumn properties chunkSize offset)
    partFilePath;;
  mret ().

Definition tableToGeobufChunks (fuel : nat) (tableName idColumn geomColumn : string)
    (chunkSize : JS.number) (filePath : string) : M string :=
  let created := "[tableToGeobufChunks] Created " +:+ tableName +:+ " in " +:+ filePath in
  try_catch
    (console_time created;;
     let baseFilePath := JS.split_head ".gbf" filePath in
     countStr ← queryPostgres (Sql.count_rows tableName) EmptyString;
     let count := JS.parseInt (JS.trim (stdout countStr)) in
     columns ← queryPostgres (Sql.column_names tableName) EmptyString;
     let properties := properties_of (stdout columns) idColumn geomColumn in
     export_loop fuel count chunkSize
       (geobuf_chunk tableName idColumn geomColumn properties chunkSize baseFilePath)
       (JS.Num 0);;
     console_timeEnd created;;
     mret filePath)
    (fun e =>
       console_timeEnd created;;
       console_log ("[tableToGeobufChunks] Error: " +:+ toString e);;
       exit 1).

End Script.
End Geobuf.

(** ** The chunk offsets of the specification *)

(** [{0, C, 2C, ..., ⌊R/C⌋·C}], in increasing order. *)
Definition chunk_offsets (R C : Z) : list Z :=
  (fun k => k * C) <$> seqZ 0 (R / C + 1).

(** The commands of one chunk, per exporter. *)
Definition ogr2ogr_cmds (tableName idColumn : string) (C : Z) (base : string)
    (o : Z) : list cmd :=
  [RmRf (Geojson.part base (JS.Num o));
   Ogr2ogr (Geojson.part base (JS.Num o))
     (Sql.page_rows tableName idColumn (JS.Num C) (JS.Num o))].

Definition geojson_cmds (tableName geomColumn idColumn : string) (C : Z) (base : string)
    (o : Z) : list cmd :=
  [RmRf (Geojson.part base (JS.Num o));
   Psql (Sql.geojson_chunk tableName geomColumn idColumn (JS.Num C) (JS.Num o))
     (ToFile (Geojson.part base (JS.Num o)))].

Definition geobuf_cmds (tableName idColumn geomColumn : string) (properties : list string)
    (C : Z) (base : string) (o : Z) : list cmd :=
  [Psql (Sql.geobuf_chunk tableName idColumn geomColumn properties (JS.Num C) (JS.Num o))
     (XxdToFile (Geobuf.part base (JS.Num o)))].

(** An environment in which every command succeeds. *)
Definition all_ok (env : Env) : Prop := forall n fs c, ok (env n fs c) = true.

(** An environment in which the table [tableName] has [R] rows. *)
Definition counts (env : Env) (tableName : string) (R : Z) : Prop :=
  forall n fs,
    JS.parseInt (JS.trim (stdout (proc (env n fs (Psql (Sql.count_rows tableName) Inherit)))))
    = JS.Num R.

(** * The vocabulary of the properties *)

(** What the [catch] of [queryPostgres] prints after its timer. *)
Definition query_failure (e : ProcessOutput) : line :=
  Log ("[queryPostgres] Error: " +:+ toString e).

(** What the [catch] of an exporter, of the merger or of the converter
    prints before [process.exit(1)]. *)
Definition caught (label stage : string) (e : ProcessOutput) (w : World) : World :=
  say (Log ("[" +:+ stage +:+ "] Error: " +:+ toString e)) (say (TimeEnd label) w).

(** The labels of the timers of the exporters, of the merger and of the
    converter; the chunk pattern and the output path they compute. *)
Definition ogr2ogr_created (tableName filePath : string) : string :=
  "[tableToGeojsonChunksOgr2ogr] Created " +:+ tableName +:+ " in " +:+ filePath.

Definition geojson_created (tableName filePath : string) : string :=
  "[tableToGeojson] Created " +:+ tableName +:+ " in " +:+ filePath.

Definition geobuf_created (tableName filePath : string) : string :=
  "[tableToGeobufChunks] Created " +:+ tableName +:+ " in " +:+ filePath.

Definition merged (filePath : string) : string :=
  "[mergeGeojson] Merged chunks to " +:+ filePath.

Definition chunksPattern (filePath : string) : string :=
  JS.split_head ".geojson" filePath +:+ "_*.geojson".

Definition outputPath (filePath : string) : string :=
  JS.split_head ".geojson" filePath +:+ ".gbf".

Definition converted (filePath : string) : string :=
  "[geojsonToGeobuf] Converted " +:+ filePath +:+ " to " +:+ outputPath filePath.

(** An environment in which every command succeeds, [psql] prints
    [text] and the tools leave an empty file at their destination. *)
Definition calm (text : string) : Env := fun _ _ _ =>
  {| proc := {| exitCode := 0; stdout := text; combined := text |};
     dest := Some [];
     swept := fun _ => false |}.

(** The number of chunk files written in a run. *)
Definition turns (w : World) : nat := length (omap written (trace w).*1).

(** The statement a command hands to the database. *)
Definition statement (c : cmd) : option Sql.select :=
  match c with
  | Psql q _ | Ogr2ogr _ q => Some q
  | _ => None
  end.

(** A [SELECT] with an [ORDER BY], with a [LIMIT]/[OFFSET]. *)
Definition has_order (q : Sql.select) : bool := bool_decide (is_Some (Sql.order_by q)).
Definition has_limit (q : Sql.select) : bool := bool_decide (is_Some (Sql.limit_offset q)).

(** The row fetches of a statement: the [SELECT]s restricted by
    [idColumn IN (sub)], with their subquery. *)
Definition bounded_by (idColumn : string) (q : Sql.select) : option Sql.select :=
  match Sql.where_ q with
  | Some (Sql.InSub col sub) => if String.eqb col idColumn then Some sub else None
  | _ => None
  end.

(** [q] pages its rows by [idColumn]: exactly one [SELECT] of [q] has an
    [ORDER BY], exactly one has a [LIMIT]/[OFFSET], both are the same
    [SELECT], it orders by [idColumn] and is bound to
    [LIMIT chunkSize OFFSET offset]; it is the subquery of the one
    [idColumn IN (...)] of the statement, whose own [SELECT] (the outer
    row fetch) has no [ORDER BY]. *)
Definition pages_by (idColumn : string) (chunkSize offset : JS.number) (q : Sql.select) : Prop :=
  exists sub outer,
    List.filter has_order (Sql.selects q) = [sub] /\
    List.filter has_limit (Sql.selects q) = [sub] /\
    Sql.order_by sub = Some idColumn /\
    Sql.limit_offset sub = Some (chunkSize, offset) /\
    List.filter (fun s => bool_decide (is_Some (bounded_by idColumn s))) (Sql.selects q)
      = [outer] /\
    bounded_by idColumn outer = Some sub /\
    Sql.order_by outer = None.

(** The statements of the commands issued since [w]. *)
Definition statements_since (w w' : World) : list Sql.select :=
  omap statement (drop (length (trace w)) (trace w').*1).

(** [m] keeps [I]: whatever the answers and however [m] ends. *)
Definition keeps {A} (I : World -> Prop) (m : M A) : Prop :=
  forall w, I w -> I (m w).2.

(** Invariants that only read the recorded commands. *)
Definition on_commands (P : cmd -> Prop) (w : World) : Prop :=
  Forall P (trace w).*1.



(** The function whose [catch] handles the failure of a command. *)
Definition stage_of (c : cmd) : string :=
  match c with
  | Psql _ _ => "queryPostgres"
  | RmRf _ | Ogr2ogr _ _ => "tableToGeojsonChunksOgr2ogr"
  | Ogrmerge _ _ | FindDelete _ => "mergeGeojson"
  | Json2geobuf _ _ => "geojsonToGeobuf"
  end.

(** The label of the timer that this [catch] ends: it carries the text of
    the statement for [psql], the table and the target file for the
    tools. *)
Definition timer_of (cfg : Geojson.Config) (c : cmd) : string :=
  match c with
  | Psql q Inherit => "[queryPostgres] Executed query: " +:+ Sql.render q
  | Psql q (ToFile p) | Psql q (XxdToFile p) =>
      "[queryPostgres] Exported query to file " +:+ p +:+ ": " +:+ Sql.render q
  | RmRf _ | Ogr2ogr _ _ => ogr2ogr_created (Geojson.tableName cfg) Geojson.filePath
  | Ogrmerge _ _ | FindDelete _ => merged Geojson.filePath
  | Json2geobuf _ _ => converted Geojson.filePath
  end.

(** Every command run so far has exited with 0. *)
Definition all_succeeded (w : World) : Prop :=
  Forall (fun cr => ok cr.2 = true) (trace w).

(** The last command of the run failed, and it is the only one that did. *)
Definition failed_at (w : World) (c : cmd) (r : response) : Prop :=
  exists tr,
    trace w = tr ++ [(c, r)] /\ Forall (fun cr => ok cr.2 = true) tr /\ ok r = false.

(** The last two lines on the console name the stage of [c] and print
    the output of the failed process. *)
Definition diagnosed (cfg : Geojson.Config) (w : World) (c : cmd) (r : response) : Prop :=
  exists before,
    console w =
      before ++ [TimeEnd (timer_of cfg c);
                 Log ("[" +:+ stage_of c +:+ "] Error: " +:+ toString (proc r))].

(** How a piece of the pipeline may end, in [stage]. *)
Definition ends_well {A} (cfg : Geojson.Config) (stage : string)
    (res : result A) (w : World) : Prop :=
  match res with
  | Ret _ | OutOfFuel => all_succeeded w
  | Throw e => exists c r, failed_at w c r /\ stage_of c = stage /\ e = proc r
  | Exit code => code = 1 /\ exists c r, failed_at w c r /\ diagnosed cfg w c r
  end.

(** No [.] in the string: the decimal numbers. *)
Fixpoint dotless (s : string) : bool :=
  match s with
  | EmptyString => true
  | String c s' => negb (Ascii.eqb c ".") && dotless s'
  end.

(** Every chunk exported so far lies below offset [z] and is on disk as
    its [ogr2ogr] left it. *)
Definition chunks_kept (z : Z) (w : World) : Prop :=
  forall p sql r,
    (Ogr2ogr p sql, r) ∈ trace w ->
    (exists z', 0 <= z' < z /\ p = Geojson.part "layer" (JS.Num z')) /\
    fs w !! p = dest r.

(** The commands of the row counter and of the exporter. *)
Definition early (c : cmd) : Prop :=
  stage_of c <> "mergeGeojson" /\ stage_of c <> "geojsonToGeobuf".

(** An environment in which the [n]-th command fails and leaves nothing
    at its destination, and all others succeed as in [calm text]. *)
Definition failing_at (n : nat) (text : string) : Env := fun k files0 c =>
  if Nat.eqb k n
  then {| proc := {| exitCode := 1; stdout := EmptyString; combined := "failed" |};
          dest := None;
          swept := fun _ => false |}
  else calm text k files0 c.

(** [CHUNK_SIZE=4], everything else at its default. *)
Definition chunks_of_4 : Geojson.Config :=
  {| Geojson.TABLE_NAME := None; Geojson.GEOM_COLUMN := None;
     Geojson.ID_COLUMN := None; Geojson.CHUNK_SIZE := Some "4" |}.

(** An environment in which every command exits with 0 and the tools
    leave no file at their destination. *)
Definition silent : Env := fun _ _ _ =>
  {| proc := {| exitCode := 0; stdout := EmptyString; combined := EmptyString |};
     dest := None;
     swept := fun _ => false |}.

(** Blanks and line ends only. *)
Fixpoint blank (s : string) : bool :=
  match s with
  | EmptyString => true
  | String c s' => JS.is_ws c && blank s'
  end.

(** An environment in which [psql] prints the hexadecimal text [7b7d]
    between a blank and a line end. *)
Definition hex_7b7d : Env := calm (" 7b7d" +:+ newline).

(** The keys of [object - 'k'] on [jsonb]; also the columns left once
    [ST_AsGeobuf] has taken the geometry column out of a row. *)
Definition without (k : string) (keys : list string) : list string :=
  List.filter (fun c => negb (String.eqb c k)) keys.

(** The value of a key in [jsonb_build_object(k1, v1, k2, v2, ...)]. *)
Fixpoint field (name : string) (args : list Sql.expr) : option Sql.expr :=
  match args with
  | Sql.EStr k :: v :: rest => if String.eqb k name then Some v else field name rest
  | _ => None
  end.

(** The keys of the object that an expression builds from the row
    [alias], whose columns are [row]: [to_jsonb(alias)] has one key per
    column, [e - 'k'] drops a key. *)
Fixpoint object_keys (alias : string) (row : list string) (e : Sql.expr)
    : option (list string) :=
  match e with
  | Sql.ECall f [Sql.ECol r] =>
      if String.eqb f "to_jsonb" && String.eqb r alias then Some row else None
  | Sql.EMinus a (Sql.EStr k) => without k <$> object_keys alias row a
  | _ => None
  end.

(** The keys of ['properties'] in the features of a statement of
    [tableToGeojsonChunks], over a table with the columns [schema]. *)
Definition geojson_properties (schema : list string) (q : Sql.select)
    : option (list string) :=
  match Sql.from q with
  | Sql.Sub inner _ =>
      match Sql.items inner, Sql.from inner with
      | [(Sql.ECall f args, _)], Sql.Sub rows alias =>
          if String.eqb f "jsonb_build_object"
          then e ← field "properties" args;
               object_keys alias (Sql.columns schema rows) e
          else None
      | _, _ => None
      end
  | _ => None
  end.

(** The properties of the features of a statement of
    [tableToGeobufChunks]: [ST_AsGeobuf(rows, 'g')] makes a property of
    every column of the rows but [g]. *)
Definition geobuf_properties (schema : list string) (q : Sql.select)
    : option (list string) :=
  match Sql.items q, Sql.from q with
  | [(Sql.ECall f [Sql.ECall g [Sql.ECol r; Sql.EStr geom]; _], _)], Sql.Sub rows alias =>
      if String.eqb f "encode" && String.eqb g "ST_AsGeobuf" && String.eqb r alias
      then Some (without geom (Sql.columns schema rows))
      else None
  | _, _ => None
  end.

(** The set the specification names: every column but the identifier
    and the geometry. *)
Definition spec_properties (schema : list string) (idColumn geomColumn : string)
    : list string :=
  without geomColumn (without idColumn schema).

(** The lines of the answer to the column query. *)
Definition column_lines (columns : string) : list string :=
  List.map JS.trim (JS.split newline (JS.trim columns)).

(** The statements of the chunks of a run of [tableToGeobufChunks] all
    select the same [properties]. *)
Definition selects_properties (tableName idColumn geomColumn : string)
    (properties : list string) (chunkSize : JS.number) (c : cmd) : Prop :=
  match c with
  | Psql q (XxdToFile _) =>
      exists o, q = Sql.geobuf_chunk tableName idColumn geomColumn properties chunkSize o
  | _ => True
  end.

(** A command that writes a file writes the chunk file of one of the
    offsets of the specification ([part] names the file of an offset). *)
Definition within (part : Z -> string) (R C : Z) (c : cmd) : Prop :=
  match written c with
  | Some p => exists o, o ∈ chunk_offsets R C /\ p = part o
  | None => True
  end.

(** ** Further vocabulary *)

(** Every character of the string satisfies [P]. *)
Fixpoint all_chars (P : ascii -> bool) (s : string) : bool :=
  match s with
  | EmptyString => true
  | String c s' => P c && all_chars P s'
  end.

(** A decimal digit. *)
Definition is_decimal (c : ascii) : bool :=
  match JS.digit 10 c with
  | Some _ => negb (JS.is_ws c)
  | None => false
  end.

(** A count and a chunk size with which [offset > count] never holds:
    the count is not a number, or it is not negative and the chunk size is
    not a number or not positive. *)
Definition stuck (count chunkSize : JS.number) : Prop :=
  match count, chunkSize with
  | JS.NaN, _ => True
  | JS.Num R, JS.NaN => 0 <= R
  | JS.Num R, JS.Num C => 0 <= R /\ C <= 0
  end.

(** The offsets the loop goes through from 0 with such a count and
    chunk size. *)
Definition stuck_offset (count chunkSize offset : JS.number) : Prop :=
  match count, offset, chunkSize with
  | JS.NaN, _, _ => True
  | _, JS.Num z, JS.Num _ => z <= 0
  | _, JS.Num z, JS.NaN => z = 0
  | _, JS.NaN, _ => True
  end.

(** The function whose [catch] prints the failure of a command in an
    exporter called [name]: [queryPostgres] for [psql], the exporter
    itself for the rest. *)
Definition blame (name : string) (c : cmd) : string :=
  match c with
  | Psql _ _ => "queryPostgres"
  | _ => name
  end.

(** The file that the shell has redirected the output of a command to,
    and what it holds. *)
Definition redirected (c : cmd) (r : response) : option (string * list byte) :=
  match c with
  | Psql _ (ToFile p) => Some (p, list_byte_of_string (stdout (proc r)))
  | Psql _ (XxdToFile p) => Some (p, xxd_p_r (stdout (proc r)))
  | Json2geobuf _ dst => Some (dst, list_byte_of_string (stdout (proc r)))
  | _ => None
  end.

(** The run has exited on the failure of [c]: it is the last command, the
    last line on the console blames it, and the file its output was
    redirected to is on disk. *)
Definition exited_on (name : string) (w : World) (c : cmd) (r : response) : Prop :=
  failed_at w c r /\
  last (console w) =
    Some (Log ("[" +:+ blame name c +:+ "] Error: " +:+ toString (proc r))) /\
  forall p b, redirected c r = Some (p, b) -> fs w !! p = Some b.

(** How an exporter called [name], or a piece of it, may end. *)
Definition ended {A} (name : string) (res : result A) (w : World) : Prop :=
  match res with
  | Ret _ | OutOfFuel => all_succeeded w
  | Throw e =>
      exists c r,
        failed_at w c r /\ e = proc r /\ blame name c = name /\ redirected c r = None
  | Exit code => code = 1 /\ exists c r, exited_on name w c r
  end.

(** Not the separator of paths. *)
Definition not_slash (c : ascii) : bool := negb (Ascii.eqb c "/").

(** The lines [tableToGeojsonChunksOgr2ogr] prints for the chunk at
    offset [o]. *)
Definition chunk_lines (o : Z) : list line :=
  [Log ("Processing " +:+ JS.show (JS.Num o));
   TimeEnd (Geojson.processed (JS.Num o))].

(** The three commands after the export. *)
Definition closing : list cmd :=
  [Ogrmerge "layer.geojson" "layer_*.geojson";
   FindDelete "layer_*.geojson";
   Json2geobuf "layer.geojson" "layer.gbf"].

(** A character that stands for itself in a shell pattern and in a path:
    not [*], [?], [[], a backslash or [/]. *)
Definition literal (c : ascii) : bool :=
  match c with
  | "*" | "?" | "[" | "\" | "/" => false
  | _ => true
  end%char.

(** Every file that a command of the run has redirected its output to is
    the chunk file of an offset below [z] and still holds that output. *)
Definition outputs_kept (part : Z -> string) (z : Z) (w : World) : Prop :=
  forall c r p b,
    (c, r) ∈ trace w -> redirected c r = Some (p, b) ->
    (exists z', 0 <= z' < z /\ p = part z') /\ fs w !! p = Some b.

(** The integers that a double holds exactly together with all the
    integers between them and 0: those below 2^53 in absolute value
    ([Number.MAX_SAFE_INTEGER] is 2^53 - 1).  On them [parseInt], [+],
    [>] and the printing of a number in a template are those of the
    integers, as [JS.number] has them. *)
Definition safe (z : Z) : Prop := Z.abs z < 2 ^ 53.

(** A character that zx leaves as it is when it splices an argument into
    a command line: [[a-z0-9/_.\-@:=]], in either case. *)
Definition zx_plain (c : ascii) : bool :=
  let n := N_of_ascii c in
  ((48 <=? n) && (n <=? 57) || (65 <=? n) && (n <=? 90) || (97 <=? n) && (n <=? 122))%N
  || match c with
     | "/" | "_" | "." | "-" | "@" | ":" | "=" => true
     | _ => false
     end%char.

(** An argument that zx splices unquoted.  Any other argument is
    spliced as [$'...']; inside the single-quoted [-sql '...'] of
    [ogr2ogr] the shell then closes the quotation at the first quote, and
    [ogr2ogr] is not handed the statement of the template. *)
Definition unquoted (s : string) : bool :=
  match s with
  | EmptyString => false
  | _ => all_chars zx_plain s
  end.

(** What the [catch] that ends a run has written: the last two lines on
    the console. *)
Definition diagnostic (w : World) : list line :=
  drop (length (console w) - 2) (console w).

(** A number of the script that is not a number or is a [safe] integer:
    a template prints it as [JS.show] does, in characters that zx leaves
    unquoted. *)
Definition safe_number (n : JS.number) : Prop :=
  match n with
  | JS.Num z => safe z
  | JS.NaN => True
  end.

(** * Properties *)

(** ** Running commands *)

Section Steps.
Context (env : Env).

Lemma run_ok c w :
  ok (answer env c w) = true ->
  run env c w = (Ret (proc (answer env c w)), after env c w).
Proof. intros H. unfold run. by rewrite H. Qed.

Lemma run_failed c w :
  ok (answer env c w) = false ->
  run env c w = (Throw (proc (answer env c w)), after env c w).
Proof. intros H. unfold run. by rewrite H. Qed.

Lemma trace_after c w : trace (after env c w) = trace w ++ [(c, answer env c w)].
Proof. reflexivity. Qed.

Lemma trace_say l w : trace (say l w) = trace w.
Proof. reflexivity. Qed.

Lemma fs_say l w : fs (say l w) = fs w.
Proof. reflexivity. Qed.

(** *** The loop *)

Lemma export_loop_break fuel count C body o w :
  JS.gt o count = true ->
  export_loop (S fuel) count C body o w = (Ret (), w).
Proof. intros H. simpl. by rewrite H. Qed.

Lemma export_loop_next fuel count C body o w :
  JS.gt o count = false ->
  export_loop (S fuel) count C body o w =
    match body o w with
    | (Ret _, w') => export_loop fuel count C body (JS.add o C) w'
    | (Throw e, w') => (Throw e, w')
    | (Exit c, w') => (Exit c, w')
    | (OutOfFuel, w') => (OutOfFuel, w')
    end.
Proof. intros H. simpl. rewrite H. reflexivity. Qed.

(** With a body that always completes, the loop runs the body at
    [z, z + C, ...] as long as the offset is at most [R]. *)
Lemma export_loop_completes (R C : Z) body (cmds : Z -> list cmd) :
  (forall z w, exists w',
      body (JS.Num z) w = (Ret (), w') /\
      (trace w').*1 = (trace w).*1 ++ cmds z) ->
  forall (n : nat) z fuel w,
    (n < fuel)%nat ->
    R < z + Z.of_nat n * C ->
    (forall k, 0 <= k < Z.of_nat n -> z + k * C <= R) ->
    exists w',
      export_loop fuel (JS.Num R) (JS.Num C) body (JS.Num z) w = (Ret (), w') /\
      (trace w').*1 =
        (trace w).*1 ++ ((fun k => z + k * C) <$> seqZ 0 (Z.of_nat n)) ≫= cmds.
Proof.
  intros Hbody n. induction n as [|n IH]; intros z fuel w Hfuel Hlast Hbelow.
  - destruct fuel as [|fuel]; [lia|].
    exists w. split.
    + apply export_loop_break. simpl. apply bool_decide_eq_true. lia.
    + rewrite seqZ_nil by lia. simpl. by rewrite app_nil_r.
  - destruct fuel as [|fuel]; [lia|].
    rewrite export_loop_next
      by (simpl; apply bool_decide_eq_false; specialize (Hbelow 0); lia).
    destruct (Hbody z w) as (w1 & -> & Htr1).
    destruct (IH (z + C) fuel w1) as (w2 & Hrun & Htr2).
    { lia. }
    { nia. }
    { intros k Hk. specialize (Hbelow (k + 1)). nia. }
    exists w2. split; [exact Hrun|].
    rewrite Htr2, Htr1, <- app_assoc. f_equal.
    rewrite (seqZ_cons 0 (Z.of_nat (S n))) by lia. cbn [fmap list_fmap mbind list_bind].
    rewrite Z.mul_0_l, Z.add_0_r. f_equal.
    replace (Z.pred (Z.of_nat (S n))) with (Z.of_nat n) by lia.
    rewrite <- (fmap_add_seqZ 1 0), <- list_fmap_compose.
    f_equal. apply list_fmap_ext. intros _ k _. simpl. lia.
Qed.

(** The loop cannot use up more tests than there are offsets up to [R],
    plus the last one. *)
Lemma export_loop_fuel (R C : Z) body :
  (forall o w, (body o w).1 <> OutOfFuel) ->
  forall (n : nat) z fuel w,
    (n < fuel)%nat ->
    R < z + Z.of_nat n * C ->
    1 <= C ->
    (export_loop fuel (JS.Num R) (JS.Num C) body (JS.Num z) w).1 <> OutOfFuel.
Proof.
  intros Hbody n. induction n as [|n IH]; intros z fuel w Hfuel Hlast HC.
  - destruct fuel as [|fuel]; [lia|].
    rewrite export_loop_break; [done|]. simpl. apply bool_decide_eq_true. lia.
  - destruct fuel as [|fuel]; [lia|].
    destruct (JS.gt (JS.Num z) (JS.Num R)) eqn:Hgt.
    + by rewrite export_loop_break.
    + rewrite export_loop_next by done.
      specialize (Hbody (JS.Num z) w).
      destruct (body (JS.Num z) w) as [[ | | | ] w1]; try done.
      apply IH; [lia|nia|lia].
Qed.

End Steps.

(** ** The scripts, case by case *)

Lemma length_append (s t : string) :
  String.length (s +:+ t) = (String.length s + String.length t)%nat.
Proof. induction s as [|c s IH]; simpl; [done|]. by rewrite IH. Qed.

Lemma geojson_part_nonempty base o :
  bool_decide (String.length (Geojson.part base o) = 0%nat) = false.
Proof.
  apply bool_decide_eq_false. unfold Geojson.part.
  rewrite !length_append. simpl. lia.
Qed.

Lemma geobuf_part_nonempty base o :
  bool_decide (String.length (Geobuf.part base o) = 0%nat) = false.
Proof.
  apply bool_decide_eq_false. unfold Geobuf.part.
  rewrite !length_append. simpl. lia.
Qed.

Ltac script_unfold :=
  unfold try_catch, spinner, console_time, console_timeEnd, console_log, exit,
    mbind, M_bind, mret, M_ret, run.

Section Cases.
Context (env : Env).

Lemma geojson_query env_q w :
  Geojson.queryPostgres env env_q EmptyString w =
    let c := Psql env_q Inherit in
    let r := answer env c w in
    if ok r
    then (Ret (proc r), say (TimeEnd (Geojson.executed env_q)) (after env c w))
    else (Exit 1, say (query_failure (proc r))
                    (say (TimeEnd (Geojson.executed env_q)) (after env c w))).
Proof.
  unfold Geojson.queryPostgres. simpl. script_unfold.
  by destruct (ok (answer env (Psql env_q Inherit) w)).
Qed.

Lemma geojson_query_file env_q path w :
  bool_decide (String.length path = 0%nat) = false ->
  Geojson.queryPostgres env env_q path w =
    let c := Psql env_q (ToFile path) in
    let r := answer env c w in
    if ok r
    then (Ret (proc r), say (TimeEnd (Geojson.exported env_q path)) (after env c w))
    else (Exit 1, say (query_failure (proc r))
                    (say (TimeEnd (Geojson.exported env_q path)) (after env c w))).
Proof.
  intros Hpath. unfold Geojson.queryPostgres. rewrite Hpath. script_unfold.
  by destruct (ok (answer env (Psql env_q (ToFile path)) w)).
Qed.

Lemma geobuf_query env_q w :
  Geobuf.queryPostgres env env_q EmptyString w =
    let c := Psql env_q Inherit in
    let r := answer env c w in
    if ok r
    then (Ret (proc r), say (TimeEnd (Geobuf.executed env_q)) (after env c w))
    else (Exit 1, say (query_failure (proc r))
                    (say (TimeEnd (Geobuf.executed env_q)) (after env c w))).
Proof.
  unfold Geobuf.queryPostgres. simpl. script_unfold.
  by destruct (ok (answer env (Psql env_q Inherit) w)).
Qed.

Lemma geobuf_query_file env_q path w :
  bool_decide (String.length path = 0%nat) = false ->
  Geobuf.queryPostgres env env_q path w =
    let c := Psql env_q (XxdToFile path) in
    let r := answer env c w in
    if ok r
    then (Ret (proc r), say (TimeEnd (Geobuf.exported env_q path)) (after env c w))
    else (Exit 1, say (query_failure (proc r))
                    (say (TimeEnd (Geobuf.exported env_q path)) (after env c w))).
Proof.
  intros Hpath. unfold Geobuf.queryPostgres. rewrite Hpath. script_unfold.
  by destruct (ok (answer env (Psql env_q (XxdToFile path)) w)).
Qed.

Lemma ogr2ogr_chunk_cases tableName idColumn chunkSize base o w :
  Geojson.ogr2ogr_chunk env tableName idColumn chunkSize base o w =
    let rm := RmRf (Geojson.part base o) in
    let w1 := after env rm w in
    let w2 := say (Log ("Processing " +:+ JS.show o)) w1 in
    let ogr := Ogr2ogr (Geojson.part base o)
                 (Sql.page_rows tableName idColumn chunkSize o) in
    if ok (answer env rm w) then
      if ok (answer env ogr w2)
      then (Ret (), say (TimeEnd (Geojson.processed o)) (after env ogr w2))
      else (Throw (proc (answer env ogr w2)), after env ogr w2)
    else (Throw (proc (answer env rm w)), w1).
Proof.
  unfold Geojson.ogr2ogr_chunk. script_unfold. cbv zeta.
  destruct (ok (answer env (RmRf _) w)); [|done].
  by destruct (ok (answer env (Ogr2ogr _ _) _)).
Qed.

Lemma ogr2ogr_exporter_cases fuel tableName idColumn chunkSize filePath w :
  Geojson.tableToGeojsonChunksOgr2ogr env fuel tableName idColumn chunkSize filePath w =
    let q := Psql (Sql.count_rows tableName) Inherit in
    let r := answer env q w in
    let w1 := say (TimeEnd (Geojson.executed (Sql.count_rows tableName))) (after env q w) in
    if ok r then
      match export_loop fuel (JS.parseInt (JS.trim (stdout (proc r)))) chunkSize
              (Geojson.ogr2ogr_chunk env tableName idColumn chunkSize
                 (JS.split_head ".geojson" filePath)) (JS.Num 0) w1 with
      | (Ret _, w2) => (Ret filePath, say (TimeEnd (ogr2ogr_created tableName filePath)) w2)
      | (Throw e, w2) =>
          (Exit 1, caught (ogr2ogr_created tableName filePath)
                     "tableToGeojsonChunksOgr2ogr" e w2)
      | (Exit c, w2) => (Exit c, w2)
      | (OutOfFuel, w2) => (OutOfFuel, w2)
      end
    else (Exit 1, say (query_failure (proc r)) w1).
Proof.
  unfold Geojson.tableToGeojsonChunksOgr2ogr.
  unfold try_catch at 1. unfold mbind at 1, M_bind at 1. unfold console_time at 1.
  unfold mret at 1, M_ret at 1. unfold mbind at 1, M_bind at 1.
  rewrite geojson_query. cbv zeta.
  destruct (ok (answer env _ w)); [|done].
  unfold mbind at 1, M_bind at 1.
  destruct (export_loop _ _ _ _ _ _) as [[[]| | |] w2]; done.
Qed.

Lemma psql_chunk_cases tableName geomColumn idColumn chunkSize base o w :
  Geojson.psql_chunk env tableName geomColumn idColumn chunkSize base o w =
    let rm := RmRf (Geojson.part base o) in
    let w1 := after env rm w in
    let q := Sql.geojson_chunk tableName geomColumn idColumn chunkSize o in
    let psql := Psql q (ToFile (Geojson.part base o)) in
    let w2 := say (TimeEnd (Geojson.exported q (Geojson.part base o))) (after env psql w1) in
    if ok (answer env rm w) then
      if ok (answer env psql w1)
      then (Ret (), w2)
      else (Exit 1, say (query_failure (proc (answer env psql w1))) w2)
    else (Throw (proc (answer env rm w)), w1).
Proof.
  unfold Geojson.psql_chunk.
  unfold mbind at 1, M_bind at 1. unfold run at 1. cbv zeta.
  destruct (ok (answer env (RmRf _) w)); [|done].
  unfold mbind at 1, M_bind at 1.
  rewrite geojson_query_file by apply geojson_part_nonempty. cbv zeta.
  by destruct (ok (answer env (Psql _ _) _)).
Qed.

Lemma geojson_exporter_cases fuel tableName geomColumn idColumn chunkSize filePath w :
  Geojson.tableToGeojsonChunks env fuel tableName geomColumn idColumn chunkSize filePath w =
    let q := Psql (Sql.count_rows tableName) Inherit in
    let r := answer env q w in
    let w1 := say (TimeEnd (Geojson.executed (Sql.count_rows tableName))) (after env q w) in
    if ok r then
      match export_loop fuel (JS.parseInt (JS.trim (stdout (proc r)))) chunkSize
              (Geojson.psql_chunk env tableName geomColumn idColumn chunkSize
                 (JS.split_head ".geojson" filePath)) (JS.Num 0) w1 with
      | (Ret _, w2) => (Ret filePath, say (TimeEnd (geojson_created tableName filePath)) w2)
      | (Throw e, w2) =>
          (Exit 1, caught (geojson_created tableName filePath) "tableToGeojson" e w2)
      | (Exit c, w2) => (Exit c, w2)
      | (OutOfFuel, w2) => (OutOfFuel, w2)
      end
    else (Exit 1, say (query_failure (proc r)) w1).
Proof.
  unfold Geojson.tableToGeojsonChunks.
  unfold try_catch at 1. unfold mbind at 1, M_bind at 1. unfold console_time at 1.
  unfold mret at 1, M_ret at 1. unfold mbind at 1, M_bind at 1.
  rewrite geojson_query. cbv zeta.
  destruct (ok (answer env _ w)); [|done].
  unfold mbind at 1, M_bind at 1.
  destruct (export_loop _ _ _ _ _ _) as [[[]| | |] w2]; done.
Qed.

Lemma geobuf_chunk_cases tableName idColumn geomColumn properties chunkSize base o w :
  Geobuf.geobuf_chunk env tableName idColumn geomColumn properties chunkSize base o w =
    let q := Sql.geobuf_chunk tableName idColumn geomColumn properties chunkSize o in
    let psql := Psql q (XxdToFile (Geobuf.part base o)) in
    let w1 := say (TimeEnd (Geobuf.exported q (Geobuf.part base o))) (after env psql w) in
    if ok (answer env psql w)
    then (Ret (), w1)
    else (Exit 1, say (query_failure (proc (answer env psql w))) w1).
Proof.
  unfold Geobuf.geobuf_chunk.
  unfold mbind at 1, M_bind at 1.
  rewrite geobuf_query_file by apply geobuf_part_nonempty. cbv zeta.
  by destruct (ok (answer env (Psql _ _) _)).
Qed.

Lemma geobuf_exporter_cases fuel tableName idColumn geomColumn chunkSize filePath w :
  Geobuf.tableToGeobufChunks env fuel tableName idColumn geomColumn chunkSize filePath w =
    let q := Psql (Sql.count_rows tableName) Inherit in
    let r := answer env q w in
    let w1 := say (TimeEnd (Geobuf.executed (Sql.count_rows tableName))) (after env q w) in
    let qc := Psql (Sql.column_names tableName) Inherit in
    let rc := answer env qc w1 in
    let w2 := say (TimeEnd (Geobuf.executed (Sql.column_names tableName)))
                (after env qc w1) in
    if ok r then
      if ok rc then
        match export_loop fuel (JS.parseInt (JS.trim (stdout (proc r)))) chunkSize
                (Geobuf.geobuf_chunk env tableName idColumn geomColumn
                   (Geobuf.properties_of (stdout (proc rc)) idColumn geomColumn)
                   chunkSize (JS.split_head ".gbf" filePath)) (JS.Num 0) w2 with
        | (Ret _, w3) => (Ret filePath, say (TimeEnd (geobuf_created tableName filePath)) w3)
        | (Throw e, w3) =>
            (Exit 1, caught (geobuf_created tableName filePath) "tableToGeobufChunks" e w3)
        | (Exit c, w3) => (Exit c, w3)
        | (OutOfFuel, w3) => (OutOfFuel, w3)
        end
      else (Exit 1, say (query_failure (proc rc)) w2)
    else (Exit 1, say (query_failure (proc r)) w1).
Proof.
  unfold Geobuf.tableToGeobufChunks.
  unfold try_catch at 1. unfold mbind at 1, M_bind at 1. unfold console_time at 1.
  unfold mret at 1, M_ret at 1. unfold mbind at 1, M_bind at 1.
  rewrite geobuf_query. cbv zeta.
  destruct (ok (answer env _ w)); [|done].
  unfold mbind at 1, M_bind at 1.
  rewrite geobuf_query. cbv zeta.
  destruct (ok (answer env _ _)); [|done].
  unfold mbind at 1, M_bind at 1.
  destruct (export_loop _ _ _ _ _ _) as [[[]| | |] w3]; done.
Qed.

Lemma mergeGeojson_cases filePath w :
  Geojson.mergeGeojson env filePath w =
    let merge := Ogrmerge filePath (chunksPattern filePath) in
    let find := FindDelete (chunksPattern filePath) in
    let w1 := after env merge w in
    if ok (answer env merge w) then
      if ok (answer env find w1)
      then (Ret filePath, after env find w1)
      else (Exit 1, caught (merged filePath) "mergeGeojson"
                      (proc (answer env find w1)) (after env find w1))
    else (Exit 1, caught (merged filePath) "mergeGeojson" (proc (answer env merge w)) w1).
Proof.
  unfold Geojson.mergeGeojson. script_unfold. cbv zeta.
  destruct (ok (answer env (Ogrmerge _ _) w)); [|done].
  by destruct (ok (answer env (FindDelete _) _)).
Qed.

Lemma geojsonToGeobuf_cases filePath w :
  Geojson.geojsonToGeobuf env filePath w =
    let c := Json2geobuf filePath (outputPath filePath) in
    if ok (answer env c w)
    then (Ret (outputPath filePath), after env c w)
    else (Exit 1, caught (converted filePath) "geojsonToGeobuf"
                    (proc (answer env c w)) (after env c w)).
Proof.
  unfold Geojson.geojsonToGeobuf. script_unfold. cbv zeta.
  by destruct (ok (answer env (Json2geobuf _ _) w)).
Qed.

Lemma main_cases fuel cfg w :
  Geojson.main env fuel cfg w =
    match Geojson.tableToGeojsonChunksOgr2ogr env fuel (Geojson.tableName cfg)
            (Geojson.idColumn cfg) (Geojson.chunkSize cfg) Geojson.filePath w with
    | (Ret _, w1) =>
        match Geojson.mergeGeojson env Geojson.filePath w1 with
        | (Ret _, w2) => Geojson.geojsonToGeobuf env Geojson.filePath w2
        | (Throw e, w2) => (Throw e, w2)
        | (Exit c, w2) => (Exit c, w2)
        | (OutOfFuel, w2) => (OutOfFuel, w2)
        end
    | (Throw e, w1) => (Throw e, w1)
    | (Exit c, w1) => (Exit c, w1)
    | (OutOfFuel, w1) => (OutOfFuel, w1)
    end.
Proof. reflexivity. Qed.

End Cases.

(** ** Invariants of the recorded commands *)

Lemma export_loop_keeps (I : World -> Prop) fuel count chunkSize body :
  (forall o, keeps I (body o)) ->
  forall o, keeps I (export_loop fuel count chunkSize body o).
Proof.
  intros Hbody. induction fuel as [|fuel IH]; intros o w Hw; [done|].
  destruct (JS.gt o count) eqn:Hgt.
  - by rewrite export_loop_break.
  - rewrite export_loop_next by done.
    specialize (Hbody o w Hw).
    destruct (body o w) as [[[]| | |] w1]; try done.
    by apply IH.
Qed.

Lemma on_commands_say P l w : on_commands P (say l w) <-> on_commands P w.
Proof. reflexivity. Qed.

Lemma on_commands_after P env c w :
  on_commands P w -> P c -> on_commands P (after env c w).
Proof.
  unfold on_commands. rewrite trace_after, fmap_app, Forall_app.
  intros Hw Hc. split; [done|]. by repeat constructor.
Qed.

Lemma on_commands_caught P label stage e w :
  on_commands P (caught label stage e w) <-> on_commands P w.
Proof. reflexivity. Qed.

Ltac keep_commands :=
  repeat first
    [ done
    | rewrite on_commands_say
    | rewrite on_commands_caught
    | apply on_commands_after ].

(** ** The offsets of a run in which every command succeeds *)

Lemma chunk_offsets_spec R C o :
  0 <= R -> 1 <= C ->
  o ∈ chunk_offsets R C <-> exists k, 0 <= k <= R / C /\ o = k * C.
Proof.
  intros HR HC. unfold chunk_offsets. rewrite list_elem_of_fmap. split.
  - intros (k & -> & Hk). apply elem_of_seqZ in Hk. exists k. lia.
  - intros (k & Hk & ->). exists k. split; [done|]. apply elem_of_seqZ. lia.
Qed.

Lemma chunk_offsets_bound R C o :
  0 <= R -> 1 <= C -> o ∈ chunk_offsets R C -> 0 <= o <= R.
Proof.
  intros HR HC (k & Hk & ->)%chunk_offsets_spec; [|done..].
  pose proof (Z.mul_div_le R C ltac:(lia)). nia.
Qed.

Lemma chunk_offsets_length R C :
  0 <= R -> 1 <= C -> length (chunk_offsets R C) = S (Z.to_nat (R / C)).
Proof.
  intros HR HC. unfold chunk_offsets. rewrite length_fmap, length_seqZ.
  pose proof (Z.div_pos R C HR ltac:(lia)). lia.
Qed.

Section Success.
Context (env : Env) (R C : Z) (tableName : string).
Hypothesis Hok : all_ok env.
Hypothesis Hcount : counts env tableName R.
Hypothesis HR : 0 <= R.
Hypothesis HC : 1 <= C.

Lemma answer_ok c w : ok (answer env c w) = true.
Proof. apply Hok. Qed.

Lemma answer_count w :
  JS.parseInt (JS.trim (stdout (proc (answer env (Psql (Sql.count_rows tableName) Inherit) w))))
  = JS.Num R.
Proof. apply Hcount. Qed.

(** The loop over a body that always completes, from offset 0. *)
Lemma export_loop_offsets body (cmds : Z -> list cmd) fuel w :
  (forall z w, exists w',
      body (JS.Num z) w = (Ret (), w') /\ (trace w').*1 = (trace w).*1 ++ cmds z) ->
  (Z.to_nat (R / C) + 1 < fuel)%nat ->
  exists w',
    export_loop fuel (JS.Num R) (JS.Num C) body (JS.Num 0) w = (Ret (), w') /\
    (trace w').*1 = (trace w).*1 ++ chunk_offsets R C ≫= cmds.
Proof.
  intros Hbody Hfuel.
  pose proof (Z.div_pos R C HR ltac:(lia)) as Hq.
  pose proof (Z.mul_div_le R C ltac:(lia)) as Hle.
  pose proof (Z.mul_succ_div_gt R C ltac:(lia)) as Hgt.
  destruct (export_loop_completes R C body cmds Hbody
              (Z.to_nat (R / C + 1)) 0 fuel w) as (w' & Hrun & Htr).
  - lia.
  - rewrite Z2Nat.id by lia. lia.
  - intros k Hk. rewrite Z2Nat.id in Hk by lia. nia.
  - exists w'. split; [done|]. rewrite Htr. do 2 f_equal.
    rewrite Z2Nat.id by lia. unfold chunk_offsets.
    apply list_fmap_ext. intros _ k _. lia.
Qed.

Lemma ogr2ogr_exporter_offsets idColumn filePath fuel w :
  (Z.to_nat (R / C) + 1 < fuel)%nat ->
  exists w',
    Geojson.tableToGeojsonChunksOgr2ogr env fuel tableName idColumn (JS.Num C) filePath w
    = (Ret filePath, w') /\
    (trace w').*1 =
      (trace w).*1 ++ Psql (Sql.count_rows tableName) Inherit
        :: chunk_offsets R C
             ≫= ogr2ogr_cmds tableName idColumn C (JS.split_head ".geojson" filePath).
Proof.
  intros Hfuel. rewrite ogr2ogr_exporter_cases. cbv zeta.
  rewrite answer_ok, answer_count.
  edestruct (export_loop_offsets
               (Geojson.ogr2ogr_chunk env tableName idColumn (JS.Num C)
                  (JS.split_head ".geojson" filePath))
               (ogr2ogr_cmds tableName idColumn C (JS.split_head ".geojson" filePath)))
    as (w' & -> & Htr); [|exact Hfuel|].
  - intros z w0. rewrite ogr2ogr_chunk_cases. cbv zeta. rewrite !answer_ok.
    eexists. split; [reflexivity|].
    rewrite trace_say, trace_after, trace_say, trace_after, !fmap_app, <- app_assoc.
    reflexivity.
  - eexists. split; [reflexivity|].
    rewrite trace_say, Htr, trace_say, trace_after, fmap_app, <- app_assoc. reflexivity.
Qed.

Lemma geojson_exporter_offsets geomColumn idColumn filePath fuel w :
  (Z.to_nat (R / C) + 1 < fuel)%nat ->
  exists w',
    Geojson.tableToGeojsonChunks env fuel tableName geomColumn idColumn (JS.Num C) filePath w
    = (Ret filePath, w') /\
    (trace w').*1 =
      (trace w).*1 ++ Psql (Sql.count_rows tableName) Inherit
        :: chunk_offsets R C
             ≫= geojson_cmds tableName geomColumn idColumn C
                  (JS.split_head ".geojson" filePath).
Proof.
  intros Hfuel. rewrite geojson_exporter_cases. cbv zeta.
  rewrite answer_ok, answer_count.
  edestruct (export_loop_offsets
               (Geojson.psql_chunk env tableName geomColumn idColumn (JS.Num C)
                  (JS.split_head ".geojson" filePath))
               (geojson_cmds tableName geomColumn idColumn C
                  (JS.split_head ".geojson" filePath)))
    as (w' & -> & Htr); [|exact Hfuel|].
  - intros z w0. rewrite psql_chunk_cases. cbv zeta. rewrite !answer_ok.
    eexists. split; [reflexivity|].
    rewrite trace_say, !trace_after, !fmap_app, <- app_assoc. reflexivity.
  - eexists. split; [reflexivity|].
    rewrite trace_say, Htr, trace_say, trace_after, fmap_app, <- app_assoc. reflexivity.
Qed.

Lemma geobuf_exporter_offsets idColumn geomColumn filePath fuel w :
  (Z.to_nat (R / C) + 1 < fuel)%nat ->
  exists w' properties,
    Geobuf.tableToGeobufChunks env fuel tableName idColumn geomColumn (JS.Num C) filePath w
    = (Ret filePath, w') /\
    (trace w').*1 =
      (trace w).*1 ++ Psql (Sql.count_rows tableName) Inherit
        :: Psql (Sql.column_names tableName) Inherit
        :: chunk_offsets R C
             ≫= geobuf_cmds tableName idColumn geomColumn properties C
                  (JS.split_head ".gbf" filePath).
Proof.
  intros Hfuel. rewrite geobuf_exporter_cases. cbv zeta.
  rewrite !answer_ok, answer_count.
  match goal with
  | |- context [Geobuf.geobuf_chunk _ _ _ _ ?p _ _] => set (properties := p)
  end.
  edestruct (export_loop_offsets
               (Geobuf.geobuf_chunk env tableName idColumn geomColumn properties (JS.Num C)
                  (JS.split_head ".gbf" filePath))
               (geobuf_cmds tableName idColumn geomColumn properties C
                  (JS.split_head ".gbf" filePath)))
    as (w' & -> & Htr); [|exact Hfuel|].
  - intros z w0. rewrite geobuf_chunk_cases. cbv zeta. rewrite !answer_ok.
    eexists. split; [reflexivity|].
    rewrite trace_say, !trace_after, !fmap_app. reflexivity.
  - eexists _, properties. split; [reflexivity|].
    rewrite trace_say, Htr, trace_say, trace_after, trace_say, trace_after.
    rewrite !fmap_app, <- !app_assoc. reflexivity.
Qed.

End Success.

(** *** No chunk beyond the count, whatever the commands answer *)

Lemma export_loop_within (I : World -> Prop) (R C : Z) body fuel :
  0 <= R -> 1 <= C ->
  (forall z, z ∈ chunk_offsets R C -> keeps I (body (JS.Num z))) ->
  forall k, 0 <= k ->
    keeps I (export_loop fuel (JS.Num R) (JS.Num C) body (JS.Num (k * C))).
Proof.
  intros HR HC Hbody. induction fuel as [|fuel IH]; intros k Hk w Hw; [done|].
  destruct (JS.gt (JS.Num (k * C)) (JS.Num R)) eqn:Hgt.
  - by rewrite export_loop_break.
  - rewrite export_loop_next by done.
    simpl in Hgt. apply bool_decide_eq_false in Hgt.
    assert (k * C ∈ chunk_offsets R C) as Hin.
    { apply chunk_offsets_spec; [done..|]. exists k. split; [|done].
      split; [done|]. apply Z.div_le_lower_bound; lia. }
    specialize (Hbody (k * C) Hin w Hw).
    destruct (body (JS.Num (k * C)) w) as [[[]| | |] w1]; try done.
    cbn [snd] in Hbody. simpl JS.add.
    replace (k * C + C) with ((k + 1) * C) by lia.
    apply IH; [lia|done].
Qed.

Lemma ogr2ogr_exporter_within env fuel tableName idColumn R C filePath w :
  0 <= R -> 1 <= C -> counts env tableName R ->
  let part o := Geojson.part (JS.split_head ".geojson" filePath) (JS.Num o) in
  on_commands (within part R C) w ->
  on_commands (within part R C)
    (Geojson.tableToGeojsonChunksOgr2ogr env fuel tableName idColumn (JS.Num C)
       filePath w).2.
Proof.
  intros HR HC Hcount part Hw. rewrite ogr2ogr_exporter_cases. cbv zeta.
  destruct (ok _); cbn [snd]; [|by keep_commands].
  unfold answer at 1. rewrite Hcount.
  match goal with
  | |- context [export_loop ?f ?n ?c ?b ?o ?w1] =>
      assert (on_commands (within part R C) (export_loop f n c b o w1).2) as Hloop
  end.
  { apply (export_loop_within _ R C _ fuel HR HC) with (k := 0); [|done|by keep_commands].
    intros z Hz w0 Hw0. rewrite ogr2ogr_chunk_cases. cbv zeta.
    repeat destruct (ok _); cbn [snd]; keep_commands; by exists z. }
  destruct (export_loop _ _ _ _ _ _) as [[[]| | |] w2]; cbn [snd] in *; by keep_commands.
Qed.

Lemma geojson_exporter_within env fuel tableName geomColumn idColumn R C filePath w :
  0 <= R -> 1 <= C -> counts env tableName R ->
  let part o := Geojson.part (JS.split_head ".geojson" filePath) (JS.Num o) in
  on_commands (within part R C) w ->
  on_commands (within part R C)
    (Geojson.tableToGeojsonChunks env fuel tableName geomColumn idColumn (JS.Num C)
       filePath w).2.
Proof.
  intros HR HC Hcount part Hw. rewrite geojson_exporter_cases. cbv zeta.
  destruct (ok _); cbn [snd]; [|by keep_commands].
  unfold answer at 1. rewrite Hcount.
  match goal with
  | |- context [export_loop ?f ?n ?c ?b ?o ?w1] =>
      assert (on_commands (within part R C) (export_loop f n c b o w1).2) as Hloop
  end.
  { apply (export_loop_within _ R C _ fuel HR HC) with (k := 0); [|done|by keep_commands].
    intros z Hz w0 Hw0. rewrite psql_chunk_cases. cbv zeta.
    repeat destruct (ok _); cbn [snd]; keep_commands; by exists z. }
  destruct (export_loop _ _ _ _ _ _) as [[[]| | |] w2]; cbn [snd] in *; by keep_commands.
Qed.

Lemma geobuf_exporter_within env fuel tableName idColumn geomColumn R C filePath w :
  0 <= R -> 1 <= C -> counts env tableName R ->
  let part o := Geobuf.part (JS.split_head ".gbf" filePath) (JS.Num o) in
  on_commands (within part R C) w ->
  on_commands (within part R C)
    (Geobuf.tableToGeobufChunks env fuel tableName idColumn geomColumn (JS.Num C)
       filePath w).2.
Proof.
  intros HR HC Hcount part Hw. rewrite geobuf_exporter_cases. cbv zeta.
  destruct (ok (answer env (Psql _ _) w)); cbn [snd]; [|by keep_commands].
  destruct (ok (answer env (Psql _ _) _)); cbn [snd]; [|by keep_commands].
  unfold answer at 1. rewrite Hcount.
  match goal with
  | |- context [export_loop ?f ?n ?c ?b ?o ?w1] =>
      assert (on_commands (within part R C) (export_loop f n c b o w1).2) as Hloop
  end.
  { apply (export_loop_within _ R C _ fuel HR HC) with (k := 0); [|done|by keep_commands].
    intros z Hz w0 Hw0. rewrite geobuf_chunk_cases. cbv zeta.
    repeat destruct (ok _); cbn [snd]; keep_commands; by exists z. }
  destruct (export_loop _ _ _ _ _ _) as [[[]| | |] w3]; cbn [snd] in *; by keep_commands.
Qed.

(** C1: for a table of R >= 0 rows and a chunk size C >= 1, both below
    2^53 (so that the doubles of the script count as the integers do), a
    run of an exporter in which every command succeeds issues, after the
    count (and, for Geobuf, the column query), the commands of the chunks
    at exactly the offsets 0, C, 2C, ..., (R/C)*C, in this order (for
    [ogr2ogr], whose statement zx splices into a quoted argument, with
    names of the table and of the identifier that zx leaves unquoted);
    whatever the commands answer, every file an exporter writes is the
    chunk file of one of these offsets.  Every such offset is a multiple
    k*C with 0 <= k <= R/C, the offset R is among them when C divides R,
    none exceeds R, and for R = 10, C = 4 they are 0, 4, 8. *)
Theorem chunk_offsets_generated env fuel tableName geomColumn idColumn R C filePath fs0 :
  0 <= R -> 1 <= C -> safe R -> safe C ->
  counts env tableName R ->
  (Z.to_nat (R / C) + 1 < fuel)%nat ->
  let ogr := (Geojson.tableToGeojsonChunksOgr2ogr env fuel tableName idColumn (JS.Num C)
                filePath (start fs0)).2 in
  let sql := (Geojson.tableToGeojsonChunks env fuel tableName geomColumn idColumn
                (JS.Num C) filePath (start fs0)).2 in
  let gbf := (Geobuf.tableToGeobufChunks env fuel tableName idColumn geomColumn
                (JS.Num C) filePath (start fs0)).2 in
  (all_ok env ->
     (unquoted tableName = true -> unquoted idColumn = true ->
      (trace ogr).*1
        = Psql (Sql.count_rows tableName) Inherit
          :: chunk_offsets R C
               ≫= ogr2ogr_cmds tableName idColumn C (JS.split_head ".geojson" filePath))
     /\ (trace sql).*1
       = Psql (Sql.count_rows tableName) Inherit
         :: chunk_offsets R C
              ≫= geojson_cmds tableName geomColumn idColumn C
                   (JS.split_head ".geojson" filePath)
     /\ exists properties,
         (trace gbf).*1
         = Psql (Sql.count_rows tableName) Inherit
           :: Psql (Sql.column_names tableName) Inherit
           :: chunk_offsets R C
                ≫= geobuf_cmds tableName idColumn geomColumn properties C
                     (JS.split_head ".gbf" filePath))
  /\ Forall (within (fun o => Geojson.part (JS.split_head ".geojson" filePath) (JS.Num o))
               R C) (trace ogr).*1
  /\ Forall (within (fun o => Geojson.part (JS.split_head ".geojson" filePath) (JS.Num o))
               R C) (trace sql).*1
  /\ Forall (within (fun o => Geobuf.part (JS.split_head ".gbf" filePath) (JS.Num o))
               R C) (trace gbf).*1
  /\ (forall o, o ∈ chunk_offsets R C <-> exists k, 0 <= k <= R / C /\ o = k * C)
  /\ (R mod C = 0 -> R ∈ chunk_offsets R C)
  /\ (forall o, o ∈ chunk_offsets R C -> o <= R)
  /\ chunk_offsets 10 4 = [0; 4; 8].
Proof.
  intros HR HC _ _ Hcount Hfuel ogr sql gbf.
  split; [|split; [|split; [|split; [|split; [|split; [|split]]]]]].
  - intros Hok. split; [|split].
    + intros _ _.
      destruct (ogr2ogr_exporter_offsets env R C tableName Hok Hcount HR HC
                  idColumn filePath fuel (start fs0) Hfuel) as (w' & Hrun & Htr).
      subst ogr. rewrite Hrun. cbn [snd]. by rewrite Htr.
    + destruct (geojson_exporter_offsets env R C tableName Hok Hcount HR HC
                  geomColumn idColumn filePath fuel (start fs0) Hfuel) as (w' & Hrun & Htr).
      subst sql. rewrite Hrun. cbn [snd]. by rewrite Htr.
    + destruct (geobuf_exporter_offsets env R C tableName Hok Hcount HR HC
                  idColumn geomColumn filePath fuel (start fs0) Hfuel)
        as (w' & properties & Hrun & Htr).
      exists properties. subst gbf. rewrite Hrun. cbn [snd]. by rewrite Htr.
  - apply (ogr2ogr_exporter_within env fuel tableName idColumn R C filePath (start fs0));
      [done..|constructor].
  - apply (geojson_exporter_within env fuel tableName geomColumn idColumn R C filePath
             (start fs0)); [done..|constructor].
  - apply (geobuf_exporter_within env fuel tableName idColumn geomColumn R C filePath
             (start fs0)); [done..|constructor].
  - intros o. by apply chunk_offsets_spec.
  - intros Hmod. apply chunk_offsets_spec; [done..|].
    exists (R / C). pose proof (Z.div_pos R C HR ltac:(lia)).
    pose proof (Z.div_mod R C ltac:(lia)). split; [lia|nia].
  - intros o Ho. by apply (chunk_offsets_bound R C o).
  - reflexivity.
Qed.

Lemma chunk_offsets_generated_witness :
  (trace (Geojson.tableToGeojsonChunksOgr2ogr (calm " 10") 4 "table" "id" (JS.Num 4)
            "layer.geojson" (start ∅)).2).*1
  = Psql (Sql.count_rows "table") Inherit
    :: chunk_offsets 10 4 ≫= ogr2ogr_cmds "table" "id" 4 "layer".
Proof.
  refine (proj1 (proj1 (chunk_offsets_generated (calm " 10") 4 "table" "geom" "id" 10 4
                          "layer.geojson" ∅ _ _ _ _ _ _) _) _ _).
  - lia.
  - lia.
  - reflexivity.
  - reflexivity.
  - intros n fs0. reflexivity.
  - vm_compute. lia.
  - intros n fs0 c. reflexivity.
  - reflexivity.
  - reflexivity.
Defined.

(** ** Termination of the loop *)

Lemma ogr2ogr_chunk_ends env tableName idColumn chunkSize base o w :
  (Geojson.ogr2ogr_chunk env tableName idColumn chunkSize base o w).1 <> OutOfFuel.
Proof.
  rewrite ogr2ogr_chunk_cases. cbv zeta.
  by repeat destruct (ok _).
Qed.

Lemma psql_chunk_ends env tableName geomColumn idColumn chunkSize base o w :
  (Geojson.psql_chunk env tableName geomColumn idColumn chunkSize base o w).1 <> OutOfFuel.
Proof.
  rewrite psql_chunk_cases. cbv zeta.
  by repeat destruct (ok _).
Qed.

Lemma export_loop_ends (R C : Z) body fuel w :
  0 <= R -> 1 <= C ->
  (forall o w, (body o w).1 <> OutOfFuel) ->
  (Z.to_nat (R / C) + 1 < fuel)%nat ->
  (export_loop fuel (JS.Num R) (JS.Num C) body (JS.Num 0) w).1 <> OutOfFuel.
Proof.
  intros HR HC Hbody Hfuel.
  pose proof (Z.div_pos R C HR ltac:(lia)) as Hq.
  pose proof (Z.mul_succ_div_gt R C ltac:(lia)) as Hgt.
  apply (export_loop_fuel R C body Hbody (Z.to_nat (R / C + 1))); [lia| |done].
  rewrite Z2Nat.id by lia. lia.
Qed.

Lemma turns_ogr2ogr tableName idColumn C base (offsets : list Z) :
  length (omap written (offsets ≫= ogr2ogr_cmds tableName idColumn C base))
  = length offsets.
Proof.
  induction offsets as [|o offsets IH]; [done|].
  rewrite bind_cons, omap_app, length_app, IH. reflexivity.
Qed.

Lemma turns_geojson tableName geomColumn idColumn C base (offsets : list Z) :
  length (omap written (offsets ≫= geojson_cmds tableName geomColumn idColumn C base))
  = length offsets.
Proof.
  induction offsets as [|o offsets IH]; [done|].
  rewrite bind_cons, omap_app, length_app, IH. reflexivity.
Qed.

Lemma ogr2ogr_exporter_ends env fuel tableName idColumn R C filePath w :
  0 <= R -> 1 <= C -> counts env tableName R ->
  (Z.to_nat (R / C) + 1 < fuel)%nat ->
  (Geojson.tableToGeojsonChunksOgr2ogr env fuel tableName idColumn (JS.Num C)
     filePath w).1 <> OutOfFuel.
Proof.
  intros HR HC Hcount Hfuel. rewrite ogr2ogr_exporter_cases. cbv zeta.
  destruct (ok _); [|done]. unfold answer at 1. rewrite Hcount.
  pose proof (export_loop_ends R C
                (Geojson.ogr2ogr_chunk env tableName idColumn (JS.Num C)
                   (JS.split_head ".geojson" filePath)) fuel
                (say (TimeEnd (Geojson.executed (Sql.count_rows tableName)))
                   (after env (Psql (Sql.count_rows tableName) Inherit) w))
                HR HC (ogr2ogr_chunk_ends env _ _ _ _) Hfuel) as Hends.
  by destruct (export_loop _ _ _ _ _ _) as [[[]| | |] w2].
Qed.

Lemma geojson_exporter_ends env fuel tableName geomColumn idColumn R C filePath w :
  0 <= R -> 1 <= C -> counts env tableName R ->
  (Z.to_nat (R / C) + 1 < fuel)%nat ->
  (Geojson.tableToGeojsonChunks env fuel tableName geomColumn idColumn (JS.Num C)
     filePath w).1 <> OutOfFuel.
Proof.
  intros HR HC Hcount Hfuel. rewrite geojson_exporter_cases. cbv zeta.
  destruct (ok _); [|done]. unfold answer at 1. rewrite Hcount.
  pose proof (export_loop_ends R C
                (Geojson.psql_chunk env tableName geomColumn idColumn (JS.Num C)
                   (JS.split_head ".geojson" filePath)) fuel
                (say (TimeEnd (Geojson.executed (Sql.count_rows tableName)))
                   (after env (Psql (Sql.count_rows tableName) Inherit) w))
                HR HC (psql_chunk_ends env _ _ _ _ _) Hfuel) as Hends.
  by destruct (export_loop _ _ _ _ _ _) as [[[]| | |] w2].
Qed.

(** The pipeline ends as soon as its exporter does. *)
Lemma main_ends env fuel cfg R C w :
  0 <= R -> 1 <= C -> counts env (Geojson.tableName cfg) R ->
  Geojson.chunkSize cfg = JS.Num C ->
  (Z.to_nat (R / C) + 1 < fuel)%nat ->
  (Geojson.main env fuel cfg w).1 <> OutOfFuel.
Proof.
  intros HR HC Hcount Hsize Hfuel. rewrite main_cases, Hsize.
  pose proof (ogr2ogr_exporter_ends env fuel (Geojson.tableName cfg) (Geojson.idColumn cfg)
                R C Geojson.filePath w HR HC Hcount Hfuel) as H1.
  destruct (Geojson.tableToGeojsonChunksOgr2ogr _ _ _ _ _ _ _) as [[a| | |] w1];
    try done.
  rewrite mergeGeojson_cases. cbv zeta.
  destruct (ok (answer env (Ogrmerge _ _) w1)); [|done].
  destruct (ok (answer env (FindDelete _) _)); [|done].
  rewrite geojsonToGeobuf_cases. cbv zeta.
  by destruct (ok (answer env (Json2geobuf _ _) _)).
Qed.

(** C6: for a table of R >= 0 rows and a chunk size C >= 1, both below
    2^53 (so that the offsets of the script, which are doubles, grow as
    the integers do), the loop of
    an exporter ends within R/C + 2 tests of [offset > count], whatever
    the commands answer; when every command succeeds the exporter
    returns after exactly R/C + 1 turns of the loop, each writing one
    chunk, and so after at least one turn, also for R = 0.  The test
    [offset > count] fails at the offsets k*C up to k = R/C and holds at
    the next one, (R/C + 1)*C. *)
Theorem export_loop_terminates env fuel tableName geomColumn idColumn R C filePath fs0 :
  0 <= R -> 1 <= C -> safe R -> safe C ->
  counts env tableName R ->
  (Z.to_nat (R / C) + 1 < fuel)%nat ->
  let ogr := Geojson.tableToGeojsonChunksOgr2ogr env fuel tableName idColumn (JS.Num C)
               filePath (start fs0) in
  let sql := Geojson.tableToGeojsonChunks env fuel tableName geomColumn idColumn (JS.Num C)
               filePath (start fs0) in
  ogr.1 <> OutOfFuel /\ sql.1 <> OutOfFuel /\
  (all_ok env ->
     ogr.1 = Ret filePath /\ sql.1 = Ret filePath /\
     turns ogr.2 = (Z.to_nat (R / C) + 1)%nat /\
     turns sql.2 = (Z.to_nat (R / C) + 1)%nat /\
     (1 <= turns ogr.2)%nat /\ (1 <= turns sql.2)%nat) /\
  (forall k, 0 <= k <= R / C -> JS.gt (JS.Num (k * C)) (JS.Num R) = false) /\
  JS.gt (JS.Num ((R / C + 1) * C)) (JS.Num R) = true.
Proof.
  intros HR HC _ _ Hcount Hfuel ogr sql.
  pose proof (Z.mul_div_le R C ltac:(lia)) as Hle.
  pose proof (Z.mul_succ_div_gt R C ltac:(lia)) as Hgt.
  split; [|split; [|split; [|split]]];
    [| | |intros k Hk; simpl; apply bool_decide_eq_false; nia
     |simpl; apply bool_decide_eq_true; nia].
  - by apply (ogr2ogr_exporter_ends env fuel tableName idColumn R C).
  - by apply (geojson_exporter_ends env fuel tableName geomColumn idColumn R C).
  - intros Hok.
    destruct (ogr2ogr_exporter_offsets env R C tableName Hok Hcount HR HC
                idColumn filePath fuel (start fs0) Hfuel) as (w1 & Hrun1 & Htr1).
    destruct (geojson_exporter_offsets env R C tableName Hok Hcount HR HC
                geomColumn idColumn filePath fuel (start fs0) Hfuel) as (w2 & Hrun2 & Htr2).
    assert (turns w1 = (Z.to_nat (R / C) + 1)%nat) as Hturns1.
    { unfold turns. rewrite Htr1. simpl.
      rewrite turns_ogr2ogr, chunk_offsets_length by done. lia. }
    assert (turns w2 = (Z.to_nat (R / C) + 1)%nat) as Hturns2.
    { unfold turns. rewrite Htr2. simpl.
      rewrite turns_geojson, chunk_offsets_length by done. lia. }
    subst ogr sql. rewrite Hrun1, Hrun2. cbn [fst snd].
    rewrite Hturns1, Hturns2. repeat split; lia.
Qed.

Lemma export_loop_terminates_witness :
  (Geojson.tableToGeojsonChunksOgr2ogr (calm "0") 2 "table" "id" (JS.Num 1000000)
     "layer.geojson" (start ∅)).1 <> OutOfFuel.
Proof.
  refine (proj1 (export_loop_terminates (calm "0") 2 "table" "geom" "id" 0 1000000
                   "layer.geojson" ∅ _ _ _ _ _ _)).
  - lia.
  - lia.
  - reflexivity.
  - reflexivity.
  - intros n fs0. reflexivity.
  - vm_compute. lia.
Defined.

(** ** Where the statements order and bound their rows *)

Lemma pages_by_page_rows tableName idColumn chunkSize offset :
  pages_by idColumn chunkSize offset (Sql.page_rows tableName idColumn chunkSize offset).
Proof.
  exists (Sql.page_ids tableName idColumn chunkSize offset),
    (Sql.page_rows tableName idColumn chunkSize offset).
  unfold bounded_by. cbn. rewrite String.eqb_refl. cbn. done.
Qed.

Lemma pages_by_geojson_chunk tableName geomColumn idColumn chunkSize offset :
  pages_by idColumn chunkSize offset
    (Sql.geojson_chunk tableName geomColumn idColumn chunkSize offset).
Proof.
  exists (Sql.page_ids tableName idColumn chunkSize offset),
    (Sql.page_rows tableName idColumn chunkSize offset).
  unfold bounded_by. cbn. rewrite String.eqb_refl. cbn. done.
Qed.

Lemma pages_by_geobuf_chunk tableName idColumn geomColumn properties chunkSize offset :
  pages_by idColumn chunkSize offset
    (Sql.geobuf_chunk tableName idColumn geomColumn properties chunkSize offset).
Proof.
  exists (Sql.page_ids tableName idColumn chunkSize offset),
    (Sql.page_rows tableName idColumn chunkSize offset).
  unfold bounded_by. cbn. rewrite String.eqb_refl. cbn. done.
Qed.

Lemma since_after (w : World) (l : list (cmd * response)) :
  drop (length (trace w)) (trace w ++ l).*1 = l.*1.
Proof.
  rewrite fmap_app, drop_app_length'; [done|]. by rewrite length_fmap.
Qed.

(** C5: in each of the three exporters a turn of the loop at [offset]
    hands exactly one statement to the database (none when the [rm -rf]
    that comes first in the two GeoJSON exporters has failed), and this
    statement pages its rows by the identifier: its only ORDER BY is the
    ORDER BY idColumn of the SELECT that carries LIMIT chunkSize OFFSET
    offset, that SELECT is the subquery of [idColumn IN (...)], and the
    outer row fetch has no ORDER BY.  For [ogr2ogr], whose statement zx
    splices into a quoted argument, this is for names of the table and of
    the identifier that zx leaves unquoted, and for a chunk size and an
    offset below 2^53, which a template prints in digits. *)
Theorem order_by_in_bounding_subquery env tableName geomColumn idColumn properties
    chunkSize base offset w :
  let rm := RmRf (Geojson.part base offset) in
  let ogr := Geojson.ogr2ogr_chunk env tableName idColumn chunkSize base offset w in
  let sql := Geojson.psql_chunk env tableName geomColumn idColumn chunkSize base offset w in
  let gbf := Geobuf.geobuf_chunk env tableName idColumn geomColumn properties chunkSize
               base offset w in
  (unquoted tableName = true -> unquoted idColumn = true ->
   safe_number chunkSize -> safe_number offset ->
   ok (answer env rm w) = true ->
   statements_since w ogr.2 = [Sql.page_rows tableName idColumn chunkSize offset])
  /\ (ok (answer env rm w) = true ->
      statements_since w sql.2
      = [Sql.geojson_chunk tableName geomColumn idColumn chunkSize offset])
  /\ statements_since w gbf.2
     = [Sql.geobuf_chunk tableName idColumn geomColumn properties chunkSize offset]
  /\ (ok (answer env rm w) = false ->
      statements_since w ogr.2 = [] /\ statements_since w sql.2 = [])
  /\ pages_by idColumn chunkSize offset
       (Sql.page_rows tableName idColumn chunkSize offset)
  /\ pages_by idColumn chunkSize offset
       (Sql.geojson_chunk tableName geomColumn idColumn chunkSize offset)
  /\ pages_by idColumn chunkSize offset
       (Sql.geobuf_chunk tableName idColumn geomColumn properties chunkSize offset).
Proof.
  pose proof (pages_by_page_rows tableName idColumn chunkSize offset) as H1.
  pose proof (pages_by_geojson_chunk tableName geomColumn idColumn chunkSize offset) as H2.
  pose proof (pages_by_geobuf_chunk tableName idColumn geomColumn properties
                chunkSize offset) as H3.
  cbv zeta. rewrite ogr2ogr_chunk_cases, psql_chunk_cases, geobuf_chunk_cases. cbv zeta.
  unfold statements_since.
  split; [|split; [|split; [|split]]]; [| | | |done].
  - intros _ _ _ _ ->. destruct (ok _); cbn [snd];
      rewrite ?trace_say, ?trace_after, ?trace_say, ?trace_after, <- ?app_assoc,
        since_after; reflexivity.
  - intros ->. destruct (ok _); cbn [snd];
      rewrite ?trace_say, ?trace_after, ?trace_say, ?trace_after, <- ?app_assoc,
        since_after; reflexivity.
  - destruct (ok _); cbn [snd];
      rewrite ?trace_say, ?trace_after, ?trace_say, ?trace_after, <- ?app_assoc,
        since_after; reflexivity.
  - intros ->. cbn [snd]. rewrite trace_after, since_after. by split.
Qed.

(** ** The names of the files *)

Lemma split_head_layer : JS.split_head ".geojson" Geojson.filePath = "layer".
Proof. reflexivity. Qed.

Section Names.
Context (env : Env) (cfg : Geojson.Config).






End Names.


(** ** How a run ends *)

Section Ending.
Context (env : Env) (cfg : Geojson.Config).

Lemma all_succeeded_say l w : all_succeeded (say l w) <-> all_succeeded w.
Proof. reflexivity. Qed.

Lemma all_succeeded_after c w :
  all_succeeded w -> ok (answer env c w) = true -> all_succeeded (after env c w).
Proof.
  unfold all_succeeded. rewrite trace_after, Forall_app.
  intros Hw Hc. split; [done|]. by repeat constructor.
Qed.

Lemma failed_at_after c w :
  all_succeeded w -> ok (answer env c w) = false ->
  failed_at (after env c w) c (answer env c w).
Proof. intros Hw Hc. by exists (trace w). Qed.

Lemma failed_at_say l w c r : failed_at (say l w) c r <-> failed_at w c r.
Proof. reflexivity. Qed.

Lemma diagnosed_caught w c r :
  diagnosed cfg (caught (timer_of cfg c) (stage_of c) (proc r) w) c r.
Proof. exists (console w). simpl. by rewrite <- app_assoc. Qed.

Lemma diagnosed_query w q r :
  diagnosed cfg
    (say (query_failure (proc r)) (say (TimeEnd (Geojson.executed q)) w))
    (Psql q Inherit) r.
Proof. exists (console w). simpl. by rewrite <- app_assoc. Qed.

Lemma ogr2ogr_chunk_ends_well o w :
  all_succeeded w ->
  let run := Geojson.ogr2ogr_chunk env (Geojson.tableName cfg) (Geojson.idColumn cfg)
               (Geojson.chunkSize cfg) "layer" o w in
  ends_well cfg "tableToGeojsonChunksOgr2ogr" run.1 run.2.
Proof.
  intros Hw. cbv zeta. rewrite ogr2ogr_chunk_cases. cbv zeta.
  destruct (ok (answer env (RmRf _) w)) eqn:Hrm; cbn [fst snd ends_well].
  - destruct (ok (answer env (Ogr2ogr _ _) _)) eqn:Hogr; cbn [fst snd ends_well].
    + apply all_succeeded_say, all_succeeded_after; [|done].
      by apply all_succeeded_say, all_succeeded_after.
    + eexists _, _. split.
      { apply failed_at_after; [|done].
        by apply all_succeeded_say, all_succeeded_after. }
      split; reflexivity.
  - eexists _, _. split; [by apply failed_at_after|]. split; reflexivity.
Qed.

Lemma export_loop_ends_well fuel count :
  forall o w,
    all_succeeded w ->
    let run := export_loop fuel count (Geojson.chunkSize cfg)
                 (Geojson.ogr2ogr_chunk env (Geojson.tableName cfg) (Geojson.idColumn cfg)
                    (Geojson.chunkSize cfg) "layer") o w in
    ends_well cfg "tableToGeojsonChunksOgr2ogr" run.1 run.2.
Proof.
  induction fuel as [|fuel IH]; intros o w Hw; [done|]. cbv zeta.
  destruct (JS.gt o count) eqn:Hgt.
  - by rewrite export_loop_break.
  - rewrite export_loop_next by done.
    pose proof (ogr2ogr_chunk_ends_well o w Hw) as Hbody. cbv zeta in Hbody.
    destruct (Geojson.ogr2ogr_chunk _ _ _ _ _ _ _) as [[[]| | |] w1];
      cbn [fst snd] in *; try done.
    by apply IH.
Qed.

Lemma exporter_ends_well fuel w :
  all_succeeded w ->
  let run := Geojson.tableToGeojsonChunksOgr2ogr env fuel (Geojson.tableName cfg)
               (Geojson.idColumn cfg) (Geojson.chunkSize cfg) Geojson.filePath w in
  ends_well cfg "main" run.1 run.2 /\ forall e, run.1 <> Throw e.
Proof.
  intros Hw. cbv zeta. rewrite ogr2ogr_exporter_cases. cbv zeta. rewrite split_head_layer.
  destruct (ok (answer env (Psql _ _) w)) eqn:Hq; cbn [fst snd ends_well].
  - match goal with
    | |- context [export_loop ?f ?n _ _ ?o ?w1] =>
        pose proof (export_loop_ends_well f n o w1) as Hloop
    end.
    cbv zeta in Hloop.
    destruct (export_loop _ _ _ _ _ _) as [[[]| | |] w2]; cbn [fst snd ends_well] in *.
    + split; [|done]. apply all_succeeded_say, Hloop.
      by apply all_succeeded_say, all_succeeded_after.
    + split; [|done]. split; [done|].
      destruct Hloop as (c & r & Hfail & Hstage & ->).
      { by apply all_succeeded_say, all_succeeded_after. }
      exists c, r. split; [done|].
      replace (ogr2ogr_created (Geojson.tableName cfg) Geojson.filePath)
        with (timer_of cfg c) by (by destruct c).
      rewrite <- Hstage. apply diagnosed_caught.
    + split; [|done]. apply Hloop. by apply all_succeeded_say, all_succeeded_after.
    + split; [|done]. apply Hloop. by apply all_succeeded_say, all_succeeded_after.
  - split; [|done]. split; [done|]. eexists _, _. split.
    + apply failed_at_say, failed_at_say, failed_at_after; done.
    + apply diagnosed_query.
Qed.

Lemma mergeGeojson_ends_well w :
  all_succeeded w ->
  let run := Geojson.mergeGeojson env Geojson.filePath w in
  ends_well cfg "main" run.1 run.2 /\ forall e, run.1 <> Throw e.
Proof.
  intros Hw. cbv zeta. rewrite mergeGeojson_cases. cbv zeta.
  destruct (ok (answer env (Ogrmerge _ _) w)) eqn:Hm; cbn [fst snd ends_well].
  - destruct (ok (answer env (FindDelete _) _)) eqn:Hf; cbn [fst snd ends_well].
    + split; [|done]. by repeat apply all_succeeded_after.
    + split; [|done]. split; [done|]. eexists _, _. split.
      * apply failed_at_say, failed_at_say, failed_at_after; [|done].
        by apply all_succeeded_after.
      * apply (diagnosed_caught _ (FindDelete _)).
  - split; [|done]. split; [done|]. eexists _, _. split.
    + apply failed_at_say, failed_at_say, failed_at_after; done.
    + apply (diagnosed_caught _ (Ogrmerge _ _)).
Qed.

Lemma geojsonToGeobuf_ends_well w :
  all_succeeded w ->
  let run := Geojson.geojsonToGeobuf env Geojson.filePath w in
  ends_well cfg "main" run.1 run.2 /\ (forall e, run.1 <> Throw e) /\
  (forall a, run.1 = Ret a ->
     exists tr r, trace run.2 = tr ++ [(Json2geobuf "layer.geojson" "layer.gbf", r)]).
Proof.
  intros Hw. cbv zeta. rewrite geojsonToGeobuf_cases. cbv zeta.
  destruct (ok (answer env (Json2geobuf _ _) w)) eqn:Hc; cbn [fst snd ends_well].
  - split; [|split; [done|]]; [by apply all_succeeded_after|].
    intros _ _. by eexists _, _.
  - split; [|done]. split; [done|]. eexists _, _. split.
    + apply failed_at_say, failed_at_say, failed_at_after; done.
    + apply (diagnosed_caught _ (Json2geobuf _ _)).
Qed.

Lemma main_ends_well fuel fs0 :
  let run := Geojson.main env fuel cfg (start fs0) in
  ends_well cfg "main" run.1 run.2 /\ (forall e, run.1 <> Throw e) /\
  (forall a, run.1 = Ret a ->
     exists tr r, trace run.2 = tr ++ [(Json2geobuf "layer.geojson" "layer.gbf", r)]).
Proof.
  cbv zeta. rewrite main_cases.
  destruct (exporter_ends_well fuel (start fs0)) as [H1 T1]; [constructor|].
  cbv zeta in H1, T1.
  destruct (Geojson.tableToGeojsonChunksOgr2ogr _ _ _ _ _ _ _) as [[a| | |] w1];
    cbn [fst snd] in *; try done.
  destruct (mergeGeojson_ends_well w1 H1) as [H2 T2]. cbv zeta in H2, T2.
  destruct (Geojson.mergeGeojson _ _ _) as [[b| | |] w2]; cbn [fst snd] in *; try done.
  by apply geojsonToGeobuf_ends_well.
Qed.

End Ending.

(** ** Paths of the chunk files *)

Lemma dotless_pretty_N_go (x : N) s : dotless s = true -> dotless (pretty_N_go x s) = true.
Proof.
  revert s. induction (N.lt_wf_0 x) as [x _ IH]; intros s Hs.
  destruct (decide (x = 0)%N) as [->|Hx]; [done|].
  rewrite pretty_N_go_step by lia. apply IH.
  - apply N.div_lt; lia.
  - simpl. rewrite Hs, andb_true_r.
    unfold pretty_N_char. by repeat case_match.
Qed.

Lemma dotless_pretty_N (x : N) : dotless (pretty x) = true.
Proof.
  unfold pretty, pretty_N. case_decide; [done|]. by apply dotless_pretty_N_go.
Qed.

Lemma dotless_pretty_Z (z : Z) : dotless (pretty z) = true.
Proof.
  destruct z as [|p|p]; [done|apply dotless_pretty_N|].
  unfold pretty, pretty_Z. simpl. apply dotless_pretty_N.
Qed.

Lemma append_cons c (s t : string) : String c s +:+ t = String c (s +:+ t).
Proof. reflexivity. Qed.

Lemma append_nil_l (t : string) : EmptyString +:+ t = t.
Proof. reflexivity. Qed.

Lemma append_nil_r (s : string) : s +:+ EmptyString = s.
Proof. induction s as [|c s IH]; [done|]. by rewrite append_cons, IH. Qed.

Lemma append_assoc (s t u : string) : (s +:+ t) +:+ u = s +:+ (t +:+ u).
Proof. induction s as [|c s IH]; [done|]. by rewrite !append_cons, IH. Qed.

Lemma append_self_nil (s t : string) : s = s +:+ t -> t = EmptyString.
Proof.
  intros H. apply (f_equal String.length) in H. rewrite length_append in H.
  destruct t; [done|]. simpl in H. lia.
Qed.

(** Two numbers followed by [.geojson], one of them followed by more. *)
Lemma number_then_extension (a b rest : string) :
  dotless a = true -> dotless b = true ->
  a +:+ ".geojson" = b +:+ ".geojson" +:+ rest ->
  a = b /\ rest = EmptyString.
Proof.
  revert b. induction a as [|c a IH]; intros [|d b] Ha Hb Heq;
    rewrite ?append_cons, ?append_nil_l in Heq.
  - split; [done|]. by apply (append_self_nil ".geojson").
  - injection Heq as <- _. done.
  - injection Heq as -> _. done.
  - injection Heq as -> Heq. simpl in Ha, Hb.
    apply andb_true_iff in Ha as [_ Ha], Hb as [_ Hb].
    destruct (IH b Ha Hb Heq) as [-> ->]. done.
Qed.

Lemma prefix_append (a b : string) :
  String.prefix a b = true -> exists rest, b = a +:+ rest.
Proof.
  revert b. induction a as [|c a IH]; intros b H.
  - by exists b.
  - destruct b as [|d b]; [done|]. simpl in H.
    destruct (ascii_dec c d) as [->|]; [|done].
    destruct (IH b H) as [rest ->]. by exists rest.
Qed.

Lemma part_inj base (z z' : Z) :
  Geojson.part base (JS.Num z) = Geojson.part base (JS.Num z') -> z = z'.
Proof.
  unfold Geojson.part. intros H. simpl in H.
  apply (inj (String.app base)) in H. injection H as H.
  rewrite <- (append_nil_r (pretty z' +:+ ".geojson")), append_assoc in H.
  apply number_then_extension in H as [H _]; [|apply dotless_pretty_Z..].
  by apply (inj pretty).
Qed.

(** [rm -rf] of the chunk file of one offset leaves the chunk files of
    the other offsets alone. *)
Lemma rm_targets_part base (z z' : Z) :
  z <> z' ->
  rm_targets (Geojson.part base (JS.Num z)) (Geojson.part base (JS.Num z')) = false.
Proof.
  intros Hne. unfold rm_targets. apply orb_false_iff. split.
  - apply String.eqb_neq. intros H. by apply part_inj in H.
  - apply not_true_is_false. intros (rest & H)%prefix_append.
    unfold Geojson.part in H. simpl in H. rewrite !append_assoc in H.
    apply (inj (String.app base)) in H. injection H as H.
    apply number_then_extension in H as [_ H]; [done|apply dotless_pretty_Z..].
Qed.

(** ** The chunk files during the export *)

Lemma lookup_sweep_other target r (files0 : files) p :
  target p = false -> sweep target r files0 !! p = files0 !! p.
Proof.
  intros Hp. unfold sweep. rewrite map_lookup_filter.
  destruct (files0 !! p) as [b|]; [|done]. simpl.
  rewrite option_guard_True; [done|]. simpl. by rewrite Hp.
Qed.

Lemma lookup_put dst content (files0 : files) : put dst content files0 !! dst = content.
Proof.
  destruct content; simpl; [apply lookup_insert_eq|apply lookup_delete_eq].
Qed.

Lemma lookup_put_other dst content (files0 : files) p :
  p <> dst -> put dst content files0 !! p = files0 !! p.
Proof.
  intros Hp. destruct content; simpl; [by apply lookup_insert_ne|by apply lookup_delete_ne].
Qed.

Section Kept.
Context (env : Env) (tableName idColumn : string) (C : Z).
Hypothesis HC : 1 <= C.

Lemma chunks_kept_say z l w : chunks_kept z (say l w) <-> chunks_kept z w.
Proof. reflexivity. Qed.

Lemma chunks_kept_mono z z' w : z <= z' -> chunks_kept z w -> chunks_kept z' w.
Proof.
  intros Hz Hw p sql r Hin. destruct (Hw p sql r Hin) as [(z0 & Hz0 & ->) Hfs].
  split; [|done]. exists z0. split; [lia|done].
Qed.

Lemma chunks_kept_query z q w :
  chunks_kept z w -> chunks_kept z (after env (Psql q Inherit) w).
Proof.
  intros Hw p sql r Hin. rewrite trace_after, elem_of_app, list_elem_of_singleton in Hin.
  destruct Hin as [Hin|Hin]; [|done]. exact (Hw p sql r Hin).
Qed.

Lemma chunks_kept_rm z w :
  chunks_kept z w -> chunks_kept z (after env (RmRf (Geojson.part "layer" (JS.Num z))) w).
Proof.
  intros Hw p sql r Hin. rewrite trace_after, elem_of_app, list_elem_of_singleton in Hin.
  destruct Hin as [Hin|Hin]; [|done].
  destruct (Hw p sql r Hin) as [(z0 & Hz0 & ->) Hfs].
  split; [by exists z0|]. simpl.
  rewrite lookup_sweep_other; [done|]. apply rm_targets_part. lia.
Qed.

Lemma chunks_kept_ogr2ogr z sql w :
  0 <= z -> chunks_kept z w ->
  chunks_kept (z + 1) (after env (Ogr2ogr (Geojson.part "layer" (JS.Num z)) sql) w).
Proof.
  intros Hz Hw p sql' r Hin. rewrite trace_after, elem_of_app, list_elem_of_singleton in Hin.
  destruct Hin as [Hin|Hin].
  - destruct (Hw p sql' r Hin) as [(z0 & Hz0 & ->) Hfs].
    split; [exists z0; split; [lia|done]|]. simpl.
    rewrite lookup_put_other; [done|]. intros Heq%part_inj. lia.
  - injection Hin as -> -> ->. split; [exists z; split; [lia|done]|].
    simpl. apply lookup_put.
Qed.

Lemma ogr2ogr_chunk_kept z w :
  0 <= z -> chunks_kept z w ->
  chunks_kept (z + C)
    (Geojson.ogr2ogr_chunk env tableName idColumn (JS.Num C) "layer" (JS.Num z) w).2.
Proof.
  intros Hz Hw. rewrite ogr2ogr_chunk_cases. cbv zeta.
  destruct (ok (answer env (RmRf _) w)); cbn [snd].
  - apply (chunks_kept_mono (z + 1)); [lia|].
    destruct (ok (answer env (Ogr2ogr _ _) _)); cbn [snd];
      rewrite ?chunks_kept_say; apply chunks_kept_ogr2ogr; [done| |done|];
      by apply chunks_kept_say, chunks_kept_rm.
  - apply (chunks_kept_mono z); [lia|]. by apply chunks_kept_rm.
Qed.

Lemma export_loop_kept fuel count :
  forall z w,
    0 <= z -> chunks_kept z w ->
    exists z',
      chunks_kept z'
        (export_loop fuel count (JS.Num C)
           (Geojson.ogr2ogr_chunk env tableName idColumn (JS.Num C) "layer")
           (JS.Num z) w).2.
Proof.
  induction fuel as [|fuel IH]; intros z w Hz Hw; [by exists z|].
  destruct (JS.gt (JS.Num z) count) eqn:Hgt.
  - rewrite export_loop_break by done. by exists z.
  - rewrite export_loop_next by done.
    pose proof (ogr2ogr_chunk_kept z w Hz Hw) as Hbody.
    destruct (Geojson.ogr2ogr_chunk _ _ _ _ _ _ _) as [[[]| | |] w1]; cbn [snd] in *;
      try by exists (z + C).
    apply IH; [lia|done].
Qed.

Lemma exporter_kept fuel fs0 :
  exists z,
    chunks_kept z
      (Geojson.tableToGeojsonChunksOgr2ogr env fuel tableName idColumn (JS.Num C)
         Geojson.filePath (start fs0)).2.
Proof.
  rewrite ogr2ogr_exporter_cases. cbv zeta. rewrite split_head_layer.
  assert (chunks_kept 0 (start fs0)) as H0.
  { intros p sql r Hin. by apply elem_of_nil in Hin. }
  destruct (ok (answer env (Psql _ _) _)); cbn [snd].
  - match goal with
    | |- context [export_loop ?f ?n _ _ _ ?w1] =>
        destruct (export_loop_kept f n 0 w1) as [z Hz]; [done| |]
    end.
    { by apply chunks_kept_say, chunks_kept_query. }
    exists z. by destruct (export_loop _ _ _ _ _ _) as [[[]| | |] w2].
  - exists 0. by apply chunks_kept_say, chunks_kept_query.
Qed.

End Kept.

(** ** The stages of the pipeline *)

Lemma exporter_early env fuel tableName idColumn chunkSize filePath :
  keeps (on_commands early)
    (Geojson.tableToGeojsonChunksOgr2ogr env fuel tableName idColumn chunkSize filePath).
Proof.
  intros w Hw. rewrite ogr2ogr_exporter_cases. cbv zeta.
  destruct (ok _); cbn [snd]; [|by keep_commands].
  match goal with
  | |- context [export_loop ?f ?n ?c ?b ?o ?w1] =>
      assert (on_commands early (export_loop f n c b o w1).2) as Hloop
  end.
  { apply export_loop_keeps; [|by keep_commands].
    intros o w0 Hw0. rewrite ogr2ogr_chunk_cases. cbv zeta.
    repeat destruct (ok _); cbn [snd]; by keep_commands. }
  destruct (export_loop _ _ _ _ _ _) as [[[]| | |] w2]; cbn [snd] in *; by keep_commands.
Qed.

Lemma mergeGeojson_later env filePath w :
  exists later,
    trace (Geojson.mergeGeojson env filePath w).2 = trace w ++ later /\
    Forall (fun cr => stage_of cr.1 = "mergeGeojson") later.
Proof.
  rewrite mergeGeojson_cases. cbv zeta.
  repeat destruct (ok _); cbn [snd]; unfold caught;
    rewrite ?trace_say, ?trace_after, <- ?app_assoc;
    eexists; (split; [reflexivity|]); by repeat constructor.
Qed.

Lemma geojsonToGeobuf_later env filePath w :
  exists later,
    trace (Geojson.geojsonToGeobuf env filePath w).2 = trace w ++ later /\
    Forall (fun cr => stage_of cr.1 = "geojsonToGeobuf") later.
Proof.
  rewrite geojsonToGeobuf_cases. cbv zeta.
  repeat destruct (ok _); cbn [snd]; unfold caught;
    rewrite ?trace_say, ?trace_after, <- ?app_assoc;
    eexists; (split; [reflexivity|]); by repeat constructor.
Qed.

(** A failed command of the exporter is never followed by the merger:
    the run of the pipeline is the run of the exporter. *)
Lemma main_stops_in_export env fuel cfg fs0 c r :
  let run := Geojson.main env fuel cfg (start fs0) in
  (c, r) ∈ trace run.2 -> ok r = false ->
  stage_of c = "tableToGeojsonChunksOgr2ogr" ->
  run.2 = (Geojson.tableToGeojsonChunksOgr2ogr env fuel (Geojson.tableName cfg)
             (Geojson.idColumn cfg) (Geojson.chunkSize cfg) Geojson.filePath
             (start fs0)).2.
Proof.
  cbv zeta. rewrite main_cases. intros Hin Hr Hstage.
  destruct (exporter_ends_well env cfg fuel (start fs0)) as [H1 _]; [constructor|].
  cbv zeta in H1.
  destruct (Geojson.tableToGeojsonChunksOgr2ogr _ _ _ _ _ _ _) as [[a| | |] w1];
    cbn [fst snd] in *; try done.
  exfalso. cbn [ends_well] in H1.
  destruct (mergeGeojson_later env Geojson.filePath w1) as (l1 & Ht1 & Hl1).
  assert ((c, r) ∈ trace w1 ++ l1 ++
            match Geojson.mergeGeojson env Geojson.filePath w1 with
            | (Ret _, w2) =>
                drop (length (trace w2)) (trace (Geojson.geojsonToGeobuf env Geojson.filePath w2).2)
            | _ => []
            end) as Hin'.
  { destruct (Geojson.mergeGeojson _ _ _) as [[b| | |] w2]; cbn [snd] in *;
      rewrite ?app_nil_r, <- ?Ht1; try done.
    destruct (geojsonToGeobuf_later env Geojson.filePath w2) as (l2 & Ht2 & Hl2).
    rewrite Ht2 in Hin |- *. rewrite drop_app_length. by rewrite Ht1, <- app_assoc in Hin. }
  clear Hin. rewrite !elem_of_app in Hin'. destruct Hin' as [Hin|[Hin|Hin]].
  - unfold all_succeeded in H1. rewrite Forall_forall in H1.
    specialize (H1 _ Hin). simpl in H1. congruence.
  - rewrite Forall_forall in Hl1. specialize (Hl1 _ Hin). simpl in Hl1. congruence.
  - destruct (Geojson.mergeGeojson _ _ _) as [[b| | |] w2]; try by apply elem_of_nil in Hin.
    destruct (geojsonToGeobuf_later env Geojson.filePath w2) as (l2 & Ht2 & Hl2).
    rewrite Ht2, drop_app_length in Hin.
    rewrite Forall_forall in Hl2. specialize (Hl2 _ Hin). simpl in Hl2. congruence.
Qed.

(** C4: when a command of the export of a chunk fails ([rm -rf] or
    [ogr2ogr], at any offset), the pipeline exits with status 1 right
    after it; the merger and the converter are never started; and, the
    chunk size being a positive integer, every chunk file that [ogr2ogr]
    was run for, the failed one included, is on disk as [ogr2ogr] left
    it. *)
Theorem export_failure_aborts env fuel cfg fs0 c r :
  let run := Geojson.main env fuel cfg (start fs0) in
  (c, r) ∈ trace run.2 -> ok r = false ->
  stage_of c = "tableToGeojsonChunksOgr2ogr" ->
  run.1 = Exit 1 /\
  last (trace run.2) = Some (c, r) /\
  Forall early (trace run.2).*1 /\
  (forall C, Geojson.chunkSize cfg = JS.Num C -> 1 <= C ->
     forall p sql r', (Ogr2ogr p sql, r') ∈ trace run.2 -> fs run.2 !! p = dest r').
Proof.
  intros run Hin Hr Hstage.
  pose proof (main_stops_in_export env fuel cfg fs0 c r Hin Hr Hstage) as Hrun.
  fold run in Hrun.
  destruct (main_ends_well env cfg fuel fs0) as (Hend & Hthrow & _).
  fold run in Hend, Hthrow.
  assert (run.1 = Exit 1 /\ last (trace run.2) = Some (c, r)) as [Hexit Hlast].
  { destruct run.1 as [a|e|code|]; cbn [ends_well] in Hend.
    - unfold all_succeeded in Hend. rewrite Forall_forall in Hend.
      specialize (Hend _ Hin). simpl in Hend. congruence.
    - by destruct (Hthrow e).
    - destruct Hend as (-> & c' & r' & (tr & Htr & Hall & Hr') & _).
      split; [done|]. rewrite Htr in Hin |- *. rewrite last_snoc.
      apply elem_of_app in Hin as [Hin|Hin%list_elem_of_singleton]; [|by rewrite Hin].
      rewrite Forall_forall in Hall. specialize (Hall _ Hin). simpl in Hall. congruence.
    - unfold all_succeeded in Hend. rewrite Forall_forall in Hend.
      specialize (Hend _ Hin). simpl in Hend. congruence. }
  split; [done|]. split; [done|]. split.
  - rewrite Hrun. apply exporter_early. constructor.
  - intros C HC HC1. rewrite Hrun, HC.
    destruct (exporter_kept env (Geojson.tableName cfg) (Geojson.idColumn cfg) C HC1
                fuel fs0) as [z Hz].
    intros p sql r' Hin'. by destruct (Hz p sql r' Hin').
Qed.

Lemma export_failure_aborts_witness :
  (Geojson.main (failing_at 4 " 10") 9 chunks_of_4 (start ∅)).1 = Exit 1.
Proof.
  refine (proj1 (export_failure_aborts (failing_at 4 " 10") 9 chunks_of_4 ∅
                   (Ogr2ogr "layer_4.geojson"
                      (Sql.page_rows "table" "id" (JS.Num 4) (JS.Num 4)))
                   (failing_at 4 " 10" 4%nat ∅ (RmRf EmptyString)) _ _ _)).
  - apply list_elem_of_lookup. exists 4%nat. vm_compute. reflexivity.
  - reflexivity.
  - reflexivity.
Defined.

Lemma failed_not_succeeded w c r : failed_at w c r -> ~ all_succeeded w.
Proof.
  intros (tr & Htr & _ & Hr) Hall. unfold all_succeeded in Hall.
  rewrite Htr, Forall_app, Forall_singleton in Hall. simpl in Hall.
  destruct Hall as [_ Hall]. congruence.
Qed.

(** C7, as stated, fails: what the pipeline writes on a failure names
    the function that caught it, not the command.  With CHUNK_SIZE=4 and
    10 rows, a run in which [rm -rf] of the first chunk fails and a run in
    which [ogr2ogr] of the second chunk fails both exit with status 1
    after the same two lines, so that the failing command cannot be read
    off them. *)
Lemma diagnostic_names_the_stage :
  let run1 := Geojson.main (failing_at 1 " 10") 9 chunks_of_4 (start ∅) in
  let run2 := Geojson.main (failing_at 4 " 10") 9 chunks_of_4 (start ∅) in
  run1.1 = Exit 1 /\ run2.1 = Exit 1 /\
  last (trace run1.2).*1 = Some (RmRf "layer_0.geojson") /\
  last (trace run2.2).*1
    = Some (Ogr2ogr "layer_4.geojson" (Sql.page_rows "table" "id" (JS.Num 4) (JS.Num 4))) /\
  diagnostic run1.2
    = [TimeEnd "[tableToGeojsonChunksOgr2ogr] Created table in layer.geojson";
       Log "[tableToGeojsonChunksOgr2ogr] Error: failed"] /\
  diagnostic run2.2 = diagnostic run1.2 /\
  ~ (forall env env' fuel cfg fs0,
       let run := Geojson.main env fuel cfg (start fs0) in
       let run' := Geojson.main env' fuel cfg (start fs0) in
       run.1 = Exit 1 -> run'.1 = Exit 1 ->
       diagnostic run.2 = diagnostic run'.2 ->
       last (trace run.2).*1 = last (trace run'.2).*1).
Proof.
  cbv zeta. repeat split; try reflexivity.
  intros H.
  specialize (H (failing_at 1 " 10") (failing_at 4 " 10") 9%nat chunks_of_4 ∅).
  cbv zeta in H. discriminate H; reflexivity.
Qed.

(** C7, amended: a run of the pipeline ends (for a table of R >= 0 rows
    and a chunk size C >= 1, both below 2^53, within R/C + 2 tests of the
    loop), and it exits with status 0 or 1.  It exits with 0 exactly when
    every command it ran succeeded, and then it ran through the
    conversion.  As soon as a command fails it exits with 1: the failed
    command is the last one that ran (nothing is retried, nothing runs
    after it), and the last two lines on the console are the timer of the
    function that caught the failure and the line [[function] Error:
    output of the failed process].  For a failed [psql] the label of the
    timer holds the text of the statement; for the other commands it
    holds the table and the target file of the run, and neither line
    names the command or the chunk. *)
Theorem exit_status_reports_failure env fuel cfg fs0 :
  let run := Geojson.main env fuel cfg (start fs0) in
  (status run.1 = Some 0 <-> run.1 <> OutOfFuel /\ all_succeeded run.2) /\
  (status run.1 = Some 0 ->
     exists tr r, trace run.2 = tr ++ [(Json2geobuf "layer.geojson" "layer.gbf", r)]) /\
  (~ all_succeeded run.2 -> status run.1 = Some 1) /\
  (status run.1 = Some 1 ->
     exists c r, failed_at run.2 c r /\ diagnosed cfg run.2 c r) /\
  (run.1 = OutOfFuel \/ status run.1 = Some 0 \/ status run.1 = Some 1) /\
  (forall R C,
     0 <= R -> 1 <= C -> safe R -> safe C -> counts env (Geojson.tableName cfg) R ->
     Geojson.chunkSize cfg = JS.Num C -> (Z.to_nat (R / C) + 1 < fuel)%nat ->
     run.1 <> OutOfFuel).
Proof.
  intros run.
  destruct (main_ends_well env cfg fuel fs0) as (Hend & Hthrow & Hconv).
  fold run in Hend, Hthrow, Hconv.
  assert (forall R C,
            0 <= R -> 1 <= C -> safe R -> safe C ->
            counts env (Geojson.tableName cfg) R ->
            Geojson.chunkSize cfg = JS.Num C -> (Z.to_nat (R / C) + 1 < fuel)%nat ->
            run.1 <> OutOfFuel) as Hends.
  { intros R C HR HC _ _ Hcount Hsize Hfuel. by apply (main_ends env fuel cfg R C). }
  destruct run.1 as [a|e|code|] eqn:Hres; cbn [ends_well status] in *.
  - split; [|split; [|split; [|split; [|split]]]].
    + split; [by intros _|done].
    + intros _. by apply (Hconv a).
    + intros Hno. by destruct Hno.
    + done.
    + right; by left.
    + done.
  - by destruct (Hthrow e).
  - destruct Hend as (-> & c & r & Hfail & Hdiag).
    split; [|split; [|split; [|split; [|split]]]].
    + split; [done|]. intros [_ Hall]. by destruct (failed_not_succeeded _ _ _ Hfail).
    + done.
    + done.
    + intros _. by exists c, r.
    + right; by right.
    + done.
  - split; [|split; [|split; [|split; [|split]]]].
    + split; [done|]. by intros [? _].
    + done.
    + intros Hno. by destruct Hno.
    + done.
    + by left.
    + exact Hends.
Qed.

(** ** The merger and the files *)

Lemma lookup_sweep_target target r (files0 : files) p :
  ok r = true -> target p = true -> sweep target r files0 !! p = None.
Proof.
  intros Hr Hp. unfold sweep. apply map_lookup_filter_None. right.
  intros b _. simpl. by rewrite Hp, Hr.
Qed.

Lemma chunksPattern_layer : chunksPattern Geojson.filePath = "layer_*.geojson".
Proof. reflexivity. Qed.

(** When the merger returns, both of its commands have succeeded. *)
Lemma mergeGeojson_returns env filePath w a :
  (Geojson.mergeGeojson env filePath w).1 = Ret a ->
  let merge := Ogrmerge filePath (chunksPattern filePath) in
  let find := FindDelete (chunksPattern filePath) in
  ok (answer env merge w) = true /\
  ok (answer env find (after env merge w)) = true /\
  (Geojson.mergeGeojson env filePath w).2 = after env find (after env merge w).
Proof.
  rewrite mergeGeojson_cases. cbv zeta.
  destruct (ok (answer env (Ogrmerge _ _) w)); [|done].
  by destruct (ok (answer env (FindDelete _) _)).
Qed.

Lemma mergeGeojson_sweeps env filePath w a :
  (Geojson.mergeGeojson env filePath w).1 = Ret a ->
  (forall p, glob (chunksPattern filePath) (basename p) = true ->
     fs (Geojson.mergeGeojson env filePath w).2 !! p = None) /\
  (forall p, glob (chunksPattern filePath) (basename p) = false -> p <> filePath ->
     fs (Geojson.mergeGeojson env filePath w).2 !! p = fs w !! p).
Proof.
  intros Hret.
  destruct (mergeGeojson_returns env filePath w a Hret) as (Hm & Hf & Hw).
  cbv zeta in Hm, Hf, Hw. rewrite Hw. split.
  - intros p Hp. simpl. by apply lookup_sweep_target.
  - intros p Hp Hne. simpl. rewrite lookup_sweep_other by done.
    by apply lookup_put_other.
Qed.

(** C10: for a file path of literal characters (none of [*], [?], [[],
    backslash, [/], which [find -name] or the path would read otherwise;
    [layer.geojson] is such a path), when the merger returns, every file
    below the working directory whose base name matches
    [<base>_*.geojson] is gone, whatever the files
    were before the run (chunks of this run or not, at any depth, with any
    text in place of the offset), and every other file but the merged one
    is as it was: the deletion goes by the pattern alone. *)
Theorem cleanup_deletes_by_pattern env filePath w a :
  all_chars literal filePath = true ->
  let run := Geojson.mergeGeojson env filePath w in
  run.1 = Ret a ->
  (forall p, glob (chunksPattern filePath) (basename p) = true -> fs run.2 !! p = None) /\
  (forall p, glob (chunksPattern filePath) (basename p) = false -> p <> filePath ->
     fs run.2 !! p = fs w !! p) /\
  (exists r, last (trace run.2) = Some (FindDelete (chunksPattern filePath), r)) /\
  glob (chunksPattern Geojson.filePath) (basename "old/run/layer_backup.geojson") = true /\
  glob (chunksPattern Geojson.filePath) (basename "layer_7.geojson") = true.
Proof.
  intros _ run Hret.
  destruct (mergeGeojson_sweeps env filePath w a Hret) as [Hgone Hkept].
  destruct (mergeGeojson_returns env filePath w a Hret) as (Hm & Hf & Hw).
  cbv zeta in Hm, Hf, Hw. subst run.
  split; [|split; [|split; [|split]]].
  - exact Hgone.
  - exact Hkept.
  - eexists. rewrite Hw, trace_after. apply last_snoc.
  - reflexivity.
  - reflexivity.
Qed.

Lemma cleanup_deletes_by_pattern_witness :
  fs (Geojson.mergeGeojson (calm EmptyString) "layer.geojson"
        (start {[ "old/run/layer_backup.geojson" := [] ]})).2
    !! "old/run/layer_backup.geojson" = None.
Proof.
  refine (proj1 (cleanup_deletes_by_pattern (calm EmptyString) "layer.geojson"
                   (start {[ "old/run/layer_backup.geojson" := [] ]}) "layer.geojson" _ _)
            "old/run/layer_backup.geojson" _).
  - reflexivity.
  - reflexivity.
  - reflexivity.
Defined.

(** C3, as stated, fails: the merger deletes a chunk although no merged
    file exists; it goes by the exit code of [ogrmerge.py] alone. *)
Lemma merge_output_not_verified :
  let w := start {[ "layer_0.geojson" := [x7b; x7d] ]} in
  let run := Geojson.mergeGeojson silent "layer.geojson" w in
  run.1 = Ret "layer.geojson" /\
  fs w !! "layer_0.geojson" = Some [x7b; x7d] /\
  fs run.2 !! "layer_0.geojson" = None /\
  fs run.2 !! "layer.geojson" = None /\
  ~ (forall env filePath w p,
       let run := Geojson.mergeGeojson env filePath w in
       is_Some (fs w !! p) -> fs run.2 !! p = None -> p <> filePath ->
       is_Some (fs run.2 !! filePath)).
Proof.
  cbv zeta. split; [reflexivity|]. split; [reflexivity|].
  split; [by vm_compute|]. split; [by vm_compute|].
  intros H.
  specialize (H silent "layer.geojson" (start {[ "layer_0.geojson" := [x7b; x7d] ]})
                "layer_0.geojson").
  cbv zeta in H. destruct H as [b Hb]; [by eexists|by vm_compute|done|].
  by vm_compute in Hb.
Qed.

(** C3, amended: the merger runs [find -delete] only after [ogrmerge.py]
    exited with 0, and when the merger returns no file matching the chunk
    pattern is left; when [ogrmerge.py] fails the merger exits with
    status 1 having run nothing else, and every file matching the chunk
    pattern is as it was. *)
Theorem merge_then_delete env w :
  let run := Geojson.mergeGeojson env Geojson.filePath w in
  let merge := Ogrmerge "layer.geojson" "layer_*.geojson" in
  (forall r, (FindDelete "layer_*.geojson", r) ∈ drop (length (trace w)) (trace run.2) ->
     ok (answer env merge w) = true) /\
  (forall a, run.1 = Ret a ->
     forall p, find_targets "layer_*.geojson" p = true -> fs run.2 !! p = None) /\
  (ok (answer env merge w) = false ->
     run.1 = Exit 1 /\
     trace run.2 = trace w ++ [(merge, answer env merge w)] /\
     forall p, find_targets "layer_*.geojson" p = true -> fs run.2 !! p = fs w !! p).
Proof.
  cbv zeta. split; [|split].
  - intros r. rewrite mergeGeojson_cases. cbv zeta. rewrite chunksPattern_layer.
    change Geojson.filePath with "layer.geojson".
    destruct (ok (answer env (Ogrmerge _ _) w)); [done|].
    cbn [snd]. unfold caught. rewrite !trace_say, trace_after, drop_app_length.
    intros Hin. apply list_elem_of_singleton in Hin. done.
  - intros a Hret p Hp.
    destruct (mergeGeojson_sweeps env Geojson.filePath w a Hret) as [H _].
    by apply H.
  - intros Hfail. rewrite mergeGeojson_cases. cbv zeta. rewrite chunksPattern_layer.
    change Geojson.filePath with "layer.geojson". rewrite Hfail. cbn [fst snd].
    split; [done|]. split; [done|].
    intros p Hp. simpl. apply lookup_put_other. by intros ->.
Qed.

(** ** Binary chunks *)

Lemma digit_ws c : JS.is_ws c = true -> JS.digit 16 c = None.
Proof.
  destruct c as [[] [] [] [] [] [] [] []]; try discriminate; intros _; reflexivity.
Qed.

Lemma xxd_go_blank hi pad s : blank pad = true -> xxd_go hi (pad +:+ s) = xxd_go hi s.
Proof.
  induction pad as [|c pad IH]; [done|]. simpl blank. intros [Hc Hpad]%andb_true_iff.
  rewrite append_cons. simpl. rewrite (digit_ws c Hc). by apply IH.
Qed.

Lemma xxd_go_byte b s :
  xxd_go None (String (hex_char (Byte.to_N b / 16))
                 (String (hex_char (Byte.to_N b mod 16)) s))
  = b :: xxd_go None s.
Proof. destruct b; reflexivity. Qed.

Lemma xxd_go_encode bs s : xxd_go None (encode_hex bs +:+ s) = bs ++ xxd_go None s.
Proof.
  induction bs as [|b bs IH]; [done|].
  cbn [encode_hex]. rewrite !append_cons, xxd_go_byte, IH. done.
Qed.

Lemma xxd_go_blank_end pad : blank pad = true -> xxd_go None pad = [].
Proof.
  intros H. rewrite <- (append_nil_r pad). by rewrite xxd_go_blank.
Qed.

(** [xxd -p -r] undoes [encode(..., 'hex')], whatever blanks and line
    ends [psql] prints around it. *)
Lemma xxd_encode_hex pad1 bs pad2 :
  blank pad1 = true -> blank pad2 = true ->
  xxd_p_r (pad1 +:+ encode_hex bs +:+ pad2) = bs.
Proof.
  intros H1 H2. unfold xxd_p_r.
  rewrite xxd_go_blank, xxd_go_encode, xxd_go_blank_end, app_nil_r; done.
Qed.

(** C8: in the Geobuf script every chunk is exported by [psql] piped
    through [xxd -p -r] into the chunk file; when [psql] prints the
    hexadecimal text of the bytes [bs] (as [encode(ST_AsGeobuf(...),
    'hex')] makes it do), between any blanks and line ends, the chunk file
    holds exactly the bytes [bs], not their hexadecimal text. *)
Theorem binary_chunks_are_decoded env tableName idColumn geomColumn properties
    chunkSize base offset w pad1 bs pad2 :
  let c := Psql (Sql.geobuf_chunk tableName idColumn geomColumn properties chunkSize offset)
             (XxdToFile (Geobuf.part base offset)) in
  let run := Geobuf.geobuf_chunk env tableName idColumn geomColumn properties chunkSize
               base offset w in
  blank pad1 = true -> blank pad2 = true ->
  stdout (proc (answer env c w)) = pad1 +:+ encode_hex bs +:+ pad2 ->
  trace run.2 = trace w ++ [(c, answer env c w)] /\
  fs run.2 !! Geobuf.part base offset = Some bs /\
  Sql.items (Sql.geobuf_chunk tableName idColumn geomColumn properties chunkSize offset)
    = [(Sql.ECall "encode"
          [Sql.ECall "ST_AsGeobuf" [Sql.ECol "features"; Sql.EStr geomColumn];
           Sql.EStr "hex"], None)].
Proof.
  intros c run H1 H2 Hout. subst run. rewrite geobuf_chunk_cases. cbv zeta. fold c.
  assert (fs (after env c w) !! Geobuf.part base offset = Some bs) as Hfs.
  { simpl. rewrite lookup_insert_eq. f_equal. fold c. rewrite Hout.
    by apply xxd_encode_hex. }
  by destruct (ok (answer env c w)).
Qed.

Lemma binary_chunks_are_decoded_witness :
  fs (Geobuf.geobuf_chunk hex_7b7d "table" "id" "geom" ["name"] (JS.Num 4) "layer"
        (JS.Num 0) (start ∅)).2 !! "layer_0.gbf" = Some [x7b; x7d].
Proof.
  refine (proj1 (proj2 (binary_chunks_are_decoded hex_7b7d "table" "id" "geom" ["name"]
                          (JS.Num 4) "layer" (JS.Num 0) (start ∅) " " [x7b; x7d] newline
                          _ _ _))).
  - reflexivity.
  - reflexivity.
  - reflexivity.
Defined.

(** ** The attributes of a feature *)

Lemma properties_of_spec columns idColumn geomColumn p :
  p ∈ Geobuf.properties_of columns idColumn geomColumn <->
  p ∈ column_lines columns /\ p <> idColumn /\ p <> geomColumn.
Proof.
  unfold Geobuf.properties_of. fold (column_lines columns).
  rewrite list_elem_of_In, filter_In, <- list_elem_of_In.
  unfold JS.includes. simpl. rewrite orb_false_r, negb_true_iff, orb_false_iff.
  rewrite !String.eqb_neq. tauto.
Qed.

Lemma columns_of_properties (src properties : list string) :
  concat (List.map (Sql.item_columns src)
            (List.map (fun p => (Sql.ECol p, None)) properties)) = properties.
Proof. induction properties as [|p ps IH]; [done|]. simpl. by rewrite IH. Qed.

Lemma geobuf_properties_chunk schema tableName idColumn geomColumn properties C o :
  geobuf_properties schema
    (Sql.geobuf_chunk tableName idColumn geomColumn properties C o)
  = Some (without geomColumn (geomColumn :: idColumn :: properties)).
Proof.
  unfold geobuf_properties. cbn. by rewrite columns_of_properties.
Qed.

Lemma geojson_properties_chunk schema tableName geomColumn idColumn C o :
  geojson_properties schema (Sql.geojson_chunk tableName geomColumn idColumn C o)
  = Some (without geomColumn schema).
Proof.
  unfold geojson_properties. cbn. by rewrite app_nil_r.
Qed.

Lemma geobuf_exporter_properties env fuel tableName idColumn geomColumn chunkSize
    filePath fs0 :
  let q := Psql (Sql.column_names tableName) Inherit in
  let properties :=
    Geobuf.properties_of (stdout (proc (env 1%nat fs0 q))) idColumn geomColumn in
  on_commands (selects_properties tableName idColumn geomColumn properties chunkSize)
    (Geobuf.tableToGeobufChunks env fuel tableName idColumn geomColumn chunkSize
       filePath (start fs0)).2.
Proof.
  cbv zeta. rewrite geobuf_exporter_cases. cbv zeta.
  assert (on_commands
            (selects_properties tableName idColumn geomColumn
               (Geobuf.properties_of
                  (stdout (proc (env 1%nat fs0 (Psql (Sql.column_names tableName) Inherit))))
                  idColumn geomColumn) chunkSize) (start fs0)) as H0 by constructor.
  destruct (ok (answer env (Psql _ _) (start fs0))); cbn [snd]; [|by keep_commands].
  destruct (ok (answer env (Psql _ _) _)); cbn [snd]; [|by keep_commands].
  match goal with
  | |- context [export_loop ?f ?n ?c ?b ?o ?w1] =>
      assert (on_commands
                (selects_properties tableName idColumn geomColumn
                   (Geobuf.properties_of
                      (stdout (proc (env 1%nat fs0
                                       (Psql (Sql.column_names tableName) Inherit))))
                      idColumn geomColumn) chunkSize)
                (export_loop f n c b o w1).2) as Hloop
  end.
  { apply export_loop_keeps; [|by keep_commands].
    intros o w0 Hw0. rewrite geobuf_chunk_cases. cbv zeta.
    destruct (ok _); cbn [snd]; keep_commands; simpl; eauto. }
  destruct (export_loop _ _ _ _ _ _) as [[[]| | |] w3]; cbn [snd] in *; by keep_commands.
Qed.

(** C2, as stated, fails: over a table with the columns [id], [geom]
    and [name], the features of [tableToGeojsonChunks] and of
    [tableToGeobufChunks] carry the identifier among their attributes. *)
Lemma identifier_is_an_attribute :
  let schema := ["id"; "geom"; "name"] in
  spec_properties schema "id" "geom" = ["name"] /\
  geojson_properties schema (Sql.geojson_chunk "table" "geom" "id" (JS.Num 4) (JS.Num 0))
    = Some ["id"; "name"] /\
  geobuf_properties schema
    (Sql.geobuf_chunk "table" "id" "geom" (spec_properties schema "id" "geom")
       (JS.Num 4) (JS.Num 0))
    = Some ["id"; "name"] /\
  ~ (forall schema tableName geomColumn idColumn C o,
       geojson_properties schema (Sql.geojson_chunk tableName geomColumn idColumn C o)
       = Some (spec_properties schema idColumn geomColumn)).
Proof.
  cbv zeta. repeat split; try reflexivity.
  intros H. specialize (H ["id"; "geom"; "name"] "table" "geom" "id" (JS.Num 4) (JS.Num 0)).
  discriminate H.
Qed.

(** C2, amended: the identifier is an attribute of the features.  In
    [tableToGeobufChunks] the list [properties] holds the lines that
    [psql] answered to the column query, trimmed, but those equal to the
    identifier or to the geometry column; it is computed once, before the
    loop; every chunk's statement of the run selects the geometry, the
    identifier and that same list, and the attributes of its features are
    the selected columns but the geometry: the identifier and these
    lines.  In [tableToGeojsonChunks] the attributes of a feature are all
    columns of its row but the geometry column.  The statement of
    [tableToGeojsonChunksOgr2ogr] selects all columns of the table; the
    script computes no property set there and leaves the attributes to
    [ogr2ogr]. *)
Theorem feature_attributes env fuel schema tableName idColumn geomColumn chunkSize
    offset filePath fs0 columns :
  let properties := Geobuf.properties_of columns idColumn geomColumn in
  let asked :=
    Geobuf.properties_of
      (stdout (proc (env 1%nat fs0 (Psql (Sql.column_names tableName) Inherit))))
      idColumn geomColumn in
  (forall p, p ∈ properties <->
             p ∈ column_lines columns /\ p <> idColumn /\ p <> geomColumn) /\
  Forall (selects_properties tableName idColumn geomColumn asked chunkSize)
    (trace (Geobuf.tableToGeobufChunks env fuel tableName idColumn geomColumn chunkSize
              filePath (start fs0)).2).*1 /\
  geobuf_properties schema
    (Sql.geobuf_chunk tableName idColumn geomColumn properties chunkSize offset)
    = Some (without geomColumn (idColumn :: properties)) /\
  (forall p, p ∈ without geomColumn (idColumn :: properties) <->
             p <> geomColumn /\ (p = idColumn \/ p ∈ column_lines columns)) /\
  geojson_properties schema
    (Sql.geojson_chunk tableName geomColumn idColumn chunkSize offset)
    = Some (without geomColumn schema) /\
  Sql.columns schema (Sql.page_rows tableName idColumn chunkSize offset) = schema.
Proof.
  cbv zeta. split; [|split; [|split; [|split; [|split]]]].
  - intros p. apply properties_of_spec.
  - apply geobuf_exporter_properties.
  - rewrite geobuf_properties_chunk. unfold without. simpl.
    by rewrite String.eqb_refl.
  - intros p. unfold without.
    rewrite list_elem_of_In, filter_In, <- list_elem_of_In, elem_of_cons.
    rewrite properties_of_spec, negb_true_iff, String.eqb_neq.
    destruct (decide (p = idColumn)); tauto.
  - apply geojson_properties_chunk.
  - simpl. by rewrite app_nil_r.
Qed.

(** ** The embedding on concrete inputs *)

Example render_page_rows :
  Sql.render (Sql.page_rows "table" "id" (JS.Num 4) (JS.Num 8))
  = "SELECT * FROM table WHERE id IN (SELECT id FROM table ORDER BY id LIMIT 4 OFFSET 8)".
Proof. reflexivity. Qed.

Example render_geojson_chunk :
  Sql.render (Sql.geojson_chunk "table" "geom" "id" (JS.Num 4) (JS.Num 8))
  = "SELECT jsonb_build_object('type', 'FeatureCollection', 'features', jsonb_agg(features.feature)) FROM (SELECT jsonb_build_object('type', 'Feature', 'geometry', ST_AsGeoJSON(ST_Transform(geom, 4326))::jsonb, 'properties', to_jsonb(properties) - 'geom') as feature FROM (SELECT * FROM table WHERE id IN (SELECT id FROM table ORDER BY id LIMIT 4 OFFSET 8)) AS properties) AS features".
Proof. reflexivity. Qed.

Example render_geobuf_chunk :
  Sql.render (Sql.geobuf_chunk "table" "id" "geom" ["name"; "kind"] (JS.Num 4) (JS.Num 8))
  = "SELECT encode(ST_AsGeobuf(features, 'geom'), 'hex') FROM (SELECT ST_Transform(geom, 4326) as geom, id, name, kind FROM (SELECT * FROM table WHERE id IN (SELECT id FROM table ORDER BY id LIMIT 4 OFFSET 8)) AS sq) AS features".
Proof. reflexivity. Qed.

Example render_column_names :
  Sql.render (Sql.column_names "table")
  = "SELECT column_name FROM information_schema.columns WHERE table_name = 'table'".
Proof. reflexivity. Qed.

Example parseInt_count : JS.parseInt (JS.trim (" 10" +:+ newline)) = JS.Num 10.
Proof. reflexivity. Qed.

Example parseInt_not_a_number : JS.parseInt (JS.trim "ERROR") = JS.NaN.
Proof. reflexivity. Qed.

Example parseInt_prefix : JS.parseInt "  -12abc" = JS.Num (-12).
Proof. reflexivity. Qed.

Example split_geojson :
  JS.split ".geojson" "a.geojsonb.geojson" = ["a"; "b"; EmptyString].
Proof. reflexivity. Qed.

Example properties_of_columns :
  Geobuf.properties_of
    (" id" +:+ newline +:+ " geom" +:+ newline +:+ " name" +:+ newline +:+ newline)
    "id" "geom"
  = ["name"].
Proof. reflexivity. Qed.

Example glob_chunks :
  glob "layer_*.geojson" "layer_8.geojson" = true /\
  glob "layer_*.geojson" "layer.geojson" = false /\
  glob "layer_*.geojson" "layer_8.gbf" = false.
Proof. repeat split; reflexivity. Qed.

(** Ten rows in chunks of four: the whole pipeline. *)
Example main_10_by_4 :
  let run := Geojson.main (calm " 10") 4 chunks_of_4 (start ∅) in
  run.1 = Ret "layer.gbf" /\
  (trace run.2).*1 =
    [Psql (Sql.count_rows "table") Inherit;
     RmRf "layer_0.geojson";
     Ogr2ogr "layer_0.geojson" (Sql.page_rows "table" "id" (JS.Num 4) (JS.Num 0));
     RmRf "layer_4.geojson";
     Ogr2ogr "layer_4.geojson" (Sql.page_rows "table" "id" (JS.Num 4) (JS.Num 4));
     RmRf "layer_8.geojson";
     Ogr2ogr "layer_8.geojson" (Sql.page_rows "table" "id" (JS.Num 4) (JS.Num 8));
     Ogrmerge "layer.geojson" "layer_*.geojson";
     FindDelete "layer_*.geojson";
     Json2geobuf "layer.geojson" "layer.gbf"].
Proof. split; reflexivity. Qed.

(** A table of exactly one chunk: a second, empty chunk at the count. *)
Example offsets_exact_multiple : chunk_offsets 1000000 1000000 = [0; 1000000].
Proof. reflexivity. Qed.

Example offsets_empty_table : chunk_offsets 0 1000000 = [0].
Proof. reflexivity. Qed.

(** The second [ogr2ogr] fails: what is on the console and on disk. *)
Example main_second_chunk_fails :
  let run := Geojson.main (failing_at 4 " 10") 9 chunks_of_4 (start ∅) in
  run.1 = Exit 1 /\
  console run.2 =
    [TimeEnd "[queryPostgres] Executed query: SELECT count(*) FROM table";
     Log "Processing 0";
     TimeEnd "[tableToGeojsonChunksOgr2ogr] Processed 0";
     Log "Processing 4";
     TimeEnd "[tableToGeojsonChunksOgr2ogr] Created table in layer.geojson";
     Log "[tableToGeojsonChunksOgr2ogr] Error: failed"] /\
  map_to_list (fs run.2) = [("layer_0.geojson", [])].
Proof. repeat split; reflexivity. Qed.

(** A count that is not a number: the loop never breaks. *)
Example main_count_not_a_number :
  (Geojson.main (calm "ERROR") 50 chunks_of_4 (start ∅)).1 = OutOfFuel.
Proof. reflexivity. Qed.

(** * Further properties of the scripts *)

(** ** Strings *)

Lemma all_chars_append P (s t : string) :
  all_chars P (s +:+ t) = all_chars P s && all_chars P t.
Proof.
  induction s as [|c s IH]; [done|].
  rewrite append_cons. simpl. by rewrite IH, andb_assoc.
Qed.

Lemma blank_all_chars s : blank s = all_chars JS.is_ws s.
Proof. induction s as [|c s IH]; [done|]. simpl. by rewrite IH. Qed.

Lemma rev_app_append (s acc : string) :
  String.rev_app s acc = String.rev s +:+ acc.
Proof.
  unfold String.rev. revert acc. induction s as [|c s IH]; intros acc; [done|].
  simpl. rewrite (IH (String c acc)), (IH (String c EmptyString)).
  by rewrite append_assoc.
Qed.

Lemma rev_cons c (s : string) : String.rev (String c s) = String.rev s +:+ String c EmptyString.
Proof. unfold String.rev at 1. simpl. apply rev_app_append. Qed.

Lemma rev_append (s t : string) : String.rev (s +:+ t) = String.rev t +:+ String.rev s.
Proof.
  induction s as [|c s IH].
  - by rewrite append_nil_l, append_nil_r.
  - by rewrite append_cons, !rev_cons, IH, append_assoc.
Qed.

Lemma rev_involutive (s : string) : String.rev (String.rev s) = s.
Proof.
  induction s as [|c s IH]; [done|].
  by rewrite rev_cons, rev_append, IH.
Qed.

Lemma all_chars_rev P (s : string) : all_chars P (String.rev s) = all_chars P s.
Proof.
  induction s as [|c s IH]; [done|].
  rewrite rev_cons, all_chars_append, IH. simpl. by rewrite andb_true_r, andb_comm.
Qed.

Lemma trimStart_blank (pad s : string) :
  all_chars JS.is_ws pad = true -> JS.trimStart (pad +:+ s) = JS.trimStart s.
Proof.
  induction pad as [|c pad IH]; [done|]. intros H. simpl in H.
  apply andb_true_iff in H as [Hc Hpad].
  rewrite append_cons. simpl. rewrite Hc. by apply IH.
Qed.

Lemma trimStart_solid (s t : string) :
  all_chars (fun c => negb (JS.is_ws c)) s = true ->
  JS.trimStart (s +:+ t) = if decide (s = EmptyString) then JS.trimStart t else s +:+ t.
Proof.
  destruct s as [|c s]; [done|]. intros H. simpl in H.
  apply andb_true_iff in H as [Hc _].
  rewrite decide_False by done. rewrite append_cons. simpl.
  by destruct (JS.is_ws c).
Qed.

(** [trim] takes the blanks around a word without blanks away, and
    nothing else. *)
Lemma trim_padded (pad1 s pad2 : string) :
  all_chars JS.is_ws pad1 = true -> all_chars JS.is_ws pad2 = true ->
  all_chars (fun c => negb (JS.is_ws c)) s = true ->
  JS.trim (pad1 +:+ s +:+ pad2) = s.
Proof.
  intros H1 H2 Hs. unfold JS.trim, JS.trimEnd.
  rewrite trimStart_blank by done.
  assert (forall t, all_chars JS.is_ws t = true -> JS.trimStart t = EmptyString) as Hblank.
  { intros t Ht. rewrite <- (append_nil_r t). by rewrite trimStart_blank. }
  rewrite trimStart_solid by done. case_decide as Hempty.
  - subst s. rewrite (Hblank pad2 H2). done.
  - rewrite rev_append, trimStart_blank by (by rewrite all_chars_rev).
    rewrite <- (append_nil_r (String.rev s)).
    rewrite trimStart_solid by (by rewrite all_chars_rev).
    case_decide as Hrev; rewrite ?append_nil_r.
    + apply (f_equal String.rev) in Hrev. rewrite rev_involutive in Hrev. by subst s.
    + apply rev_involutive.
Qed.

(** ** Reading the row count back *)

Lemma all_chars_impl (P Q : ascii -> bool) s :
  (forall c, P c = true -> Q c = true) -> all_chars P s = true -> all_chars Q s = true.
Proof.
  intros HPQ. induction s as [|c s IH]; [done|]. simpl.
  intros [Hc Hs]%andb_true_iff. by rewrite (HPQ c Hc), IH.
Qed.

Lemma pretty_N_char_digit (x : N) :
  (x < 10)%N ->
  JS.digit 10 (pretty_N_char x) = Some (Z.of_N x) /\ is_decimal (pretty_N_char x) = true.
Proof.
  intros Hx.
  assert (x = 0 \/ x = 1 \/ x = 2 \/ x = 3 \/ x = 4 \/ x = 5 \/ x = 6 \/ x = 7
          \/ x = 8 \/ x = 9)%N as Hcases by lia.
  repeat (destruct Hcases as [->|Hcases]; [by split|]). subst x. by split.
Qed.

Lemma decimal_pretty_N_go (x : N) s :
  all_chars is_decimal s = true -> all_chars is_decimal (pretty_N_go x s) = true.
Proof.
  revert s. induction (N.lt_wf_0 x) as [x _ IH]; intros s Hs.
  destruct (decide (x = 0)%N) as [->|Hx]; [done|].
  rewrite pretty_N_go_step by lia. apply IH; [apply N.div_lt; lia|].
  simpl. rewrite Hs, andb_true_r.
  apply pretty_N_char_digit, N.mod_lt. lia.
Qed.

(** Reading the digits that [pretty] wrote gives the number back. *)
Lemma digits_pretty_N_go (x : N) s :
  (0 < x)%N ->
  JS.digits 10 None (pretty_N_go x s) = JS.digits 10 (Some (Z.of_N x)) s.
Proof.
  revert s. induction (N.lt_wf_0 x) as [x _ IH]; intros s Hx.
  rewrite pretty_N_go_step by done.
  destruct (pretty_N_char_digit (x `mod` 10)) as [Hd _]; [apply N.mod_lt; lia|].
  pose proof (N.div_mod x 10 ltac:(lia)) as Hdiv.
  destruct (decide (x `div` 10 = 0)%N) as [H0|H0].
  - rewrite H0, pretty_N_go_0. cbn [JS.digits]. rewrite Hd. cbn [default].
    f_equal. f_equal. clear IH Hd.
    generalize dependent (x `div` 10)%N. generalize (x `mod` 10)%N. intros; lia.
  - rewrite IH; [|by apply N.div_lt|by apply N.neq_0_lt_0].
    cbn [JS.digits]. rewrite Hd. cbn [default].
    f_equal. f_equal. clear IH Hd.
    generalize dependent (x `div` 10)%N. generalize (x `mod` 10)%N. intros.
    unfold id. lia.
Qed.

Lemma pretty_nonnegative (R : Z) :
  0 <= R ->
  all_chars is_decimal (pretty R) = true /\ JS.digits 10 None (pretty R) = Some R.
Proof.
  intros HR. destruct R as [|p|p]; [by split| |lia].
  change (pretty (Z.pos p)) with (pretty_N_go (N.pos p) EmptyString). split.
  - by apply decimal_pretty_N_go.
  - rewrite digits_pretty_N_go by lia. done.
Qed.

Lemma unsigned_one a : JS.unsigned (String a EmptyString) = JS.digits 10 None (String a EmptyString).
Proof. destruct a as [[] [] [] [] [] [] [] []]; reflexivity. Qed.

Lemma unsigned_decimal a b r :
  is_decimal b = true ->
  JS.unsigned (String a (String b r)) = JS.digits 10 None (String a (String b r)).
Proof.
  intros Hb.
  destruct a as [[] [] [] [] [] [] [] []]; try reflexivity.
  destruct b as [[] [] [] [] [] [] [] []]; try reflexivity; discriminate Hb.
Qed.

Lemma parseInt_unsigned a r :
  is_decimal a = true ->
  JS.parseInt (String a r) =
    match JS.unsigned (String a r) with
    | Some z => JS.Num z
    | None => JS.NaN
    end.
Proof.
  intros Ha.
  destruct a as [[] [] [] [] [] [] [] []]; try reflexivity; discriminate Ha.
Qed.

Lemma parseInt_decimal s z :
  all_chars is_decimal s = true -> JS.digits 10 None s = Some z -> JS.parseInt s = JS.Num z.
Proof.
  destruct s as [|a r]; [done|]. intros Hs Hz. simpl in Hs.
  apply andb_true_iff in Hs as [Ha Hr].
  rewrite parseInt_unsigned by done.
  destruct r as [|b r].
  - by rewrite unsigned_one, Hz.
  - simpl in Hr. apply andb_true_iff in Hr as [Hb _].
    by rewrite unsigned_decimal, Hz.
Qed.

(** X1: the exporters read the row count with
    [parseInt(countStr.stdout.trim())]: when [psql] prints the decimal
    text of R >= 0 below 2^53 between any blanks and line ends, the count
    is R, so that such an environment [counts] R rows.  (From 2^53 on
    [parseInt] gives the nearest double, which need not be R.) *)
Theorem count_is_read_back (R : Z) (pad1 pad2 : string) :
  0 <= R -> safe R -> blank pad1 = true -> blank pad2 = true ->
  JS.parseInt (JS.trim (pad1 +:+ pretty R +:+ pad2)) = JS.Num R /\
  forall tableName, counts (calm (pad1 +:+ pretty R +:+ pad2)) tableName R.
Proof.
  intros HR _ H1 H2. rewrite blank_all_chars in H1, H2.
  destruct (pretty_nonnegative R HR) as [Hdec Hdigits].
  assert (JS.parseInt (JS.trim (pad1 +:+ pretty R +:+ pad2)) = JS.Num R) as Hread.
  { rewrite trim_padded; [by apply parseInt_decimal|done..|].
    apply (all_chars_impl is_decimal); [|done].
    intros c. unfold is_decimal. by destruct (JS.digit 10 c). }
  split; [done|]. intros tableName n fs0. exact Hread.
Qed.

Lemma count_is_read_back_witness :
  JS.parseInt (JS.trim (" " +:+ pretty 1000000 +:+ newline)) = JS.Num 1000000.
Proof.
  refine (proj1 (count_is_read_back 1000000 " " newline _ _ _ _)).
  - lia.
  - reflexivity.
  - reflexivity.
  - reflexivity.
Defined.

(** ** Counts and chunk sizes with which the loop never ends *)

Lemma stuck_offset_next count chunkSize o :
  stuck count chunkSize -> stuck_offset count chunkSize o ->
  JS.gt o count = false /\ stuck_offset count chunkSize (JS.add o chunkSize).
Proof.
  destruct count as [R|], chunkSize as [C|], o as [z|]; simpl; try done.
  - intros [HR HC] Hz. split; [|lia]. apply bool_decide_eq_false. lia.
  - intros HR ->. split; [|done]. apply bool_decide_eq_false. lia.
Qed.

Lemma export_loop_stuck count chunkSize body :
  stuck count chunkSize ->
  (forall o w, exists w', body o w = (Ret (), w')) ->
  forall fuel o w,
    stuck_offset count chunkSize o ->
    (export_loop fuel count chunkSize body o w).1 = OutOfFuel.
Proof.
  intros Hstuck Hbody. induction fuel as [|fuel IH]; intros o w Ho; [done|].
  destruct (stuck_offset_next count chunkSize o Hstuck Ho) as [Hgt Hnext].
  rewrite export_loop_next by done.
  destruct (Hbody o w) as [w' ->]. by apply IH.
Qed.

(** X2: when every command succeeds and the count read from [psql] is
    not a number, or is not negative while [CHUNK_SIZE] is not a number or
    not positive, the pipeline never gets out of the loop of its exporter,
    however many turns it is given: neither the merger nor the converter
    is ever started. *)
Theorem loop_never_ends env fuel cfg count fs0 :
  all_ok env ->
  (forall n fs,
     JS.parseInt (JS.trim (stdout (proc (env n fs
        (Psql (Sql.count_rows (Geojson.tableName cfg)) Inherit))))) = count) ->
  stuck count (Geojson.chunkSize cfg) ->
  let run := Geojson.main env fuel cfg (start fs0) in
  run.1 = OutOfFuel /\ Forall early (trace run.2).*1.
Proof.
  intros Hok Hcount Hstuck run.
  assert (forall base o w, exists w',
            Geojson.ogr2ogr_chunk env (Geojson.tableName cfg) (Geojson.idColumn cfg)
              (Geojson.chunkSize cfg) base o w = (Ret (), w')) as Hbody.
  { intros base o w. rewrite ogr2ogr_chunk_cases. cbv zeta.
    unfold answer at 1. rewrite Hok. unfold answer at 1. rewrite Hok. by eexists. }
  assert (stuck_offset count (Geojson.chunkSize cfg) (JS.Num 0)) as Hzero.
  { by destruct count, (Geojson.chunkSize cfg). }
  assert (run.1 = OutOfFuel) as Hres.
  { subst run. rewrite main_cases, ogr2ogr_exporter_cases. cbv zeta.
    unfold answer at 1. rewrite Hok. unfold answer at 1. rewrite Hcount.
    match goal with
    | |- context [export_loop ?f ?n ?c ?b ?o ?w1] =>
        pose proof (export_loop_stuck n c b Hstuck (Hbody _) f o w1 Hzero) as Hloop
    end.
    destruct (export_loop _ _ _ _ _ _) as [[[]| | |] w2]; cbn [fst] in *; done. }
  split; [done|]. subst run. rewrite main_cases in Hres |- *.
  pose proof (exporter_early env fuel (Geojson.tableName cfg) (Geojson.idColumn cfg)
                (Geojson.chunkSize cfg) Geojson.filePath (start fs0)) as Hearly.
  destruct (Geojson.tableToGeojsonChunksOgr2ogr _ _ _ _ _ _ _) as [[a| | |] w1];
    cbn [fst snd] in *; try (apply Hearly; constructor).
  exfalso. revert Hres. rewrite mergeGeojson_cases. cbv zeta.
  destruct (ok (answer env (Ogrmerge _ _) w1)); [|done].
  destruct (ok (answer env (FindDelete _) _)); [|done].
  rewrite geojsonToGeobuf_cases. cbv zeta.
  by destruct (ok (answer env (Json2geobuf _ _) _)).
Qed.

Lemma loop_never_ends_witness :
  (Geojson.main (calm " 10") 1000
     {| Geojson.TABLE_NAME := None; Geojson.GEOM_COLUMN := None;
        Geojson.ID_COLUMN := None; Geojson.CHUNK_SIZE := Some "0" |} (start ∅)).1
  = OutOfFuel.
Proof.
  refine (proj1 (loop_never_ends (calm " 10") 1000
                   {| Geojson.TABLE_NAME := None; Geojson.GEOM_COLUMN := None;
                      Geojson.ID_COLUMN := None; Geojson.CHUNK_SIZE := Some "0" |}
                   (JS.Num 10) ∅ _ _ _)).
  - intros n fs0 c. reflexivity.
  - intros n fs0. reflexivity.
  - simpl. lia.
Defined.

(** ** How the other exporters end *)

Lemma redirected_after env c w p b :
  redirected c (answer env c w) = Some (p, b) -> fs (after env c w) !! p = Some b.
Proof.
  destruct c as [q [|f|f]|f|dst sql|dst pat|pat|src dst]; simpl; try done;
    intros [= <- <-]; apply lookup_insert_eq.
Qed.

Lemma exited_on_query name env q out w :
  all_succeeded w ->
  ok (answer env (Psql q out) w) = false ->
  forall label,
    exited_on name
      (say (query_failure (proc (answer env (Psql q out) w)))
         (say (TimeEnd label) (after env (Psql q out) w)))
      (Psql q out) (answer env (Psql q out) w).
Proof.
  intros Hw Hfail label. split; [|split].
  - by apply failed_at_say, failed_at_say, failed_at_after.
  - simpl. apply last_snoc.
  - intros p b Hp. rewrite !fs_say. by apply redirected_after.
Qed.

Lemma exited_on_caught name label w c r :
  failed_at w c r -> blame name c = name -> redirected c r = None ->
  exited_on name (caught label name (proc r) w) c r.
Proof.
  intros Hfail Hblame Hnone. split; [|split].
  - by apply failed_at_say, failed_at_say.
  - simpl. rewrite Hblame. apply last_snoc.
  - intros p b Hp. congruence.
Qed.

Section Geojson_sql.
Context (env : Env) (tableName geomColumn idColumn : string) (chunkSize : JS.number).

Lemma psql_chunk_ended base o w :
  all_succeeded w ->
  let run := Geojson.psql_chunk env tableName geomColumn idColumn chunkSize base o w in
  ended "tableToGeojson" run.1 run.2.
Proof.
  intros Hw. cbv zeta. rewrite psql_chunk_cases. cbv zeta.
  destruct (ok (answer env (RmRf _) w)) eqn:Hrm; cbn [fst snd ended].
  - destruct (ok (answer env (Psql _ _) _)) eqn:Hq; cbn [fst snd ended].
    + apply all_succeeded_say, all_succeeded_after; [|done].
      by apply all_succeeded_after.
    + split; [done|]. eexists _, _.
      apply exited_on_query; [|done]. by apply all_succeeded_after.
  - eexists _, _. split; [by apply failed_at_after|]. by repeat split.
Qed.

Lemma psql_loop_ended fuel count base :
  forall o w,
    all_succeeded w ->
    let run := export_loop fuel count chunkSize
                 (Geojson.psql_chunk env tableName geomColumn idColumn chunkSize base)
                 o w in
    ended "tableToGeojson" run.1 run.2.
Proof.
  induction fuel as [|fuel IH]; intros o w Hw; [done|]. cbv zeta.
  destruct (JS.gt o count) eqn:Hgt.
  - by rewrite export_loop_break.
  - rewrite export_loop_next by done.
    pose proof (psql_chunk_ended base o w Hw) as Hbody. cbv zeta in Hbody.
    destruct (Geojson.psql_chunk _ _ _ _ _ _ _ _) as [[[]| | |] w1];
      cbn [fst snd] in *; try done.
    by apply IH.
Qed.

End Geojson_sql.

(** X3: [tableToGeojsonChunks] ends by returning its file path after
    commands that all succeeded, or in [process.exit(1)] right after the
    one command that failed; it never rejects.  On exit the last line on
    the console blames [queryPostgres] for a failed [psql] and
    [tableToGeojson] for a failed [rm], and the chunk file that the failed
    [psql] was redirected to is on disk, holding what [psql] printed. *)
Theorem geojson_exporter_ends_or_exits env fuel tableName geomColumn idColumn chunkSize
    filePath fs0 :
  let run := Geojson.tableToGeojsonChunks env fuel tableName geomColumn idColumn
               chunkSize filePath (start fs0) in
  ended "tableToGeojson" run.1 run.2 /\
  (forall e, run.1 <> Throw e) /\
  (forall a, run.1 = Ret a -> a = filePath).
Proof.
  cbv zeta. rewrite geojson_exporter_cases. cbv zeta.
  assert (all_succeeded (start fs0)) as H0 by constructor.
  destruct (ok (answer env (Psql _ _) (start fs0))) eqn:Hq; cbn [fst snd ended].
  - match goal with
    | |- context [export_loop ?f ?n ?c ?b ?o ?w1] =>
        pose proof (psql_loop_ended env tableName geomColumn idColumn chunkSize f n
                      (JS.split_head ".geojson" filePath) o w1) as Hloop
    end.
    cbv zeta in Hloop.
    destruct (export_loop _ _ _ _ _ _) as [[[]| | |] w2]; cbn [fst snd ended] in *.
    + split; [|split; [done|by intros a [= <-]]]. apply all_succeeded_say, Hloop.
      by apply all_succeeded_say, all_succeeded_after.
    + split; [|by split]. split; [done|].
      destruct Hloop as (c & r & Hfail & -> & Hblame & Hnone).
      { by apply all_succeeded_say, all_succeeded_after. }
      exists c, r. by apply exited_on_caught.
    + split; [|by split]. apply Hloop. by apply all_succeeded_say, all_succeeded_after.
    + split; [|by split]. apply Hloop. by apply all_succeeded_say, all_succeeded_after.
  - split; [|by split]. split; [done|]. eexists _, _. by apply exited_on_query.
Qed.

Section Geobuf_sql.
Context (env : Env) (tableName idColumn geomColumn : string) (chunkSize : JS.number).

Lemma geobuf_chunk_ended properties base o w :
  all_succeeded w ->
  let run := Geobuf.geobuf_chunk env tableName idColumn geomColumn properties chunkSize
               base o w in
  ended "tableToGeobufChunks" run.1 run.2 /\ forall e, run.1 <> Throw e.
Proof.
  intros Hw. cbv zeta. rewrite geobuf_chunk_cases. cbv zeta.
  destruct (ok (answer env (Psql _ _) w)) eqn:Hq; cbn [fst snd ended].
  - split; [|done]. by apply all_succeeded_say, all_succeeded_after.
  - split; [|done]. split; [done|]. eexists _, _. by apply exited_on_query.
Qed.

Lemma geobuf_loop_ended fuel count properties base :
  forall o w,
    all_succeeded w ->
    let run := export_loop fuel count chunkSize
                 (Geobuf.geobuf_chunk env tableName idColumn geomColumn properties
                    chunkSize base) o w in
    ended "tableToGeobufChunks" run.1 run.2 /\ forall e, run.1 <> Throw e.
Proof.
  induction fuel as [|fuel IH]; intros o w Hw; [done|]. cbv zeta.
  destruct (JS.gt o count) eqn:Hgt.
  - by rewrite export_loop_break.
  - rewrite export_loop_next by done.
    destruct (geobuf_chunk_ended properties base o w Hw) as [Hbody Hthrow].
    cbv zeta in Hbody, Hthrow.
    destruct (Geobuf.geobuf_chunk _ _ _ _ _ _ _ _ _) as [[[]| | |] w1];
      cbn [fst snd] in *; try done; try by destruct (Hthrow e).
    by apply IH.
Qed.

End Geobuf_sql.

(** X4: [tableToGeobufChunks] runs [psql] only.  It ends by returning
    its file path after commands that all succeeded, or in
    [process.exit(1)] right after the one [psql] that failed, with
    [[queryPostgres] Error: ...] as the last line on the console: its own
    [catch] never runs.  The chunk file that a failed export was
    redirected to is on disk, holding the bytes that [xxd] decoded from
    what [psql] printed. *)
Theorem geobuf_exporter_ends_or_exits env fuel tableName idColumn geomColumn chunkSize
    filePath fs0 :
  let run := Geobuf.tableToGeobufChunks env fuel tableName idColumn geomColumn
               chunkSize filePath (start fs0) in
  ended "tableToGeobufChunks" run.1 run.2 /\
  (forall e, run.1 <> Throw e) /\
  (forall a, run.1 = Ret a -> a = filePath) /\
  Forall (fun c => blame "tableToGeobufChunks" c = "queryPostgres") (trace run.2).*1.
Proof.
  cbv zeta. split; [|split; [|split]].
  - rewrite geobuf_exporter_cases. cbv zeta.
    destruct (ok (answer env (Psql _ _) (start fs0))) eqn:Hq; cbn [fst snd ended];
      [|split; [done|]; eexists _, _; apply exited_on_query; [constructor|done]].
    destruct (ok (answer env (Psql (Sql.column_names _) _) _)) eqn:Hc;
      cbn [fst snd ended].
    + match goal with
      | |- context [export_loop ?f ?n _ (Geobuf.geobuf_chunk _ _ _ _ ?ps _ ?b) ?o ?w1] =>
          destruct (geobuf_loop_ended env tableName idColumn geomColumn chunkSize
                      f n ps b o w1) as [Hloop Hthrow]
      end.
      { apply all_succeeded_say, all_succeeded_after; [|done].
        apply all_succeeded_say, all_succeeded_after; [constructor|done]. }
      cbv zeta in Hloop, Hthrow.
      destruct (export_loop _ _ _ _ _ _) as [[[]| | |] w2]; cbn [fst snd ended] in *;
        try done; try by destruct (Hthrow e).
    + split; [done|]. eexists _, _. apply exited_on_query; [|done].
      apply all_succeeded_say, all_succeeded_after; [constructor|done].
  - rewrite geobuf_exporter_cases. cbv zeta.
    destruct (ok (answer env (Psql _ _) (start fs0))); [|done].
    destruct (ok (answer env (Psql _ _) _)); [|done].
    by destruct (export_loop _ _ _ _ _ _) as [[[]| | |] w2].
  - rewrite geobuf_exporter_cases. cbv zeta.
    destruct (ok (answer env (Psql _ _) (start fs0))); [|done].
    destruct (ok (answer env (Psql _ _) _)); [|done].
    destruct (export_loop _ _ _ _ _ _) as [[[]| | |] w2]; try done.
    by intros a [= <-].
  - rewrite geobuf_exporter_cases. cbv zeta.
    assert (on_commands (fun c => blame "tableToGeobufChunks" c = "queryPostgres")
              (start fs0)) as H0 by constructor.
    destruct (ok (answer env (Psql _ _) (start fs0))); cbn [snd]; [|by keep_commands].
    destruct (ok (answer env (Psql _ _) _)); cbn [snd]; [|by keep_commands].
    match goal with
    | |- context [export_loop ?f ?n ?c ?b ?o ?w1] =>
        assert (on_commands (fun c => blame "tableToGeobufChunks" c = "queryPostgres")
                  (export_loop f n c b o w1).2) as Hloop
    end.
    { apply export_loop_keeps; [|by keep_commands].
      intros o w0 Hw0. rewrite geobuf_chunk_cases. cbv zeta.
      destruct (ok _); cbn [snd]; by keep_commands. }
    destruct (export_loop _ _ _ _ _ _) as [[[]| | |] w3]; cbn [snd] in *;
      by keep_commands.
Qed.

(** ** The base path, the converter and its input *)

Lemma split_go_head sep (s cur : string) :
  exists rest,
    String.rev cur +:+ s = hd EmptyString (JS.split_go sep 0 cur s) +:+ rest /\
    (rest = EmptyString \/ String.prefix sep rest = true).
Proof.
  revert cur. induction s as [|c s IH]; intros cur.
  - exists EmptyString. simpl. by split; [|left].
  - cbn [JS.split_go]. destruct (String.prefix sep (String c s)) eqn:Hsep.
    + exists (String c s). cbn [hd]. by split; [|right].
    + destruct (IH (String c cur)) as (rest & Heq & Hrest).
      exists rest. split; [|done]. rewrite <- Heq, rev_cons, append_assoc. done.
Qed.

(** [s.split(sep)[0]] is the part of [s] before what is left, and what is
    left is empty or begins with [sep]. *)
Lemma split_head_prefix sep (s : string) :
  exists rest,
    s = JS.split_head sep s +:+ rest /\
    (rest = EmptyString \/ String.prefix sep rest = true).
Proof. apply (split_go_head sep s EmptyString). Qed.



(** ** The chunk files and the pattern of the merger *)

Lemma decimal_not_slash c : is_decimal c = true -> not_slash c = true.
Proof. destruct c as [[] [] [] [] [] [] [] []]; try reflexivity; discriminate. Qed.

Lemma show_not_slash o : all_chars not_slash (JS.show o) = true.
Proof.
  destruct o as [z|]; [|reflexivity]. simpl.
  assert (forall p : positive, all_chars not_slash (pretty (N.pos p)) = true) as Hpos.
  { intros p. apply (all_chars_impl is_decimal); [apply decimal_not_slash|].
    by apply decimal_pretty_N_go. }
  destruct z as [|p|p]; [reflexivity|apply Hpos|].
  change (pretty (Z.neg p)) with ("-" +:+ pretty (N.pos p)).
  rewrite all_chars_append, Hpos. reflexivity.
Qed.

Lemma basename_go_step c cur s :
  not_slash c = true -> basename_go cur (String c s) = basename_go (String c cur) s.
Proof. destruct c as [[] [] [] [] [] [] [] []]; try reflexivity; discriminate. Qed.

Lemma basename_go_plain s cur :
  all_chars not_slash s = true -> basename_go cur s = String.rev cur +:+ s.
Proof.
  revert cur. induction s as [|c s IH]; intros cur Hs.
  - simpl. by rewrite append_nil_r.
  - simpl in Hs. apply andb_true_iff in Hs as [Hc Hs].
    rewrite basename_go_step, IH, rev_cons, append_assoc by done. done.
Qed.

(** A path without [/] is its own base name. *)
Lemma basename_plain s : all_chars not_slash s = true -> basename s = s.
Proof. intros Hs. unfold basename. by rewrite basename_go_plain. Qed.

Lemma glob_star_geojson mid : glob "*.geojson" (mid +:+ ".geojson") = true.
Proof.
  induction mid as [|c mid IH]; [reflexivity|].
  rewrite append_cons.
  change (glob "*.geojson" (String c (mid +:+ ".geojson")))
    with (glob ".geojson" (String c (mid +:+ ".geojson"))
          || glob "*.geojson" (mid +:+ ".geojson")).
  rewrite IH. apply orb_true_r.
Qed.

(** Every chunk file of the pipeline is found by the pattern of the
    merger, whatever its offset. *)
Lemma find_targets_part o : find_targets "layer_*.geojson" (Geojson.part "layer" o) = true.
Proof.
  unfold find_targets. rewrite basename_plain.
  - unfold Geojson.part. change ("layer" +:+ "_" +:+ JS.show o +:+ ".geojson")
      with ("layer_" +:+ (JS.show o +:+ ".geojson")).
    change (glob "layer_*.geojson" ("layer_" +:+ (JS.show o +:+ ".geojson")))
      with (glob "*.geojson" (JS.show o +:+ ".geojson")).
    apply glob_star_geojson.
  - unfold Geojson.part. rewrite !all_chars_append, show_not_slash. reflexivity.
Qed.

(** ** A run of the pipeline that succeeds *)

Lemma main_returns env fuel cfg w a :
  (Geojson.main env fuel cfg w).1 = Ret a ->
  exists w1,
    Geojson.tableToGeojsonChunksOgr2ogr env fuel (Geojson.tableName cfg)
      (Geojson.idColumn cfg) (Geojson.chunkSize cfg) Geojson.filePath w
    = (Ret Geojson.filePath, w1) /\
    let merge := Ogrmerge "layer.geojson" "layer_*.geojson" in
    let find := FindDelete "layer_*.geojson" in
    let convert := Json2geobuf "layer.geojson" "layer.gbf" in
    let w2 := after env merge w1 in
    let w3 := after env find w2 in
    ok (answer env merge w1) = true /\
    ok (answer env find w2) = true /\
    ok (answer env convert w3) = true /\
    a = "layer.gbf" /\
    (Geojson.main env fuel cfg w).2 = after env convert w3.
Proof.
  rewrite main_cases.
  destruct (Geojson.tableToGeojsonChunksOgr2ogr _ _ _ _ _ _ _) as [[a1| | |] w1] eqn:He;
    try done.
  assert (a1 = Geojson.filePath) as ->.
  { revert He. rewrite ogr2ogr_exporter_cases. cbv zeta.
    destruct (ok _); [|done].
    destruct (export_loop _ _ _ _ _ _) as [[[]| | |] w']; try done. by intros [= <- _]. }
  rewrite mergeGeojson_cases. cbv zeta. rewrite chunksPattern_layer.
  change Geojson.filePath with "layer.geojson".
  destruct (ok (answer env (Ogrmerge _ _) w1)) eqn:Hm; [|done].
  destruct (ok (answer env (FindDelete _) _)) eqn:Hf; [|done].
  rewrite geojsonToGeobuf_cases. cbv zeta.
  change (outputPath "layer.geojson") with "layer.gbf".
  destruct (ok (answer env (Json2geobuf _ _) _)) eqn:Hc; [|done].
  cbn [fst snd]. intros [= <-]. exists w1. by repeat split.
Qed.

(** X6: when the pipeline ends with status 0 it returns [layer.gbf];
    no file matching [layer_*.geojson] is left below the working directory,
    in particular no chunk file of any offset; [layer.gbf] holds what
    [json2geobuf] printed, and [layer.geojson] is as [ogrmerge.py] left
    it. *)
Theorem pipeline_success_leaves_no_chunks env fuel cfg fs0 a :
  let run := Geojson.main env fuel cfg (start fs0) in
  run.1 = Ret a ->
  a = "layer.gbf" /\
  (forall p, find_targets "layer_*.geojson" p = true -> fs run.2 !! p = None) /\
  (forall o, fs run.2 !! Geojson.part "layer" o = None) /\
  (exists r,
     last (trace run.2) = Some (Json2geobuf "layer.geojson" "layer.gbf", r) /\
     fs run.2 !! "layer.gbf" = Some (list_byte_of_string (stdout (proc r)))) /\
  (exists r,
     (Ogrmerge "layer.geojson" "layer_*.geojson", r) ∈ trace run.2 /\
     fs run.2 !! "layer.geojson" = dest r).
Proof.
  intros run Hret.
  destruct (main_returns env fuel cfg (start fs0) a Hret)
    as (w1 & _ & Hm & Hf & Hc & -> & Hw).
  fold run in Hw. rewrite Hw.
  assert (forall p, find_targets "layer_*.geojson" p = true ->
            fs (after env (Json2geobuf "layer.geojson" "layer.gbf")
                  (after env (FindDelete "layer_*.geojson")
                     (after env (Ogrmerge "layer.geojson" "layer_*.geojson") w1))) !! p
            = None) as Hgone.
  { intros p Hp. simpl. rewrite lookup_insert_ne by (by intros <-).
    by apply lookup_sweep_target. }
  split; [done|]. split; [done|]. split; [|split].
  - intros o. apply Hgone, find_targets_part.
  - eexists. split; [rewrite trace_after; apply last_snoc|]. simpl.
    apply lookup_insert_eq.
  - eexists. split.
    + rewrite !trace_after, !elem_of_app, !list_elem_of_singleton. left; left; by right.
    + simpl. rewrite lookup_insert_ne by done.
      rewrite lookup_sweep_other by done. apply lookup_put.
Qed.

Lemma pipeline_success_leaves_no_chunks_witness :
  fs (Geojson.main (calm " 10") 4 chunks_of_4 (start {[ "layer_8.geojson" := [x7b] ]})).2
    !! "layer_8.geojson" = None.
Proof.
  refine (proj1 (proj2 (pipeline_success_leaves_no_chunks (calm " 10") 4 chunks_of_4
                          {[ "layer_8.geojson" := [x7b] ]} "layer.gbf" _))
            "layer_8.geojson" _).
  - reflexivity.
  - reflexivity.
Defined.


(** ** The commands and the console of a run in which nothing fails *)

(** The loop over a body that always completes, seen through what the
    body adds to an observation of the world. *)
Lemma export_loop_observed {X} (obs : World -> list X) (R C : Z) body (out : Z -> list X) :
  (forall z w, exists w',
      body (JS.Num z) w = (Ret (), w') /\ obs w' = obs w ++ out z) ->
  forall (n : nat) z fuel w,
    (n < fuel)%nat ->
    R < z + Z.of_nat n * C ->
    (forall k, 0 <= k < Z.of_nat n -> z + k * C <= R) ->
    exists w',
      export_loop fuel (JS.Num R) (JS.Num C) body (JS.Num z) w = (Ret (), w') /\
      obs w' = obs w ++ ((fun k => z + k * C) <$> seqZ 0 (Z.of_nat n)) ≫= out.
Proof.
  intros Hbody n. induction n as [|n IH]; intros z fuel w Hfuel Hlast Hbelow.
  - destruct fuel as [|fuel]; [lia|].
    exists w. split.
    + apply export_loop_break. simpl. apply bool_decide_eq_true. lia.
    + rewrite seqZ_nil by lia. simpl. by rewrite app_nil_r.
  - destruct fuel as [|fuel]; [lia|].
    rewrite export_loop_next
      by (simpl; apply bool_decide_eq_false; specialize (Hbelow 0); lia).
    destruct (Hbody z w) as (w1 & -> & Hobs1).
    destruct (IH (z + C) fuel w1) as (w2 & Hrun & Hobs2).
    { lia. }
    { nia. }
    { intros k Hk. specialize (Hbelow (k + 1)). nia. }
    exists w2. split; [exact Hrun|].
    rewrite Hobs2, Hobs1, <- app_assoc. f_equal.
    rewrite (seqZ_cons 0 (Z.of_nat (S n))) by lia. cbn [fmap list_fmap mbind list_bind].
    rewrite Z.mul_0_l, Z.add_0_r. f_equal.
    replace (Z.pred (Z.of_nat (S n))) with (Z.of_nat n) by lia.
    rewrite <- (fmap_add_seqZ 1 0), <- list_fmap_compose.
    f_equal. apply list_fmap_ext. intros _ k _. simpl. lia.
Qed.

Lemma export_loop_observed_offsets {X} (obs : World -> list X) (R C : Z) body
    (out : Z -> list X) fuel w :
  0 <= R -> 1 <= C ->
  (forall z w, exists w',
      body (JS.Num z) w = (Ret (), w') /\ obs w' = obs w ++ out z) ->
  (Z.to_nat (R / C) + 1 < fuel)%nat ->
  exists w',
    export_loop fuel (JS.Num R) (JS.Num C) body (JS.Num 0) w = (Ret (), w') /\
    obs w' = obs w ++ chunk_offsets R C ≫= out.
Proof.
  intros HR HC Hbody Hfuel.
  pose proof (Z.div_pos R C HR ltac:(lia)) as Hq.
  pose proof (Z.mul_div_le R C ltac:(lia)) as Hle.
  pose proof (Z.mul_succ_div_gt R C ltac:(lia)) as Hgt.
  destruct (export_loop_observed obs R C body out Hbody
              (Z.to_nat (R / C + 1)) 0 fuel w) as (w' & Hrun & Hobs).
  - lia.
  - rewrite Z2Nat.id by lia. lia.
  - intros k Hk. rewrite Z2Nat.id in Hk by lia. nia.
  - exists w'. split; [done|]. rewrite Hobs. do 2 f_equal.
    rewrite Z2Nat.id by lia. unfold chunk_offsets.
    apply list_fmap_ext. intros _ k _. lia.
Qed.

(** What the exporter of the pipeline prints when nothing fails. *)
Lemma ogr2ogr_exporter_console env R C tableName idColumn filePath fuel w :
  all_ok env -> counts env tableName R -> 0 <= R -> 1 <= C ->
  (Z.to_nat (R / C) + 1 < fuel)%nat ->
  exists w',
    Geojson.tableToGeojsonChunksOgr2ogr env fuel tableName idColumn (JS.Num C) filePath w
    = (Ret filePath, w') /\
    console w' =
      console w ++ TimeEnd (Geojson.executed (Sql.count_rows tableName))
        :: (chunk_offsets R C ≫= chunk_lines)
        ++ [TimeEnd (ogr2ogr_created tableName filePath)].
Proof.
  intros Hok Hcount HR HC Hfuel. rewrite ogr2ogr_exporter_cases. cbv zeta.
  rewrite (answer_ok env Hok), (answer_count env R tableName Hcount).
  edestruct (export_loop_observed_offsets console R C
               (Geojson.ogr2ogr_chunk env tableName idColumn (JS.Num C)
                  (JS.split_head ".geojson" filePath)) chunk_lines)
    as (w' & -> & Hcon); [exact HR|exact HC| |exact Hfuel|].
  - intros z w0. rewrite ogr2ogr_chunk_cases. cbv zeta.
    rewrite !(answer_ok env Hok).
    eexists. split; [reflexivity|]. simpl. by rewrite <- app_assoc.
  - eexists. split; [reflexivity|]. simpl. rewrite Hcon. simpl.
    by rewrite <- !app_assoc.
Qed.

Lemma chunk_size_decimal cfg C :
  0 <= C -> Geojson.CHUNK_SIZE cfg = Some (pretty C) -> Geojson.chunkSize cfg = JS.Num C.
Proof.
  intros HC Hcfg. unfold Geojson.chunkSize. rewrite Hcfg.
  destruct (pretty_nonnegative C HC) as [Hdec Hdigits].
  destruct (pretty C) as [|c s] eqn:Hp; [done|].
  cbn [Geojson.or_else]. by apply parseInt_decimal.
Qed.

(** X7: with [CHUNK_SIZE] the decimal text of C >= 1, a table of R >= 0
    rows, C and R below 2^53, names of the table and of the identifier
    that zx leaves unquoted, and commands that all succeed, the pipeline
    returns [layer.gbf];
    it has run the count query, then [rm -rf] and [ogr2ogr] for each of
    the offsets 0, C, ..., ⌊R/C⌋·C, then [ogrmerge.py], [find -delete]
    and [json2geobuf], and nothing else; the console shows the timer of
    the count query, two lines per chunk and the timer of the exporter:
    the timers of the merger and of the converter are started and never
    ended. *)
Theorem successful_run env fuel cfg R C fs0 :
  all_ok env -> counts env (Geojson.tableName cfg) R ->
  Geojson.CHUNK_SIZE cfg = Some (pretty C) ->
  0 <= R -> 1 <= C -> safe R -> safe C ->
  unquoted (Geojson.tableName cfg) = true -> unquoted (Geojson.idColumn cfg) = true ->
  (Z.to_nat (R / C) + 1 < fuel)%nat ->
  let run := Geojson.main env fuel cfg (start fs0) in
  run.1 = Ret "layer.gbf" /\
  (trace run.2).*1 =
    Psql (Sql.count_rows (Geojson.tableName cfg)) Inherit
    :: (chunk_offsets R C
          ≫= ogr2ogr_cmds (Geojson.tableName cfg) (Geojson.idColumn cfg) C "layer")
    ++ closing /\
  console run.2 =
    TimeEnd (Geojson.executed (Sql.count_rows (Geojson.tableName cfg)))
    :: (chunk_offsets R C ≫= chunk_lines)
    ++ [TimeEnd (ogr2ogr_created (Geojson.tableName cfg) "layer.geojson")].
Proof.
  intros Hok Hcount Hcfg HR HC _ _ _ _ Hfuel run. subst run.
  rewrite main_cases, (chunk_size_decimal cfg C) by (done || lia).
  destruct (ogr2ogr_exporter_offsets env R C (Geojson.tableName cfg) Hok Hcount HR HC
              (Geojson.idColumn cfg) Geojson.filePath fuel (start fs0) Hfuel)
    as (w1 & Hrun & Htr).
  destruct (ogr2ogr_exporter_console env R C (Geojson.tableName cfg)
              (Geojson.idColumn cfg) Geojson.filePath fuel (start fs0)
              Hok Hcount HR HC Hfuel)
    as (w1' & Hrun' & Hcon).
  rewrite Hrun in Hrun'. injection Hrun' as <-.
  rewrite Hrun, mergeGeojson_cases. cbv zeta. rewrite !(answer_ok env Hok).
  rewrite geojsonToGeobuf_cases. cbv zeta. rewrite (answer_ok env Hok).
  rewrite chunksPattern_layer. cbn [fst snd]. split; [done|]. split.
  - rewrite !trace_after, !fmap_app, Htr, split_head_layer. simpl.
    by rewrite <- !app_assoc.
  - simpl. by rewrite Hcon.
Qed.

Lemma successful_run_witness :
  console (Geojson.main (calm " 10") 4 chunks_of_4 (start ∅)).2 =
    [TimeEnd "[queryPostgres] Executed query: SELECT count(*) FROM table";
     Log "Processing 0"; TimeEnd "[tableToGeojsonChunksOgr2ogr] Processed 0";
     Log "Processing 4"; TimeEnd "[tableToGeojsonChunksOgr2ogr] Processed 4";
     Log "Processing 8"; TimeEnd "[tableToGeojsonChunksOgr2ogr] Processed 8";
     TimeEnd "[tableToGeojsonChunksOgr2ogr] Created table in layer.geojson"].
Proof.
  refine (proj2 (proj2 (successful_run (calm " 10") 4 chunks_of_4 10 4 ∅
                          _ _ _ _ _ _ _ _ _ _))).
  - intros n fs0 c. reflexivity.
  - intros n fs0. reflexivity.
  - reflexivity.
  - lia.
  - lia.
  - reflexivity.
  - reflexivity.
  - reflexivity.
  - reflexivity.
  - vm_compute. lia.
Defined.


(** ** The merged file and the pattern of the chunks *)

Lemma literal_not_slash c : literal c = true -> not_slash c = true.
Proof. destruct c as [[] [] [] [] [] [] [] []]; try reflexivity; discriminate. Qed.

Lemma glob_literal c pat d s :
  literal c = true ->
  glob (String c pat) (String d s) = Ascii.eqb c d && glob pat s.
Proof. destruct c as [[] [] [] [] [] [] [] []]; try reflexivity; discriminate. Qed.

(** A pattern and a name that begin with the same literal text match as
    their remainders do. *)
Lemma glob_literal_prefix (a pat s : string) :
  all_chars literal a = true -> glob (a +:+ pat) (a +:+ s) = glob pat s.
Proof.
  induction a as [|c a IH]; [done|]. intros H. simpl in H.
  apply andb_true_iff in H as [Hc Ha].
  rewrite !append_cons, glob_literal, Ascii.eqb_refl by done. by apply IH.
Qed.

(** A path of literal characters is not matched by its own chunk
    pattern: after the base comes [_] in the pattern, and [.] or the end
    in the path. *)
Lemma output_not_a_chunk filePath :
  all_chars literal filePath = true ->
  find_targets (chunksPattern filePath) filePath = false.
Proof.
  intros Hlit. unfold find_targets, chunksPattern.
  rewrite basename_plain
    by (apply (all_chars_impl literal); [apply literal_not_slash|done]).
  destruct (split_head_prefix ".geojson" filePath) as (rest & Heq & Hrest).
  rewrite Heq at 2. rewrite Heq, all_chars_append in Hlit.
  apply andb_true_iff in Hlit as [Hbase _].
  rewrite glob_literal_prefix by done.
  destruct Hrest as [->|Hrest]; [reflexivity|].
  destruct rest as [|c rest]; [done|]. cbn [String.prefix] in Hrest.
  destruct (ascii_dec "." c) as [<-|]; [reflexivity|done].
Qed.

(** X8: the cleanup of the merger never deletes the merged file: for a
    file path of literal characters (none of [*], [?], [[], backslash,
    [/]) the path is not matched by its own chunk pattern, and however
    the merger ends the file is as [ogrmerge.py] left it. *)
Theorem merger_keeps_its_output env filePath w :
  all_chars literal filePath = true ->
  let run := Geojson.mergeGeojson env filePath w in
  let r := answer env (Ogrmerge filePath (chunksPattern filePath)) w in
  find_targets (chunksPattern filePath) filePath = false /\
  fs run.2 !! filePath = dest r /\
  (ok r = false -> forall p, p <> filePath -> fs run.2 !! p = fs w !! p).
Proof.
  intros Hlit. cbv zeta. pose proof (output_not_a_chunk filePath Hlit) as Hnot.
  split; [done|]. rewrite mergeGeojson_cases. cbv zeta.
  destruct (ok (answer env (Ogrmerge _ _) w)) eqn:Hm.
  - split; [|done].
    destruct (ok (answer env (FindDelete _) _)); cbn [snd]; unfold caught;
      rewrite ?fs_say; simpl;
      rewrite lookup_sweep_other by done; apply lookup_put.
  - cbn [snd]. unfold caught. rewrite !fs_say. simpl. split; [apply lookup_put|].
    intros _ p Hp. by apply lookup_put_other.
Qed.

Lemma merger_keeps_its_output_witness :
  fs (Geojson.mergeGeojson (calm EmptyString) "layer.geojson" (start ∅)).2
    !! "layer.geojson" = Some [].
Proof.
  refine (proj1 (proj2 (merger_keeps_its_output (calm EmptyString) "layer.geojson"
                          (start ∅) _))).
  reflexivity.
Defined.

(** With a [*] in the path the merged file may itself match the
    pattern, and is then deleted with the chunks. *)
Example output_matched_by_pattern :
  let filePath := "*.geojson_.geojson" in
  let run := Geojson.mergeGeojson (calm EmptyString) filePath (start ∅) in
  chunksPattern filePath = "*_*.geojson" /\
  run.1 = Ret filePath /\ fs run.2 !! filePath = None.
Proof. cbv zeta. split; [reflexivity|]. split; [reflexivity|]. by vm_compute. Qed.


(** ** The chunk files of the exporters that go through [psql] *)

Lemma number_then_suffix (e a b rest : string) :
  dotless a = true -> dotless b = true ->
  a +:+ String "." e = b +:+ String "." e +:+ rest ->
  a = b /\ rest = EmptyString.
Proof.
  revert b. induction a as [|c a IH]; intros [|d b] Ha Hb Heq;
    rewrite ?append_cons, ?append_nil_l in Heq.
  - split; [done|]. by apply (append_self_nil (String "." e)).
  - injection Heq as <- _. done.
  - injection Heq as -> _. done.
  - injection Heq as -> Heq. simpl in Ha, Hb.
    apply andb_true_iff in Ha as [_ Ha], Hb as [_ Hb].
    destruct (IH b Ha Hb Heq) as [-> ->]. done.
Qed.

Lemma geobuf_part_inj base (z z' : Z) :
  Geobuf.part base (JS.Num z) = Geobuf.part base (JS.Num z') -> z = z'.
Proof.
  unfold Geobuf.part. intros H. simpl in H.
  apply (inj (String.app base)) in H. injection H as H.
  rewrite <- (append_nil_r (pretty z' +:+ ".gbf")), append_assoc in H.
  apply (number_then_suffix "gbf") in H as [H _]; [|apply dotless_pretty_Z..].
  by apply (inj pretty).
Qed.

Section Outputs.
Context (env : Env) (part : Z -> string) (C : Z).
Hypothesis Hinj : forall z z', part z = part z' -> z = z'.
Hypothesis HC : 1 <= C.

Lemma outputs_kept_say z l w : outputs_kept part z (say l w) <-> outputs_kept part z w.
Proof. reflexivity. Qed.

Lemma outputs_kept_mono z z' w :
  z <= z' -> outputs_kept part z w -> outputs_kept part z' w.
Proof.
  intros Hz Hw c r p b Hin Hred. destruct (Hw c r p b Hin Hred) as [(z0 & Hz0 & ->) Hfs].
  split; [|done]. exists z0. split; [lia|done].
Qed.

Lemma outputs_kept_start z fs0 : outputs_kept part z (start fs0).
Proof. intros c r p b Hin. by apply elem_of_nil in Hin. Qed.

Lemma outputs_kept_query z q w :
  outputs_kept part z w -> outputs_kept part z (after env (Psql q Inherit) w).
Proof.
  intros Hw c r p b Hin Hred.
  rewrite trace_after, elem_of_app, list_elem_of_singleton in Hin.
  destruct Hin as [Hin|Hin]; [|by injection Hin as -> ->].
  exact (Hw c r p b Hin Hred).
Qed.

(** A command that redirects its output to the chunk file of [z]. *)
Lemma outputs_kept_redirect z c w :
  0 <= z ->
  (forall r, exists b,
      redirected c r = Some (part z, b) /\
      forall files0 p, effect c r files0 !! p =
                       if decide (p = part z) then Some b else files0 !! p) ->
  outputs_kept part z w -> outputs_kept part (z + 1) (after env c w).
Proof.
  intros Hz Hc Hw c' r p b Hin Hred.
  rewrite trace_after, elem_of_app, list_elem_of_singleton in Hin.
  destruct (Hc (answer env c w)) as (b0 & Hred0 & Heff). simpl. rewrite Heff.
  destruct Hin as [Hin|Hin].
  - destruct (Hw c' r p b Hin Hred) as [(z0 & Hz0 & ->) Hfs].
    split; [exists z0; split; [lia|done]|].
    rewrite decide_False; [done|]. intros Heq%Hinj. lia.
  - injection Hin as -> ->. rewrite Hred0 in Hred. injection Hred as <- <-.
    split; [exists z; split; [lia|done]|]. by rewrite decide_True.
Qed.

Lemma export_loop_outputs_kept body fuel count :
  (forall z w, 0 <= z -> outputs_kept part z w ->
     outputs_kept part (z + C) (body (JS.Num z) w).2) ->
  forall z w,
    0 <= z -> outputs_kept part z w ->
    exists z', outputs_kept part z' (export_loop fuel count (JS.Num C) body (JS.Num z) w).2.
Proof.
  intros Hbody. induction fuel as [|fuel IH]; intros z w Hz Hw; [by exists z|].
  destruct (JS.gt (JS.Num z) count) eqn:Hgt.
  - rewrite export_loop_break by done. by exists z.
  - rewrite export_loop_next by done.
    specialize (Hbody z w Hz Hw).
    destruct (body (JS.Num z) w) as [[[]| | |] w1]; cbn [snd] in *;
      try by exists (z + C).
    apply IH; [lia|done].
Qed.

End Outputs.

Lemma insert_lookup_decide (files0 : files) dst b p :
  <[dst := b]> files0 !! p = if decide (p = dst) then Some b else files0 !! p.
Proof.
  destruct (decide (p = dst)) as [->|Hne]; [apply lookup_insert_eq|by apply lookup_insert_ne].
Qed.

Lemma geobuf_chunk_outputs_kept env tableName idColumn geomColumn properties C base z w :
  1 <= C -> 0 <= z ->
  outputs_kept (fun o => Geobuf.part base (JS.Num o)) z w ->
  outputs_kept (fun o => Geobuf.part base (JS.Num o)) (z + C)
    (Geobuf.geobuf_chunk env tableName idColumn geomColumn properties (JS.Num C) base
       (JS.Num z) w).2.
Proof.
  intros HC Hz Hw. rewrite geobuf_chunk_cases. cbv zeta.
  apply (outputs_kept_mono _ (z + 1)); [lia|].
  assert (outputs_kept (fun o => Geobuf.part base (JS.Num o)) (z + 1)
            (after env (Psql (Sql.geobuf_chunk tableName idColumn geomColumn properties
                                (JS.Num C) (JS.Num z))
                          (XxdToFile (Geobuf.part base (JS.Num z)))) w)) as H.
  { apply outputs_kept_redirect; [apply geobuf_part_inj|done| |done].
    intros r. eexists. split; [reflexivity|]. intros files0 p.
    apply insert_lookup_decide. }
  by destruct (ok _).
Qed.

(** X9: in a run of [tableToGeobufChunks] with a chunk size C >= 1,
    however it ends, every chunk file written so far is the file of an
    offset that is not negative and holds the bytes that [xxd -p -r] made
    of the output of its own query: no later chunk and no later command
    overwrites it. *)
Theorem geobuf_chunks_stay env fuel tableName idColumn geomColumn C filePath fs0 i q p r :
  1 <= C ->
  let run := Geobuf.tableToGeobufChunks env fuel tableName idColumn geomColumn (JS.Num C)
               filePath (start fs0) in
  trace run.2 !! i = Some (Psql q (XxdToFile p), r) ->
  (exists z, 0 <= z /\ p = Geobuf.part (JS.split_head ".gbf" filePath) (JS.Num z)) /\
  fs run.2 !! p = Some (xxd_p_r (stdout (proc r))).
Proof.
  intros HC run Hi.
  set (part := fun o => Geobuf.part (JS.split_head ".gbf" filePath) (JS.Num o)).
  assert (exists z, outputs_kept part z run.2) as [z Hkept].
  { subst run. rewrite geobuf_exporter_cases. cbv zeta.
    destruct (ok (answer env (Psql (Sql.count_rows _) _) _)); cbn [snd];
      [|exists 0; by apply outputs_kept_say, outputs_kept_query, outputs_kept_start].
    destruct (ok (answer env (Psql (Sql.column_names _) _) _)); cbn [snd];
      [|exists 0; by apply outputs_kept_say, outputs_kept_query, outputs_kept_say,
                       outputs_kept_query, outputs_kept_start].
    match goal with
    | |- context [export_loop ?f ?n _ ?body _ ?w1] =>
        destruct (export_loop_outputs_kept part C HC body f n) with (z := 0) (w := w1)
          as [z Hz]
    end.
    - intros z w Hz Hw. by apply geobuf_chunk_outputs_kept.
    - done.
    - by apply outputs_kept_say, outputs_kept_query, outputs_kept_say,
        outputs_kept_query, outputs_kept_start.
    - exists z. destruct (export_loop _ _ _ _ _ _) as [[[]| | |] w3]; cbn [snd] in *;
        unfold caught; by rewrite ?outputs_kept_say. }
  apply list_elem_of_lookup_2 in Hi.
  destruct (Hkept _ _ p (xxd_p_r (stdout (proc r))) Hi eq_refl) as [(z' & Hz' & ->) Hfs].
  split; [|done]. exists z'. split; [lia|done].
Qed.

Lemma geobuf_chunks_stay_witness :
  fs (Geobuf.tableToGeobufChunks hex_7b7d 9 "table" "id" "geom" (JS.Num 4) "layer.gbf"
        (start ∅)).2 !! "layer_0.gbf" = Some [x7b; x7d].
Proof.
  refine (proj2 (geobuf_chunks_stay hex_7b7d 9 "table" "id" "geom" 4 "layer.gbf" ∅ 2%nat
                   (Sql.geobuf_chunk "table" "id" "geom"
                      (Geobuf.properties_of (" 7b7d" +:+ newline) "id" "geom")
                      (JS.Num 4) (JS.Num 0))
                   "layer_0.gbf"
                   (hex_7b7d 2%nat ∅ (RmRf EmptyString)) _ _)).
  - lia.
  - reflexivity.
Defined.


Lemma outputs_kept_rm env base z w :
  outputs_kept (fun o => Geojson.part base (JS.Num o)) z w ->
  outputs_kept (fun o => Geojson.part base (JS.Num o)) z
    (after env (RmRf (Geojson.part base (JS.Num z))) w).
Proof.
  intros Hw c r p b Hin Hred.
  rewrite trace_after, elem_of_app, list_elem_of_singleton in Hin.
  destruct Hin as [Hin|Hin]; [|by injection Hin as -> ->].
  destruct (Hw c r p b Hin Hred) as [(z0 & Hz0 & ->) Hfs].
  split; [by exists z0|]. simpl.
  rewrite lookup_sweep_other; [done|]. apply rm_targets_part. lia.
Qed.

Lemma psql_chunk_outputs_kept env tableName geomColumn idColumn C base z w :
  1 <= C -> 0 <= z ->
  outputs_kept (fun o => Geojson.part base (JS.Num o)) z w ->
  outputs_kept (fun o => Geojson.part base (JS.Num o)) (z + C)
    (Geojson.psql_chunk env tableName geomColumn idColumn (JS.Num C) base (JS.Num z) w).2.
Proof.
  intros HC Hz Hw. rewrite psql_chunk_cases. cbv zeta.
  pose proof (outputs_kept_rm env base z w Hw) as Hrm.
  destruct (ok (answer env (RmRf _) w)); cbn [snd];
    [|by apply (outputs_kept_mono _ z); [lia|]].
  apply (outputs_kept_mono _ (z + 1)); [lia|].
  assert (outputs_kept (fun o => Geojson.part base (JS.Num o)) (z + 1)
            (after env (Psql (Sql.geojson_chunk tableName geomColumn idColumn
                                (JS.Num C) (JS.Num z))
                          (ToFile (Geojson.part base (JS.Num z))))
               (after env (RmRf (Geojson.part base (JS.Num z))) w))) as H.
  { apply outputs_kept_redirect; [apply part_inj|done| |done].
    intros r. eexists. split; [reflexivity|]. intros files0 p.
    apply insert_lookup_decide. }
  by destruct (ok _).
Qed.

(** X10: in a run of [tableToGeojsonChunks] with a chunk size C >= 1,
    however it ends, every chunk file written so far is the file of an
    offset that is not negative and holds the output of its own query:
    the [rm -rf] of a later chunk, and the later queries, leave it
    alone. *)
Theorem geojson_chunks_stay env fuel tableName geomColumn idColumn C filePath fs0 i q p r :
  1 <= C ->
  let run := Geojson.tableToGeojsonChunks env fuel tableName geomColumn idColumn (JS.Num C)
               filePath (start fs0) in
  trace run.2 !! i = Some (Psql q (ToFile p), r) ->
  (exists z, 0 <= z /\ p = Geojson.part (JS.split_head ".geojson" filePath) (JS.Num z)) /\
  fs run.2 !! p = Some (list_byte_of_string (stdout (proc r))).
Proof.
  intros HC run Hi.
  set (part := fun o => Geojson.part (JS.split_head ".geojson" filePath) (JS.Num o)).
  assert (exists z, outputs_kept part z run.2) as [z Hkept].
  { subst run. rewrite geojson_exporter_cases. cbv zeta.
    destruct (ok (answer env (Psql (Sql.count_rows _) _) _)); cbn [snd];
      [|exists 0; by apply outputs_kept_say, outputs_kept_query, outputs_kept_start].
    match goal with
    | |- context [export_loop ?f ?n _ ?body _ ?w1] =>
        destruct (export_loop_outputs_kept part C HC body f n) with (z := 0) (w := w1)
          as [z Hz]
    end.
    - intros z w Hz Hw. by apply psql_chunk_outputs_kept.
    - done.
    - by apply outputs_kept_say, outputs_kept_query, outputs_kept_start.
    - exists z. destruct (export_loop _ _ _ _ _ _) as [[[]| | |] w3]; cbn [snd] in *;
        unfold caught; by rewrite ?outputs_kept_say. }
  apply list_elem_of_lookup_2 in Hi.
  destruct (Hkept _ _ p (list_byte_of_string (stdout (proc r))) Hi eq_refl)
    as [(z' & Hz' & ->) Hfs].
  split; [|done]. exists z'. split; [lia|done].
Qed.

Lemma geojson_chunks_stay_witness :
  fs (Geojson.tableToGeojsonChunks (calm " 10") 9 "table" "geom" "id" (JS.Num 4)
        "layer.geojson" (start ∅)).2 !! "layer_4.geojson"
  = Some (list_byte_of_string " 10").
Proof.
  refine (proj2 (geojson_chunks_stay (calm " 10") 9 "table" "geom" "id" 4 "layer.geojson" ∅
                   4%nat
                   (Sql.geojson_chunk "table" "geom" "id" (JS.Num 4) (JS.Num 4))
                   "layer_4.geojson"
                   (calm " 10" 4%nat ∅ (RmRf EmptyString)) _ _)).
  - lia.
  - reflexivity.
Defined.


(** ** Chunk files left by an earlier run *)

(** The loop from a multiple of the chunk size only runs its body at
    multiples of the chunk size. *)
Lemma export_loop_multiples (I : World -> Prop) (C : Z) body fuel count :
  (forall k w, 0 <= k -> I w -> I (body (JS.Num (k * C)) w).2) ->
  forall k w, 0 <= k -> I w ->
    I (export_loop fuel count (JS.Num C) body (JS.Num (k * C)) w).2.
Proof.
  intros Hbody. induction fuel as [|fuel IH]; intros k w Hk Hw; [done|].
  destruct (JS.gt (JS.Num (k * C)) count) eqn:Hgt.
  - by rewrite export_loop_break.
  - rewrite export_loop_next by done.
    specialize (Hbody k w Hk Hw).
    destruct (body (JS.Num (k * C)) w) as [[[]| | |] w1]; cbn [snd] in *; try done.
    simpl JS.add. replace (k * C + C) with ((k + 1) * C) by lia.
    apply IH; [lia|done].
Qed.

Lemma ogr2ogr_chunk_elsewhere env tableName idColumn chunkSize base z z' w :
  z <> z' ->
  fs (Geojson.ogr2ogr_chunk env tableName idColumn chunkSize base (JS.Num z') w).2
    !! Geojson.part base (JS.Num z)
  = fs w !! Geojson.part base (JS.Num z).
Proof.
  intros Hne. rewrite ogr2ogr_chunk_cases. cbv zeta.
  assert (fs (after env (RmRf (Geojson.part base (JS.Num z'))) w)
            !! Geojson.part base (JS.Num z)
          = fs w !! Geojson.part base (JS.Num z)) as Hrm.
  { simpl. apply lookup_sweep_other, rm_targets_part. done. }
  destruct (ok (answer env (RmRf _) w)); cbn [snd]; [|done].
  destruct (ok (answer env (Ogr2ogr _ _) _)); cbn [snd]; rewrite ?fs_say; simpl;
    (rewrite lookup_put_other by (intros Heq%part_inj; done)); exact Hrm.
Qed.

(** X11: the exporter of the pipeline removes and writes the chunk files
    of its own offsets only: for a count R and a chunk size C >= 0 below
    2^53 (so that the offsets of the script, which are doubles, are the
    multiples of C), a chunk file [layer_z.geojson] whose offset z
    is not a multiple of the chunk size (left by a run with another chunk
    size, say) is after the export as it was before, however the export
    ends, and it matches the pattern by which the merger then collects
    and deletes the chunks. *)
Theorem stale_chunks_survive_export env fuel tableName idColumn R C fs0 z :
  counts env tableName R -> safe R -> 0 <= C -> safe C ->
  z mod C <> 0 ->
  let run := Geojson.tableToGeojsonChunksOgr2ogr env fuel tableName idColumn (JS.Num C)
               Geojson.filePath (start fs0) in
  fs run.2 !! Geojson.part "layer" (JS.Num z) = fs0 !! Geojson.part "layer" (JS.Num z) /\
  find_targets (chunksPattern Geojson.filePath) (Geojson.part "layer" (JS.Num z)) = true.
Proof.
  intros _ _ _ _ Hz run. split; [|rewrite chunksPattern_layer; apply find_targets_part].
  subst run. rewrite ogr2ogr_exporter_cases. cbv zeta. rewrite split_head_layer.
  set (I := fun w : World =>
              fs w !! Geojson.part "layer" (JS.Num z)
              = fs0 !! Geojson.part "layer" (JS.Num z)).
  destruct (ok (answer env (Psql _ _) _)); cbn [snd]; [|done].
  match goal with
  | |- context [export_loop ?f ?n _ ?body _ ?w1] =>
      pose proof (export_loop_multiples I C body f n) as Hloop;
      specialize (fun H => Hloop H 0 w1)
  end.
  rewrite Z.mul_0_l in Hloop.
  assert (I (export_loop fuel
               (JS.parseInt (JS.trim (stdout (proc (answer env
                  (Psql (Sql.count_rows tableName) Inherit) (start fs0))))))
               (JS.Num C)
               (Geojson.ogr2ogr_chunk env tableName idColumn (JS.Num C) "layer")
               (JS.Num 0)
               (say (TimeEnd (Geojson.executed (Sql.count_rows tableName)))
                  (after env (Psql (Sql.count_rows tableName) Inherit) (start fs0)))).2)
    as Hend.
  { apply Hloop; [|done|done].
    intros k w Hk Hw. unfold I. rewrite ogr2ogr_chunk_elsewhere; [exact Hw|].
    intros ->. by rewrite Z_mod_mult in Hz. }
  destruct (export_loop _ _ _ _ _ _) as [[[]| | |] w2]; cbn [snd] in *;
    unfold caught; by rewrite ?fs_say.
Qed.

Lemma stale_chunks_survive_export_witness :
  fs (Geojson.tableToGeojsonChunksOgr2ogr (calm " 10") 9 "table" "id" (JS.Num 4)
        "layer.geojson" (start {[ "layer_3.geojson" := [x7b] ]})).2
    !! "layer_3.geojson" = Some [x7b].
Proof.
  refine (proj1 (stale_chunks_survive_export (calm " 10") 9 "table" "id" 10 4
                   {[ "layer_3.geojson" := [x7b] ]} 3 _ _ _ _ _)).
  - intros n fs0. reflexivity.
  - reflexivity.
  - lia.
  - reflexivity.
  - vm_compute. discriminate.
Defined.
